(** * RadosOrchestrator (ceph/rados/core_workflows.py): a shallow embedding

    The module drives a Ceph cluster through two command transports
    ([self.node.shell] and [self.client.exec_command]), decodes the JSON
    the commands print and polls the cluster with [time.sleep] between
    fetches.  The embedding keeps that shape:

    - Python values coming out of [json.loads] are the inductive [pyval];
    - exceptions are values of [exn], and a computation either returns,
      raises, or runs out of the fuel given to its [while] loops;
    - the cluster, the clock and [time.sleep] are explicit state: a [world]
      holds the wall clock and the trace of every command and sleep issued
      so far, and the cluster answers a command as a function of that
      trace. *)

From Stdlib Require Import ZArith NArith List String Ascii Bool Lia.
From Stdlib Require Import SpecFloat DecimalString.
Import ListNotations.

Set Warnings "-register-all".

Local Open Scope string_scope.
Local Open Scope Z_scope.

(* ================================================================== *)
(** * Python values, exceptions and the built-ins the module uses      *)
(* ================================================================== *)

Module Py.

(** A [str] is embedded as a [string] of code points below 256. *)

(** Python's [float] is IEEE binary64. *)
Definition prec : Z := 53.
Definition emax : Z := 1024.

Inductive pyval : Type :=
| PNone
| PBool (b : bool)
| PInt (z : Z)
| PFloat (f : spec_float)
| PStr (s : string)
| PList (l : list pyval)
| PDict (d : list (string * pyval)).

(** The exceptions that can surface in the embedded methods.  All of them
    derive from [Exception], so a bare [except Exception] catches each. *)
Inductive exn : Type :=
| CommandFailed (msg : string)   (* whatever the transport raised *)
| JSONDecodeError
| TypeError
| KeyError
| IndexError
| AttributeError
| UnboundLocalError (var : string)
| OverflowError
| ValueError.

Inductive res (A : Type) : Type :=
| Ok (a : A)
| Raise (e : exn)
| OutOfFuel.

Arguments Ok {A} a.
Arguments Raise {A} e.
Arguments OutOfFuel {A}.

Definition res_bind {A B} (r : res A) (k : A -> res B) : res B :=
  match r with
  | Ok a => k a
  | Raise e => Raise e
  | OutOfFuel => OutOfFuel
  end.

Declare Scope py_scope.
Delimit Scope py_scope with py.

Notation "'let!' x := r 'in' k" := (res_bind r (fun x => k))
  (at level 61, x name, r at next level, right associativity) : py_scope.

(** ** Strings *)

Definition code (c : ascii) : N := N_of_ascii c.

(** [str.isspace] on one character: the code points below 256 that Unicode
    classes as whitespace (bidirectional type WS, B or S, or category Zs). *)
Definition char_isspace (c : ascii) : bool :=
  let n := code c in
  ((9 <=? n) && (n <=? 13) || (28 <=? n) && (n <=? 32)
   || (n =? 133) || (n =? 160))%N.

(** [s.isspace()]: every character is whitespace and there is at least one. *)
Fixpoint all_space (s : string) : bool :=
  match s with
  | EmptyString => true
  | String c s' => char_isspace c && all_space s'
  end.

Definition isspace (s : string) : bool :=
  match s with
  | EmptyString => false
  | String _ _ => all_space s
  end.

Definition char_lower (c : ascii) : ascii :=
  let n := code c in
  if ((65 <=? n) && (n <=? 90)
      || (192 <=? n) && (n <=? 222) && negb (n =? 215))%N
  then ascii_of_N (n + 32) else c.

(** [s.lower()] *)
Fixpoint lower (s : string) : string :=
  match s with
  | EmptyString => EmptyString
  | String c s' => String (char_lower c) (lower s')
  end.

(** [sub in s] for two strings *)
Fixpoint contains (sub s : string) : bool :=
  prefix sub s ||
  match s with
  | EmptyString => false
  | String _ s' => contains sub s'
  end.

(** [s.split(sep)] for a one-character separator: [cur] collects, reversed,
    the characters of the piece being read. *)
Fixpoint rev_string (acc s : string) : string :=
  match s with
  | EmptyString => acc
  | String c s' => rev_string (String c acc) s'
  end.

Fixpoint split_on (sep : ascii) (cur : string) (s : string) : list string :=
  match s with
  | EmptyString => [rev_string EmptyString cur]
  | String c s' =>
      if Ascii.eqb c sep then rev_string EmptyString cur :: split_on sep EmptyString s'
      else split_on sep (String c cur) s'
  end.

Definition split (s : string) (sep : ascii) : list string :=
  split_on sep EmptyString s.

(** [x in (s1, s2, ...)] for a [str] [x] and a tuple of [str] *)
Definition str_in (x : string) (l : list string) : bool :=
  existsb (String.eqb x) l.

(** ** Containers *)

(** [d[k]] on the entries of a dict *)
Fixpoint lookup (k : string) (d : list (string * pyval)) : option pyval :=
  match d with
  | [] => None
  | (k', v) :: d' => if String.eqb k k' then Some v else lookup k d'
  end.

(** [d[k] = v] on the entries of a dict: an existing key keeps its place. *)
Fixpoint dict_set (k : string) (v : pyval) (d : list (string * pyval))
  : list (string * pyval) :=
  match d with
  | [] => [(k, v)]
  | (k', v') :: d' =>
      if String.eqb k k' then (k', v) :: d' else (k', v') :: dict_set k v d'
  end.

Fixpoint chars (s : string) : list pyval :=
  match s with
  | EmptyString => []
  | String c s' => PStr (String c EmptyString) :: chars s'
  end.

(** [v[k]] with a [str] subscript *)
Definition getitem (v : pyval) (k : string) : res pyval :=
  match v with
  | PDict d => match lookup k d with
               | Some x => Ok x
               | None => Raise KeyError
               end
  | _ => Raise TypeError
  end.

(** [v[i]] with an [int] subscript; a negative index counts from the end *)
Definition getindex (v : pyval) (i : Z) : res pyval :=
  match v with
  | PList l =>
      let n := Z.of_nat (List.length l) in
      let j := if i <? 0 then i + n else i in
      if (j <? 0) || (n <=? j) then Raise IndexError
      else match nth_error l (Z.to_nat j) with
           | Some x => Ok x
           | None => Raise IndexError
           end
  | PStr s =>
      let l := chars s in
      let n := Z.of_nat (List.length l) in
      let j := if i <? 0 then i + n else i in
      if (j <? 0) || (n <=? j) then Raise IndexError
      else match nth_error l (Z.to_nat j) with
           | Some x => Ok x
           | None => Raise IndexError
           end
  | PDict _ => Raise KeyError   (* the keys of a decoded object are str *)
  | _ => Raise TypeError
  end.

(** The items a [for] loop or a comprehension draws from [v] *)
Definition iter (v : pyval) : res (list pyval) :=
  match v with
  | PList l => Ok l
  | PDict d => Ok (map (fun kv => PStr (fst kv)) d)
  | PStr s => Ok (chars s)
  | _ => Raise TypeError
  end.

(** [v.keys()]: the keys of a decoded object are [str] *)
Definition keys (v : pyval) : res (list string) :=
  match v with
  | PDict d => Ok (map fst d)
  | _ => Raise AttributeError
  end.

(** [v.lower()] and [v.split(sep)]: only [str] has the attribute *)
Definition lower_of (v : pyval) : res string :=
  match v with
  | PStr s => Ok (lower s)
  | _ => Raise AttributeError
  end.

Definition split_of (v : pyval) (sep : ascii) : res (list string) :=
  match v with
  | PStr s => Ok (split s sep)
  | _ => Raise AttributeError
  end.

(** [v == s] for a [str] [s]: only an equal [str] compares equal *)
Definition eq_str (v : pyval) (s : string) : bool :=
  match v with
  | PStr s' => String.eqb s' s
  | _ => false
  end.

(** [s in l] / [s not in l] for a [str] [s] and a list [l] *)
Definition str_in_list (s : string) (l : list pyval) : bool :=
  existsb (fun v => eq_str v s) l.

(** [v == z] for an [int] [z]: numbers compare by value.  The float case
    is exact for the integers a float represents exactly; the module
    compares with 0 and 1. *)
Definition eq_int (v : pyval) (z : Z) : bool :=
  match v with
  | PInt x => x =? z
  | PBool b => (if b then 1 else 0) =? z
  | PFloat f => SFeqb f (binary_normalize prec emax z 0 false)
  | _ => false
  end.

(** Truth value of an object *)
Definition truthy (v : pyval) : bool :=
  match v with
  | PNone => false
  | PBool b => b
  | PInt z => negb (z =? 0)
  | PFloat f => match f with S754_zero _ => false | _ => true end
  | PStr s => negb (String.eqb s EmptyString)
  | PList l => match l with [] => false | _ => true end
  | PDict d => match d with [] => false | _ => true end
  end.

(** ** Numbers *)

(** [float(z)] for an [int]: round to nearest, ties to even; a value that
    rounds beyond the largest finite float raises [OverflowError]. *)
Definition float_of_int (z : Z) : res spec_float :=
  match binary_normalize prec emax z 0 false with
  | S754_infinity _ => Raise OverflowError
  | f => Ok f
  end.

Definition lt (x y : spec_float) : bool := SFltb x y.

(** [str(z)] for an [int] *)
Definition str_of_int (z : Z) : string := NilZero.string_of_int (Z.to_int z).

(** A decimal numeral [n * 10^e10] (with [0 <= n]) as the nearest float,
    ties to even: the value of a float literal such as [0.9], and of a
    number with a fraction or an exponent in a JSON text. *)
Definition float_of_decimal (neg : bool) (n : Z) (e10 : Z) : spec_float :=
  match n with
  | Zpos p =>
      match e10 with
      | Zneg q =>
          let '(m, e, l) :=
            SFdiv_core_binary prec emax (Zpos p) 0 (Z.pow_pos 10 q) 0 in
          binary_round_aux prec emax neg m e l
      | _ =>
          binary_normalize prec emax
            (if neg then - (Zpos p * 10 ^ e10) else Zpos p * 10 ^ e10) 0 false
      end
  | _ => S754_zero neg
  end.

End Py.

(* ================================================================== *)
(** * A reference decoder for [json.loads]                             *)
(* ================================================================== *)

(** [json.loads] belongs to Python's standard library, so the methods
    below take it from their environment.  This module is the decoder
    used to run them on concrete command outputs: the grammar
    [json.loads] accepts on a [str] (RFC 8259 plus [NaN], [Infinity] and
    [-Infinity]), strict about control characters inside strings, with the
    last of several equal keys winning.  A [\uXXXX] escape naming a code
    point that a [string] cannot hold makes the decoder give up with
    [OutOfFuel] rather than report a decode error. *)

Module PyJson.
Import Py.
Local Open Scope py_scope.

Definition dq : string := String "034"%char EmptyString.

Definition is_ws (c : ascii) : bool :=
  let n := code c in ((n =? 32) || (n =? 9) || (n =? 10) || (n =? 13))%N.

Fixpoint skip_ws (s : string) : string :=
  match s with
  | String c r => if is_ws c then skip_ws r else s
  | EmptyString => s
  end.

Definition is_digit (c : ascii) : bool :=
  ((48 <=? code c) && (code c <=? 57))%N.

Definition digit_val (c : ascii) : Z := Z.of_N (code c) - 48.

(** Reads a run of decimal digits: the number read so far, how many digits
    were read, and the rest of the text. *)
Fixpoint digits (acc cnt : Z) (s : string) : Z * Z * string :=
  match s with
  | String c r =>
      if is_digit c then digits (10 * acc + digit_val c) (cnt + 1) r
      else (acc, cnt, s)
  | EmptyString => (acc, cnt, s)
  end.

Definition starts_with_digit (s : string) : bool :=
  match s with
  | String c _ => is_digit c
  | EmptyString => false
  end.

(** A number at the head of [s]: an optional minus sign, then 0 or a run
    of digits not starting with 0, then optionally a dot and digits, then
    optionally e or E, an optional sign and digits. *)
Definition scan_number (s : string) : option (pyval * string) :=
  let '(neg, s1) :=
    match s with
    | String "-"%char r => (true, r)
    | _ => (false, s)
    end in
  if negb (starts_with_digit s1) then None
  else
    let '(ip, s2) :=
      match s1 with
      | String "0"%char r => (0, r)
      | _ => let '(v, _, r) := digits 0 0 s1 in (v, r)
      end in
    let '(mant, fcnt, s3, has_frac) :=
      match s2 with
      | String "."%char r =>
          if starts_with_digit r
          then let '(v, c, r') := digits ip 0 r in (v, c, r', true)
          else (ip, 0, s2, false)
      | _ => (ip, 0, s2, false)
      end in
    let '(ex, s4, has_exp) :=
      match s3 with
      | String c r =>
          if (Ascii.eqb c "e" || Ascii.eqb c "E")%char
          then
            let '(eneg, r1) :=
              match r with
              | String "-"%char r' => (true, r')
              | String "+"%char r' => (false, r')
              | _ => (false, r)
              end in
            if starts_with_digit r1
            then let '(v, _, r2) := digits 0 0 r1 in
                 ((if eneg then - v else v), r2, true)
            else (0, s3, false)
          else (0, s3, false)
      | EmptyString => (0, s3, false)
      end in
    if has_frac || has_exp
    then Some (PFloat (float_of_decimal neg mant (ex - fcnt)), s4)
    else Some (PInt (if neg then - ip else ip), s4).

Definition hex_val (c : ascii) : option N :=
  let n := code c in
  if ((48 <=? n) && (n <=? 57))%N then Some (n - 48)%N
  else if ((65 <=? n) && (n <=? 70))%N then Some (n - 55)%N
  else if ((97 <=? n) && (n <=? 102))%N then Some (n - 87)%N
  else None.

Definition hex4 (a b c d : ascii) : option N :=
  match hex_val a, hex_val b, hex_val c, hex_val d with
  | Some x, Some y, Some z, Some t => Some (((x * 16 + y) * 16 + z) * 16 + t)%N
  | _, _, _, _ => None
  end.

Definition unescape (c : ascii) : option ascii :=
  match c with
  | "034"%char => Some "034"%char
  | "\"%char => Some "\"%char
  | "/"%char => Some "/"%char
  | "b"%char => Some "008"%char
  | "f"%char => Some "012"%char
  | "n"%char => Some "010"%char
  | "r"%char => Some "013"%char
  | "t"%char => Some "009"%char
  | _ => None
  end.

(** The body of a string, after its opening quote: the decoded text,
    collected in reverse in [acc], and what follows the closing quote. *)
Fixpoint scan_string (acc : string) (s : string) : res (string * string) :=
  match s with
  | EmptyString => Raise JSONDecodeError
  | String c r =>
      if Ascii.eqb c "034" then Ok (rev_string EmptyString acc, r)
      else if Ascii.eqb c "\" then
        match r with
        | String "u"%char (String h1 (String h2 (String h3 (String h4 r')))) =>
            match hex4 h1 h2 h3 h4 with
            | Some n =>
                if (n <? 256)%N then scan_string (String (ascii_of_N n) acc) r'
                else OutOfFuel
            | None => Raise JSONDecodeError
            end
        | String e r' =>
            match unescape e with
            | Some ch => scan_string (String ch acc) r'
            | None => Raise JSONDecodeError
            end
        | EmptyString => Raise JSONDecodeError
        end
      else if (code c <? 32)%N then Raise JSONDecodeError
      else scan_string (String c acc) r
  end.

Definition nan : spec_float := S754_nan.
Definition inf (neg : bool) : spec_float := S754_infinity neg.

(** Removes [p] from the head of [s]. *)
Fixpoint strip (p s : string) : option string :=
  match p, s with
  | EmptyString, _ => Some s
  | String a p', String b s' => if Ascii.eqb a b then strip p' s' else None
  | String _ _, EmptyString => None
  end.

(** A literal or a number at the head of [s] *)
Definition scan_atom (s : string) : res (pyval * string) :=
  match strip "null" s with
  | Some r => Ok (PNone, r)
  | None =>
  match strip "true" s with
  | Some r => Ok (PBool true, r)
  | None =>
  match strip "false" s with
  | Some r => Ok (PBool false, r)
  | None =>
  match scan_number s with
  | Some vr => Ok vr
  | None =>
  match strip "NaN" s with
  | Some r => Ok (PFloat nan, r)
  | None =>
  match strip "Infinity" s with
  | Some r => Ok (PFloat (inf false), r)
  | None =>
  match strip "-Infinity" s with
  | Some r => Ok (PFloat (inf true), r)
  | None => Raise JSONDecodeError
  end end end end end end end.

(** One value at the head of [s]; [members] and [elements] read the rest
    of an object or an array whose first key or element starts [s]. *)
Fixpoint value (fuel : nat) (s : string) : res (pyval * string) :=
  match fuel with
  | O => OutOfFuel
  | S fuel' =>
      match s with
      | String "034"%char r =>
          let! sr := scan_string EmptyString r in
          Ok (PStr (fst sr), snd sr)
      | String "{"%char r =>
          match skip_ws r with
          | String "}"%char r' => Ok (PDict [], r')
          | r' => members fuel' [] r'
          end
      | String "["%char r =>
          match skip_ws r with
          | String "]"%char r' => Ok (PList [], r')
          | r' => elements fuel' [] r'
          end
      | _ => scan_atom s
      end
  end
with members (fuel : nat) (acc : list (string * pyval)) (s : string)
  : res (pyval * string) :=
  match fuel with
  | O => OutOfFuel
  | S fuel' =>
      match s with
      | String "034"%char r =>
          let! kr := scan_string EmptyString r in
          match skip_ws (snd kr) with
          | String ":"%char r1 =>
              let! vr := value fuel' (skip_ws r1) in
              let acc' := dict_set (fst kr) (fst vr) acc in
              match skip_ws (snd vr) with
              | String "}"%char r2 => Ok (PDict acc', r2)
              | String ","%char r2 => members fuel' acc' (skip_ws r2)
              | _ => Raise JSONDecodeError
              end
          | _ => Raise JSONDecodeError
          end
      | _ => Raise JSONDecodeError
      end
  end
with elements (fuel : nat) (acc : list pyval) (s : string)
  : res (pyval * string) :=
  match fuel with
  | O => OutOfFuel
  | S fuel' =>
      let! vr := value fuel' s in
      let acc' := (acc ++ [fst vr])%list in
      match skip_ws (snd vr) with
      | String "]"%char r => Ok (PList acc', r)
      | String ","%char r => elements fuel' acc' (skip_ws r)
      | _ => Raise JSONDecodeError
      end
  end.

(** [json.loads(s)]: one value, white space around it, and nothing else.
    Every call of [value], [members] or [elements] but the first comes
    after at least one more character was read, so the fuel is enough. *)
Definition loads (s : string) : res pyval :=
  let! vr := value (2 + String.length s) (skip_ws s) in
  match skip_ws (snd vr) with
  | EmptyString => Ok (fst vr)
  | String _ _ => Raise JSONDecodeError
  end.

(** ** Strict JSON

    [json.loads] is not strict: besides numbers it reads the constants
    [NaN], [Infinity] and [-Infinity], which are not JSON.  The strict
    decoder is the same decoder without them; a text is valid JSON when
    the strict decoder accepts it. *)

Definition strict_atom (s : string) : res (pyval * string) :=
  match strip "null" s with
  | Some r => Ok (PNone, r)
  | None =>
  match strip "true" s with
  | Some r => Ok (PBool true, r)
  | None =>
  match strip "false" s with
  | Some r => Ok (PBool false, r)
  | None =>
  match scan_number s with
  | Some vr => Ok vr
  | None => Raise JSONDecodeError
  end end end end.

Fixpoint strict_value (fuel : nat) (s : string) : res (pyval * string) :=
  match fuel with
  | O => OutOfFuel
  | S fuel' =>
      match s with
      | String "034"%char r =>
          let! sr := scan_string EmptyString r in
          Ok (PStr (fst sr), snd sr)
      | String "{"%char r =>
          match skip_ws r with
          | String "}"%char r' => Ok (PDict [], r')
          | r' => strict_members fuel' [] r'
          end
      | String "["%char r =>
          match skip_ws r with
          | String "]"%char r' => Ok (PList [], r')
          | r' => strict_elements fuel' [] r'
          end
      | _ => strict_atom s
      end
  end
with strict_members (fuel : nat) (acc : list (string * pyval)) (s : string)
  : res (pyval * string) :=
  match fuel with
  | O => OutOfFuel
  | S fuel' =>
      match s with
      | String "034"%char r =>
          let! kr := scan_string EmptyString r in
          match skip_ws (snd kr) with
          | String ":"%char r1 =>
              let! vr := strict_value fuel' (skip_ws r1) in
              let acc' := dict_set (fst kr) (fst vr) acc in
              match skip_ws (snd vr) with
              | String "}"%char r2 => Ok (PDict acc', r2)
              | String ","%char r2 => strict_members fuel' acc' (skip_ws r2)
              | _ => Raise JSONDecodeError
              end
          | _ => Raise JSONDecodeError
          end
      | _ => Raise JSONDecodeError
      end
  end
with strict_elements (fuel : nat) (acc : list pyval) (s : string)
  : res (pyval * string) :=
  match fuel with
  | O => OutOfFuel
  | S fuel' =>
      let! vr := strict_value fuel' s in
      let acc' := (acc ++ [fst vr])%list in
      match skip_ws (snd vr) with
      | String "]"%char r => Ok (PList acc', r)
      | String ","%char r => strict_elements fuel' acc' (skip_ws r)
      | _ => Raise JSONDecodeError
      end
  end.

Definition strict_loads (s : string) : res pyval :=
  let! vr := strict_value (2 + String.length s) (skip_ws s) in
  match skip_ws (snd vr) with
  | EmptyString => Ok (fst vr)
  | String _ _ => Raise JSONDecodeError
  end.

End PyJson.

(* ================================================================== *)
(** * The cluster, the clock and the computation monad                 *)
(* ================================================================== *)

Module Rados.
Import Py.

(** What the orchestrator does to the outside world. *)
Inductive event : Type :=
| Shell (cmd : string) (timeout : option Z)
    (* self.node.shell([cmd], timeout=...) *)
| ExecCommand (cmd : string) (sudo : bool) (timeout : option Z)
    (* self.client.exec_command(cmd=..., sudo=..., timeout=...) *)
| Sleep (secs : Z).
    (* time.sleep(secs) *)

(** The answer of a transport to one command: the text it printed, or the
    exception it raised, and the time the call took (microseconds). *)
Record reply : Type := mkReply {
  result : exn + string;
  took : N
}.

(** The collaborators the module does not own: the cluster behind the two
    transports, answering a command as a function of all that was done
    before it, and the Python library functions whose code is outside the
    repository. *)
Record env : Type := mkEnv {
  cluster : list event -> event -> reply;
  json_loads : string -> res pyval;        (* json.loads *)
  repr : pyval -> string;                  (* str() of a float, list or dict *)
  float_of_str : string -> res spec_float; (* float() of a str *)
  int_of : pyval -> res Z;                 (* int() of a float or a str *)
  py_eq : pyval -> pyval -> bool           (* == between two objects *)
}.

(** Wall clock in microseconds (the resolution of [datetime]) and the
    trace of events, most recent first. *)
Record world : Type := mkWorld {
  clock : Z;
  trace : list event
}.

Definition seconds (n : Z) : Z := n * 1000000.

Definition M (A : Type) : Type := world -> res A * world.

Definition ret {A} (a : A) : M A := fun w => (Ok a, w).

Definition bind {A B} (m : M A) (k : A -> M B) : M B :=
  fun w =>
    match m w with
    | (Ok a, w') => k a w'
    | (Raise e, w') => (Raise e, w')
    | (OutOfFuel, w') => (OutOfFuel, w')
    end.

Definition lift {A} (r : res A) : M A := fun w => (r, w).

Definition raise {A} (e : exn) : M A := fun w => (Raise e, w).

(** [try: m  except Exception as er: ...]: the exception becomes a value. *)
Definition attempt {A} (m : M A) : M (exn + A) :=
  fun w =>
    match m w with
    | (Ok a, w') => (Ok (inr a), w')
    | (Raise e, w') => (Ok (inl e), w')
    | (OutOfFuel, w') => (OutOfFuel, w')
    end.

Notation "x <- m ;; k" := (bind m (fun x => k))
  (at level 61, m at next level, right associativity) : py_scope.
Notation "m ;;; k" := (bind m (fun _ => k))
  (at level 61, right associativity) : py_scope.
Local Open Scope py_scope.

Section Orchestrator.

Variable E : env.

(** One call through a transport: the call is recorded, the clock advances
    by the time the call took, and the call returns what the command
    printed or raises what the transport raised. *)
Definition transport (ev : event) : M string :=
  fun w =>
    let r := cluster E (trace w) ev in
    let w' := mkWorld (clock w + Z.of_N (took r)) (ev :: trace w) in
    match result r with
    | inl e => (Raise e, w')
    | inr out => (Ok out, w')
    end.

Definition shell (cmd : string) (timeout : option Z) : M string :=
  transport (Shell cmd timeout).

Definition exec_command (cmd : string) (sudo : bool) (timeout : option Z)
  : M string :=
  transport (ExecCommand cmd sudo timeout).

(** [time.sleep(secs)] *)
Definition sleep (secs : Z) : M unit :=
  fun w => (Ok tt, mkWorld (clock w + seconds secs) (Sleep secs :: trace w)).

(** [datetime.datetime.now()] *)
Definition now : M Z := fun w => (Ok (clock w), w).

(** f-string interpolation [{v}] *)
Definition fmt (v : pyval) : string :=
  match v with
  | PNone => "None"
  | PBool true => "True"
  | PBool false => "False"
  | PInt z => str_of_int z
  | PStr s => s
  | _ => repr E v
  end.

(** [float(v)] *)
Definition py_float (v : pyval) : res spec_float :=
  match v with
  | PFloat f => Ok f
  | PInt z => float_of_int z
  | PBool b => float_of_int (if b then 1 else 0)
  | PStr s => float_of_str E s
  | _ => Raise TypeError
  end.

(** [int(v)] *)
Definition py_int (v : pyval) : res Z :=
  match v with
  | PInt z => Ok z
  | PBool b => Ok (if b then 1 else 0)
  | PNone | PList _ | PDict _ => Raise TypeError
  | _ => int_of E v
  end.

(** [[f(x) for x in l]] for an [f] that may raise *)
Fixpoint map_res {A B} (f : A -> res B) (l : list A) : res (list B) :=
  match l with
  | [] => Ok []
  | x :: l' =>
      let! y := f x in
      let! ys := map_res f l' in
      Ok (y :: ys)
  end.

(* ---------------------------------------------------------------- *)
(** ** run_ceph_command (lines 147-170)                               *)
(* ---------------------------------------------------------------- *)

Definition default_timeout : Z := 300.

Definition run_ceph_command (cmd : string) (timeout : Z) (client_exec : bool)
  : M pyval :=
  let cmd := cmd ++ " -f json" in
  r <- attempt
         (if client_exec
          then exec_command cmd true (Some timeout)
          else shell cmd (Some timeout)) ;;
  match r with
  | inl er =>
      (* log.error(f"Exception hit while command execution. {er}") *)
      ret PNone
  | inr out =>
      if isspace out then ret (PDict [])
      else
        status <- lift (json_loads E out) ;;
        ret status
  end.

(* ---------------------------------------------------------------- *)
(** ** check_pg_state (lines 64-82)                                   *)
(* ---------------------------------------------------------------- *)

(** The [for pg in pg_stats["pg_stats"]] loop and the [return []] after it *)
Fixpoint check_pg_state_loop (pgid : string) (pgs : list pyval) : res pyval :=
  match pgs with
  | [] =>
      (* log.error(f"could not find the given pg : {pgid}") *)
      Ok (PList [])
  | pg :: rest =>
      let! id := getitem pg "pgid" in
      if eq_str id pgid then getitem pg "state"
      else check_pg_state_loop pgid rest
  end.

Definition check_pg_state (pgid : string) : M pyval :=
  let cmd := "ceph pg dump pgs" in
  pg_stats <- run_ceph_command cmd default_timeout false ;;
  lift (let! l := getitem pg_stats "pg_stats" in
        let! pgs := iter l in
        check_pg_state_loop pgid pgs).

(* ---------------------------------------------------------------- *)
(** ** detete_pool (lines 989-1015)                                   *)
(* ---------------------------------------------------------------- *)

(** [[x[key] for x in v]] *)
Definition column (key : string) (v : pyval) : res (list pyval) :=
  let! l := iter v in
  map_res (fun x => getitem x key) l.

Definition delete_cmd (pool : string) : string :=
  "ceph osd pool delete " ++ pool ++ " " ++ pool
  ++ " --yes-i-really-really-mean-it".

Definition detete_pool (pool : string) : M pyval :=
  (* Checking if config is set to allow pool deletion *)
  config_dump <- run_ceph_command "ceph config dump" default_timeout true ;;
  names <- lift (column "name" config_dump) ;;
  (if negb (str_in_list "mon_allow_pool_delete" names)
   then
     let cmd := "ceph config set mon mon_allow_pool_delete true" in
     _ <- exec_command cmd true None ;; ret tt
   else ret tt) ;;;
  existing_pools <- run_ceph_command "ceph df" default_timeout true ;;
  pools <- lift (let! p := getitem existing_pools "pools" in column "name" p) ;;
  if negb (str_in_list pool pools)
  then
    (* log.error(f"Pool:{pool} does not exist on cluster, cannot delete") *)
    ret (PBool true)
  else
    let cmd := delete_cmd pool in
    _ <- exec_command cmd true None ;;
    existing_pools <- run_ceph_command "ceph df" default_timeout true ;;
    pools <- lift (let! p := getitem existing_pools "pools" in column "name" p) ;;
    if negb (str_in_list pool pools)
    then ret (PBool true)
    else ret (PBool false).

(* ---------------------------------------------------------------- *)
(** ** get_fragmentation_score, check_fragmentation_score
       (lines 1836-1867)                                              *)
(* ---------------------------------------------------------------- *)

Definition get_fragmentation_score (osd_id : pyval) : M pyval :=
  let frag_cmd :=
    "ceph tell osd." ++ fmt osd_id ++ " bluestore allocator score block" in
  doc <- run_ceph_command frag_cmd default_timeout false ;;
  lift (getitem doc "fragmentation_rating").

(** The float literals [0.9] and [1.0] *)
Definition lit_0_9 : spec_float :=
  Eval vm_compute in float_of_decimal false 9 (-1).
Definition lit_1_0 : spec_float :=
  Eval vm_compute in float_of_decimal false 10 (-1).

Definition check_fragmentation_score (osd_id : pyval) : M pyval :=
  frag_score <- get_fragmentation_score osd_id ;;
  score <- lift (py_float frag_score) ;;
  if lt lit_0_9 score && lt score lit_1_0
  then
    (* log.error(f"Fragmentation on osd {osd_id} is dangerously high." ...) *)
    ret (PBool false)
  else ret (PBool true).

(* ---------------------------------------------------------------- *)
(** ** check_osd_op_queue (lines 1380-1389),
       change_recovery_threads (lines 534-557)                        *)
(* ---------------------------------------------------------------- *)

Definition check_osd_op_queue (qos : string) : M bool :=
  current_qos <- shell "ceph config get osd osd_op_queue" None ;;
  ret (if contains (lower qos) (lower current_qos) then true else false).

(** [for x in l: body(x)] for a body that only has effects *)
Fixpoint for_each {A} (l : list A) (body : A -> M unit) : M unit :=
  match l with
  | [] => ret tt
  | x :: l' => body x ;;; for_each l' body
  end.

Definition change_recovery_threads (config : list (string * pyval))
  (action : string) : M unit :=
  let cfg_map :=
    [("osd_max_backfills",
      "ceph config " ++ action ++ " osd osd_max_backfills");
     ("osd_recovery_max_active",
      "ceph config " ++ action ++ " osd osd_recovery_max_active")] in
  mclock <- check_osd_op_queue "mclock" ;;
  (if mclock
   then
     _ <- shell "ceph config set osd osd_mclock_override_recovery_settings true"
            None ;;
     ret tt
   else ret tt) ;;;
  for_each cfg_map (fun kv =>
    let command :=
      if String.eqb action "set"
      then snd kv ++ " "
           ++ fmt (match lookup (fst kv) config with
                   | Some v => v
                   | None => PInt 8
                   end)
      else snd kv in
    _ <- shell command None ;;
    ret tt).

(* ---------------------------------------------------------------- *)
(** ** verify_reweight (lines 931-987)                                *)
(* ---------------------------------------------------------------- *)

(** The local variables of [verify_reweight] that its [while] loop
    assigns; [None] is a name not bound yet. *)
Record reweight_locals : Type := mkLocals {
  flag : option bool;
  status_report : option pyval
}.

(** Reading a local variable *)
Definition read_local {A} (name : string) (v : option A) : res A :=
  match v with
  | Some a => Ok a
  | None => Raise (UnboundLocalError name)
  end.

(** [for entry in status_report["num_pg_by_state"]: flag = ...]
    (lines 945-954): every entry assigns [flag] anew. *)
Fixpoint reweight_flag (entries : list pyval) (flag : option bool)
  : res (option bool) :=
  match entries with
  | [] => Ok flag
  | entry :: rest =>
      let rec := ["remapped"; "backfilling"] in
      let! st := getitem entry "state" in
      let! parts := split_of st "+" in
      let flag :=
        Some (if existsb (fun key => str_in key rec) parts
              then false else true) in
      reweight_flag rest flag
  end.

(** The [while end_time > datetime.datetime.now()] loop (lines 942-964) *)
Fixpoint verify_reweight_poll (fuel : nat) (end_time : Z)
  (locals : reweight_locals) : M reweight_locals :=
  match fuel with
  | O => lift OutOfFuel
  | S fuel' =>
      t <- now ;;
      if end_time >? t
      then
        report <- run_ceph_command "ceph report" default_timeout false ;;
        (* Proceeding to check if all PG's are in active + clean *)
        entries <- lift (let! l := getitem report "num_pg_by_state" in
                         iter l) ;;
        fl <- lift (reweight_flag entries (flag locals)) ;;
        let locals := mkLocals fl (Some report) in
        f <- lift (read_local "flag" fl) ;;
        if f
        then
          (* log.info("The recovery and back-filling of the OSD is completed") *)
          ret locals
        else
          (* log.info(f"Waiting for active + clean. Active aletrs:
                      {status_report['health']['checks'].keys()}, ...") *)
          _ <- lift (let! h := getitem report "health" in
                     let! c := getitem h "checks" in
                     keys c) ;;
          sleep 60 ;;;
          verify_reweight_poll fuel' end_time locals
      else ret locals
  end.

(** [for osd_init in osd_info] (lines 978-985): [true] when the loop hits
    [return False]. *)
Fixpoint utilization_higher (osd_end : pyval) (osd_info : list pyval)
  : res bool :=
  match osd_info with
  | [] => Ok false
  | osd_init :: rest =>
      let! i0 := getitem osd_init "id" in
      let! a := py_int i0 in
      let! i1 := getitem osd_end "id" in
      let! b := py_int i1 in
      if a =? b
      then
        let! k0 := getitem osd_init "kb_used" in
        let! x := py_int k0 in
        let! k1 := getitem osd_end "kb_used" in
        let! y := py_int k1 in
        if x >? y then Ok true else utilization_higher osd_end rest
      else utilization_higher osd_end rest
  end.

(** [for osd_end in osd_info_end] (lines 977-987) *)
Fixpoint check_utilization (osd_info_end osd_info : list pyval) : res pyval :=
  match osd_info_end with
  | [] => Ok (PBool true)
  | osd_end :: rest =>
      let! hit := utilization_higher osd_end osd_info in
      if hit then Ok (PBool false) else check_utilization rest osd_info
  end.

(** [[x for x in l if keep(x)]] for a test that may raise *)
Fixpoint filter_res {A} (keep : A -> res bool) (l : list A) : res (list A) :=
  match l with
  | [] => Ok []
  | x :: l' =>
      let! b := keep x in
      let! r := filter_res keep l' in
      Ok (if b then x :: r else r)
  end.

Definition verify_reweight (fuel : nat) (affected_osds osd_info : list pyval)
  : M pyval :=
  (* Increasing backfill & recovery rate *)
  change_recovery_threads [] "set" ;;;
  t <- now ;;
  let end_time := t + seconds 1200 in
  locals <- verify_reweight_poll fuel end_time (mkLocals None None) ;;
  change_recovery_threads [] "rm" ;;;
  f <- lift (read_local "flag" (flag locals)) ;;
  if negb f
  then
    (* log.error("The cluster did not reach active + Clean ...") *)
    ret (PBool false)
  else
    (* Checking OSD utilization after re-weight *)
    out <- run_ceph_command "ceph osd df tree" default_timeout false ;;
    nodes <- lift (let! l := getitem out "nodes" in iter l) ;;
    osd_info_end <-
      lift (filter_res
              (fun entry =>
                 let! id := getitem entry "id" in
                 Ok (existsb (py_eq E id) affected_osds))
              nodes) ;;
    lift (check_utilization osd_info_end osd_info).

(* ---------------------------------------------------------------- *)
(** ** run_scrub, run_deep_scrub (lines 595-641),
       run_pool_sanity_check (lines 1593-1652)                        *)
(* ---------------------------------------------------------------- *)

(** [kwargs.get(k)] *)
Definition kwargs_get (kwargs : list (string * pyval)) (k : string) : pyval :=
  match lookup k kwargs with
  | Some v => v
  | None => PNone
  end.

Definition run_scrub (kwargs : list (string * pyval)) : M pyval :=
  let cmd :=
    if truthy (kwargs_get kwargs "osd")
    then "ceph osd scrub " ++ fmt (kwargs_get kwargs "osd")
    else if truthy (kwargs_get kwargs "pgid")
    then "ceph pg scrub " ++ fmt (kwargs_get kwargs "pgid")
    else if truthy (kwargs_get kwargs "pool")
    then "ceph osd pool scrub " ++ fmt (kwargs_get kwargs "pool")
    else "ceph osd scrub all" in
  _ <- exec_command cmd true None ;;
  ret PNone.

Definition run_deep_scrub (kwargs : list (string * pyval)) : M pyval :=
  let cmd :=
    if truthy (kwargs_get kwargs "osd")
    then "ceph osd deep-scrub " ++ fmt (kwargs_get kwargs "osd")
    else if truthy (kwargs_get kwargs "pgid")
    then "ceph pg deep-scrub " ++ fmt (kwargs_get kwargs "pgid")
    else if truthy (kwargs_get kwargs "pool")
    then "ceph osd pool deep-scrub " ++ fmt (kwargs_get kwargs "pool")
    else "ceph osd deep-scrub all" in
  _ <- exec_command cmd true None ;;
  ret PNone.

Definition health_warns : list string :=
  ["PG_AVAILABILITY"; "PG_DEGRADED"; "PG_RECOVERY_FULL"; "TOO_FEW_OSDS";
   "PG_BACKFILL_FULL"; "PG_DAMAGED"; "OSD_SCRUB_ERRORS";
   "OSD_TOO_MANY_REPAIRS"; "CACHE_POOL_NEAR_FULL"; "SMALLER_PGP_NUM";
   "MANY_OBJECTS_PER_PG"; "OBJECT_MISPLACED"; "OBJECT_UNFOUND"; "SLOW_OPS";
   "RECENT_CRASH"].

(** The [while end_time > datetime.datetime.now()] loop (lines 1608-1643);
    [flag] is the local variable the loop assigns. *)
Fixpoint run_pool_sanity_check_poll (fuel : nat) (end_time : Z) (flag : bool)
  : M bool :=
  match fuel with
  | O => lift OutOfFuel
  | S fuel' =>
      t <- now ;;
      if end_time >? t
      then
        report <- run_ceph_command "ceph report" default_timeout true ;;
        ceph_health_status <- lift (getitem report "health") ;;
        ks <- lift (let! c := getitem ceph_health_status "checks" in
                    keys c) ;;
        let flag :=
          if existsb (fun key => str_in key health_warns) ks
          then false else true in
        if flag
        then
          (* log.info("No warnings on the cluster") *)
          ret flag
        else
          (* log.info(f"Observing a health warning on cluster ...") *)
          sleep 10 ;;;
          run_pool_sanity_check_poll fuel' end_time flag
      else ret flag
  end.

Definition run_pool_sanity_check (fuel : nat) : M pyval :=
  run_scrub [] ;;;
  run_deep_scrub [] ;;;
  sleep 10 ;;;
  t <- now ;;
  let end_time := t + seconds 600 in
  flag <- run_pool_sanity_check_poll fuel end_time false ;;
  if negb flag
  then
    (* log.error("Health warning generated on cluster and not cleared ...") *)
    ret (PBool false)
  else
    (* log.info("Completed check on the cluster. Pass!") *)
    ret (PBool true).

(* ---------------------------------------------------------------- *)
(** ** check_host_status (lines 1739-1756),
       host_maintenance_enter (lines 292-322)                         *)
(* ---------------------------------------------------------------- *)

Definition check_host_status (hostname : string) (status : option string)
  : M bool :=
  let host_cmd :=
    "ceph orch host ls --host_pattern " ++ hostname ++ " -f json" in
  out <- exec_command host_cmd true None ;;
  host_status <- lift (let! doc := json_loads E out in
                       let! h := getindex doc 0 in
                       let! st := getitem h "status" in
                       lower_of st) ;;
  if match status with
     | Some st => negb (String.eqb st EmptyString) && contains (lower st) host_status
     | None => false
     end
  then ret true
  else if contains "offline" host_status then ret false
  else ret true.

(** The [while iteration <= retry] loop (lines 305-322); leaving the loop
    through its condition reaches the end of the method, which returns
    [None]. *)
Fixpoint host_maintenance_enter_loop (fuel : nat) (hostname : string)
  (retry iteration : Z) : M pyval :=
  match fuel with
  | O => lift OutOfFuel
  | S fuel' =>
      if iteration <=? retry
      then
        let iteration := iteration + 1 in
        let cmd :=
          "ceph orch host maintenance enter " ++ hostname ++ " --force" in
        _ <- exec_command cmd true (Some 600) ;;
        sleep 20 ;;;
        ok <- check_host_status hostname (Some "maintenance") ;;
        if negb ok
        then
          (* retrying in 15 seconds *)
          sleep 15 ;;;
          if iteration =? retry then ret (PBool false)
          else host_maintenance_enter_loop fuel' hostname retry iteration
        else
          (* log.info(f"Added host {hostname} into maintenance mode ...") *)
          ret (PBool true)
      else ret PNone
  end.

Definition host_maintenance_enter (fuel : nat) (hostname : string)
  (retry : Z) : M pyval :=
  let iteration := 0 in
  host_maintenance_enter_loop fuel hostname retry iteration.

(* ---------------------------------------------------------------- *)
(** ** get_daemon_status (lines 1506-1523) and the polling loop of
       change_osd_state (lines 1140-1153)                             *)
(* ---------------------------------------------------------------- *)

Definition get_daemon_status (daemon_type : string) (daemon_id : pyval)
  : M (pyval * pyval) :=
  let cmd_ :=
    "ceph orch ps --daemon_type " ++ daemon_type
    ++ " --daemon_id " ++ fmt daemon_id ++ " --refresh" in
  out <- run_ceph_command cmd_ default_timeout false ;;
  lift (let! orch_ps_out := getindex out 0 in
        let! st := getitem orch_ps_out "status" in
        let! sd := getitem orch_ps_out "status_desc" in
        Ok (st, sd)).

(** [while datetime.datetime.now() <= timeout_time] in [change_osd_state],
    entered with [timeout_time = now + timeout] seconds; the loop assigns
    the locals [osd_status] and [status_desc], which the method reads
    after it. *)
Fixpoint change_osd_state_poll (fuel : nat) (action : string) (target : pyval)
  (timeout_time : Z) (osd_status status_desc : pyval) : M (pyval * pyval) :=
  match fuel with
  | O => lift OutOfFuel
  | S fuel' =>
      t <- now ;;
      if t <=? timeout_time
      then
        st <- get_daemon_status "osd" target ;;
        let osd_status := fst st in
        let status_desc := snd st in
        if (eq_int osd_status 0 || eq_str status_desc "stopped")
           && String.eqb action "stop"
        then ret (osd_status, status_desc)
        else if (eq_int osd_status 1 || eq_str status_desc "running")
                && String.eqb action "start"
        then ret (osd_status, status_desc)
        else
          sleep 20 ;;;
          change_osd_state_poll fuel' action target timeout_time
            osd_status status_desc
      else ret (osd_status, status_desc)
  end.

(* ---------------------------------------------------------------- *)
(** ** More of Python: equality, membership, [dict.get]               *)
(* ---------------------------------------------------------------- *)

(** [a == b]: decided here for two [int] and when one side is a [str],
    taken from the environment otherwise. *)
Definition equal (a b : pyval) : bool :=
  match a, b with
  | PInt x, PInt y => x =? y
  | PStr s, PStr t => String.eqb s t
  | PStr _, _ | _, PStr _ => false   (* only a str equals a str *)
  | _, _ => py_eq E a b
  end.

(** [x in l] for a list [l] *)
Definition member (x : pyval) (l : list pyval) : bool :=
  existsb (fun e => equal e x) l.

(** [x in c]: an element of a list, a key of a dict, a substring of a
    [str]; other containers are not iterable. *)
Definition py_in (x c : pyval) : res bool :=
  match c with
  | PList l => Ok (member x l)
  | PDict d =>
      match x with
      | PStr k => Ok (match lookup k d with Some _ => true | None => false end)
      | PList _ | PDict _ => Raise TypeError   (* unhashable *)
      | _ => Ok false                          (* the keys are str *)
      end
  | PStr s =>
      match x with
      | PStr t => Ok (contains t s)
      | _ => Raise TypeError
      end
  | _ => Raise TypeError
  end.

(** [v.get(k)] *)
Definition dict_get (v : pyval) (k : string) : res pyval :=
  match v with
  | PDict d => Ok (match lookup k d with Some x => x | None => PNone end)
  | _ => Raise AttributeError
  end.

(** [kwargs.get(k, d)] *)
Definition kwargs_default (kwargs : list (string * pyval)) (k : string)
  (d : pyval) : pyval :=
  match lookup k kwargs with
  | Some v => v
  | None => d
  end.

(* ---------------------------------------------------------------- *)
(** ** list_pools (lines 235-242), set_pool_property (359-390)       *)
(* ---------------------------------------------------------------- *)

Definition list_pools : M (list pyval) :=
  let cmd := "ceph df" in
  out <- run_ceph_command cmd default_timeout false ;;
  lift (let! p := getitem out "pools" in column "name" p).

Definition set_pool_property (pool : pyval) (props : string) (value : pyval)
  : M pyval :=
  (* checking if the pool exists *)
  pools <- list_pools ;;
  if negb (member pool pools)
  then ret (PBool false)
  else
    let cmd :=
      "ceph osd pool set " ++ fmt pool ++ " " ++ props ++ " " ++ fmt value in
    _ <- shell cmd None ;;
    (* sleeping for 2 seconds for the values to reflect *)
    sleep 2 ;;;
    ret (PBool true).

(* ---------------------------------------------------------------- *)
(** ** host_maintenance_exit (lines 324-357)                          *)
(* ---------------------------------------------------------------- *)

Fixpoint host_maintenance_exit_loop (fuel : nat) (hostname : string)
  (retry iteration : Z) : M pyval :=
  match fuel with
  | O => lift OutOfFuel
  | S fuel' =>
      if iteration <=? retry
      then
        let iteration := iteration + 1 in
        let cmd := "ceph orch host maintenance exit " ++ hostname ++ " " in
        _ <- exec_command cmd true (Some 600) ;;
        sleep 20 ;;;
        ok <- check_host_status hostname None ;;
        if negb ok
        then
          (* retrying in 15 seconds *)
          sleep 15 ;;;
          if iteration =? retry then ret (PBool false)
          else host_maintenance_exit_loop fuel' hostname retry iteration
        else ret (PBool true)
      else ret PNone
  end.

Definition host_maintenance_exit (fuel : nat) (hostname : string) (retry : Z)
  : M pyval :=
  let iteration := 0 in
  host_maintenance_exit_loop fuel hostname retry iteration.

(* ---------------------------------------------------------------- *)
(** ** bench_read (lines 447-466), check_file_exists_on_client
       (707-727), enable_file_logging (1017-1030)                     *)
(* ---------------------------------------------------------------- *)

Definition bench_read (pool_name : string) (kwargs : list (string * pyval))
  : M pyval :=
  let duration := kwargs_default kwargs "rados_read_duration" (PInt 80) in
  r <- attempt
         (_ <- shell ("rados --no-log-to-stderr -p " ++ pool_name
                      ++ " bench " ++ fmt duration ++ " seq") None ;;
          _ <- shell ("rados --no-log-to-stderr -p " ++ pool_name
                      ++ " bench " ++ fmt duration ++ " rand") None ;;
          ret (PBool true)) ;;
  match r with
  | inl err => ret (PBool false)
  | inr v => ret v
  end.

Definition check_file_exists_on_client (loc : pyval) : M pyval :=
  r <- attempt
         (out <- exec_command ("ls " ++ fmt loc) true None ;;
          if String.eqb out EmptyString
          then ret (PBool false)
          else ret (PBool true)) ;;
  match r with
  | inl _ => ret (PBool false)
  | inr v => ret v
  end.

Definition enable_file_logging : M pyval :=
  r <- attempt
         (_ <- shell "ceph config set global log_to_file true" None ;;
          _ <- shell "ceph config set global mon_cluster_log_to_file true"
                 None ;;
          ret tt) ;;
  match r with
  | inl _ => ret (PBool false)
  | inr _ => ret (PBool true)
  end.

(* ---------------------------------------------------------------- *)
(** ** create_pool (lines 468-532), create_erasure_pool (1032-1093)   *)
(* ---------------------------------------------------------------- *)

(** [cmd_map.get(key)] on a dict of command lines *)
Fixpoint lookup_cmd (k : string) (m : list (string * string)) : option string :=
  match m with
  | [] => None
  | (k', c) :: m' => if String.eqb k k' then Some c else lookup_cmd k m'
  end.

(** [for key in kwargs: if cmd_map.get(key): ...] (lines 520-529);
    [Some v] when the loop hits [return v]. *)
Fixpoint create_pool_settings (cmd_map : list (string * string))
  (keys : list string) : M (option pyval) :=
  match keys with
  | [] => ret None
  | key :: rest =>
      match lookup_cmd key cmd_map with
      | Some c =>
          if String.eqb c EmptyString
          then create_pool_settings cmd_map rest
          else
            r <- attempt (shell c None) ;;
            match r with
            | inl err => ret (Some (PBool false))
            | inr _ => create_pool_settings cmd_map rest
            end
      | None => create_pool_settings cmd_map rest
      end
  end.

(** The command line of lines 487-495 *)
Definition create_pool_cmd (pool_name : pyval) (kwargs : list (string * pyval))
  : string :=
  let cmd := "ceph osd pool create " ++ fmt pool_name in
  let cmd :=
    if truthy (kwargs_get kwargs "pg_num")
    then cmd ++ " " ++ fmt (kwargs_get kwargs "pg_num")
             ++ " " ++ fmt (kwargs_get kwargs "pg_num")
    else cmd in
  let cmd :=
    if truthy (kwargs_get kwargs "pg_num_max")
    then cmd ++ " --pg_num_max " ++ fmt (kwargs_get kwargs "pg_num_max")
    else cmd in
  let cmd :=
    if truthy (kwargs_get kwargs "ec_profile_name")
    then cmd ++ " erasure " ++ fmt (kwargs_get kwargs "ec_profile_name")
    else cmd in
  if truthy (kwargs_get kwargs "bulk") then cmd ++ " --bulk" else cmd.

(** The dict [cmd_map] of lines 511-519 *)
Definition create_pool_cmd_map (pool_name : pyval)
  (kwargs : list (string * pyval)) : list (string * string) :=
  let pool := fmt pool_name in
  [("min_size",
    "ceph osd pool set " ++ pool ++ " min_size "
    ++ fmt (kwargs_get kwargs "min_size"));
   ("size",
    "ceph osd pool set " ++ pool ++ " size "
    ++ fmt (kwargs_get kwargs "size"));
   ("erasure_code_use_overwrites",
    "ceph osd pool set " ++ pool ++ " allow_ec_overwrites "
    ++ fmt (kwargs_get kwargs "erasure_code_use_overwrites"));
   ("disable_pg_autoscale",
    "ceph osd pool set " ++ pool ++ " pg_autoscale_mode off");
   ("crush_rule",
    "sudo ceph osd pool set " ++ pool ++ " crush_rule "
    ++ fmt (kwargs_get kwargs "crush_rule"));
   ("pool_quota",
    "ceph osd pool set-quota " ++ pool ++ " "
    ++ fmt (kwargs_get kwargs "pool_quota"))].

Definition create_pool (pool_name : pyval) (kwargs : list (string * pyval))
  : M pyval :=
  let pool := fmt pool_name in
  let cmd := create_pool_cmd pool_name kwargs in
  r <- attempt (shell cmd None) ;;
  match r with
  | inl err => ret (PBool false)
  | inr _ =>
      (* Enabling rados application on the pool *)
      let enable_app_cmd :=
        "sudo ceph osd pool application enable " ++ pool ++ " "
        ++ fmt (kwargs_default kwargs "app_name" (PStr "rados")) in
      _ <- shell enable_app_cmd None ;;
      (if eq_str (kwargs_get kwargs "app_name") "rbd"
       then _ <- shell ("rbd pool init -p " ++ pool) None ;; ret tt
       else ret tt) ;;;
      let cmd_map := create_pool_cmd_map pool_name kwargs in
      returned <- create_pool_settings cmd_map (map fst kwargs) ;;
      match returned with
      | Some v => ret v
      | None =>
          sleep 5 ;;;
          ret (PBool true)
      end
  end.

(** [d] without the key [k] *)
Fixpoint dict_remove (k : string) (d : list (string * pyval))
  : list (string * pyval) :=
  match d with
  | [] => []
  | (k', v) :: d' =>
      if String.eqb k k' then dict_remove k d' else (k', v) :: dict_remove k d'
  end.

Definition has_key (k : string) (d : list (string * pyval)) : bool :=
  match lookup k d with
  | Some _ => true
  | None => false
  end.

(** The call [self.create_pool(ec_profile_name=profile_name, **kwargs)]:
    [pool_name] is a parameter of [create_pool], so it must come from
    [kwargs]; a keyword given twice is a [TypeError]. *)
Definition call_create_pool (profile_name : string)
  (kwargs : list (string * pyval)) : M pyval :=
  if has_key "ec_profile_name" kwargs || has_key "self" kwargs
  then raise TypeError
  else
    match lookup "pool_name" kwargs with
    | None => raise TypeError
    | Some pool_name =>
        create_pool pool_name
          (("ec_profile_name", PStr profile_name)
           :: dict_remove "pool_name" kwargs)
    end.

(** The command line of lines 1067-1078 *)
Definition erasure_profile_cmd (name : string) (kwargs : list (string * pyval))
  : string :=
  let failure_domain :=
    kwargs_default kwargs "crush-failure-domain" (PStr "osd") in
  let k := kwargs_default kwargs "k" (PInt 4) in
  let m := kwargs_default kwargs "m" (PInt 2) in
  let l := kwargs_get kwargs "l" in
  let d := kwargs_default kwargs "d" (PInt 5) in
  let plugin := kwargs_default kwargs "plugin" (PStr "jerasure") in
  let force := kwargs_get kwargs "force" in
  let profile_name := "ecprofile_" ++ name in
  (* Creating an erasure coded profile with the options provided *)
  let cmd :=
    "ceph osd erasure-code-profile set " ++ profile_name
    ++ " crush-failure-domain=" ++ fmt failure_domain
    ++ " k=" ++ fmt k ++ " m=" ++ fmt m ++ " plugin=" ++ fmt plugin in
  let cmd := if eq_str plugin "lrc" then cmd ++ " l=" ++ fmt l else cmd in
  let cmd := if eq_str plugin "clay" then cmd ++ " d=" ++ fmt d else cmd in
  if truthy force then cmd ++ " --force" else cmd.

Definition create_erasure_pool (name : string) (kwargs : list (string * pyval))
  : M pyval :=
  let profile_name := "ecprofile_" ++ name in
  let cmd := erasure_profile_cmd name kwargs in
  r <- attempt (shell cmd None) ;;
  match r with
  | inl err => ret (PBool false)
  | inr _ =>
      _ <- shell ("ceph osd erasure-code-profile get " ++ profile_name) None ;;
      (* Creating the pool with the profile created *)
      created <- call_create_pool profile_name kwargs ;;
      if negb (truthy created)
      then ret (PBool false)
      else ret (PBool true)
  end.

(* ---------------------------------------------------------------- *)
(** ** autoscaler_pool_settings (lines 772-798)                       *)
(* ---------------------------------------------------------------- *)

(** [for val in value_map.keys(): if val in kwargs.keys(): ...] *)
Fixpoint autoscaler_pool_settings_loop (pool_name : pyval)
  (kwargs : list (string * pyval)) (value_map : list (string * pyval))
  : M pyval :=
  match value_map with
  | [] => ret (PBool true)
  | (val, value) :: rest =>
      if has_key val kwargs
      then
        ok <- set_pool_property pool_name val value ;;
        if negb (truthy ok)
        then ret (PBool false)
        else autoscaler_pool_settings_loop pool_name kwargs rest
      else autoscaler_pool_settings_loop pool_name kwargs rest
  end.

Definition autoscaler_pool_settings (kwargs : list (string * pyval))
  : M pyval :=
  pool_name <- lift (getitem (PDict kwargs) "pool_name") ;;
  let value_map :=
    [("pg_autoscale_mode", kwargs_get kwargs "pg_autoscale_mode");
     ("target_size_ratio", kwargs_get kwargs "target_size_ratio");
     ("target_size_bytes", kwargs_get kwargs "target_size_bytes");
     ("pg_num_min", kwargs_get kwargs "pg_num_min")] in
  autoscaler_pool_settings_loop pool_name kwargs value_map.

(* ---------------------------------------------------------------- *)
(** ** enable_configuration_checks, disable_configuration_checks
       (lines 842-882)                                                *)
(* ---------------------------------------------------------------- *)

(** [changed = [entry for entry in all_conf_checks
                if entry["name"] in configs]] *)
Definition changed_checks (all_conf_checks configs : pyval)
  : res (list pyval) :=
  let! entries := iter all_conf_checks in
  filter_res (fun entry =>
                let! n := getitem entry "name" in
                py_in n configs)
             entries.

(** [for check in changed: if check["status"] != "enabled": return False]
    and its mirror image; [want] is the status the loop insists on:
    enabled ([true]) or anything else ([false]). *)
Fixpoint checks_have_status (want : bool) (changed : list pyval) : res pyval :=
  match changed with
  | [] => Ok (PBool true)
  | check :: rest =>
      let! st := getitem check "status" in
      if Bool.eqb (eq_str st "enabled") want
      then checks_have_status want rest
      else Ok (PBool false)
  end.

Definition enable_configuration_checks (configs : pyval) : M pyval :=
  checks <- lift (iter configs) ;;
  for_each checks (fun check =>
    _ <- shell ("ceph cephadm config-check enable " ++ fmt check) None ;;
    ret tt) ;;;
  all_conf_checks <-
    run_ceph_command "ceph cephadm config-check ls" default_timeout false ;;
  lift (let! changed := changed_checks all_conf_checks configs in
        checks_have_status true changed).

Definition disable_configuration_checks (configs : pyval) : M pyval :=
  checks <- lift (iter configs) ;;
  for_each checks (fun check =>
    _ <- shell ("ceph cephadm config-check disable " ++ fmt check) None ;;
    ret tt) ;;;
  all_conf_checks <-
    run_ceph_command "ceph cephadm config-check ls" default_timeout false ;;
  lift (let! changed := changed_checks all_conf_checks configs in
        checks_have_status false changed).

(* ---------------------------------------------------------------- *)
(** ** enable_balancer (lines 652-705)                                *)
(* ---------------------------------------------------------------- *)

Definition enable_balancer (kwargs : list (string * pyval)) : M pyval :=
  mgr_modules <- run_ceph_command "ceph mgr module ls" default_timeout false ;;
  (* "balancer" in always_on_modules or "balancer" in enabled_modules: the
     second list is looked at only when the first lacks the module; when
     both lack it the method logs an error and goes on *)
  _ <- lift (let! a := getitem mgr_modules "always_on_modules" in
             let! ina := py_in (PStr "balancer") a in
             if ina then Ok true
             else
               let! e := getitem mgr_modules "enabled_modules" in
               py_in (PStr "balancer") e) ;;
  (* Setting the mode for the balancer *)
  let balancer_mode := kwargs_default kwargs "balancer_mode" (PStr "upmap") in
  _ <- shell ("ceph balancer mode " ++ fmt balancer_mode) None ;;
  (* Turning on the balancer on the system *)
  _ <- shell "ceph balancer on" None ;;
  (if truthy (kwargs_get kwargs "target_max_misplaced_ratio")
   then
     _ <- shell ("ceph config set mgr target_max_misplaced_ratio "
                 ++ fmt (kwargs_get kwargs "target_max_misplaced_ratio"))
            None ;;
     ret tt
   else ret tt) ;;;
  (if truthy (kwargs_get kwargs "sleep_interval")
   then
     _ <- shell ("ceph config set mgr mgr/balancer/sleep_interval "
                 ++ fmt (kwargs_get kwargs "sleep_interval")) None ;;
     ret tt
   else ret tt) ;;;
  sleep 10 ;;;
  out <- run_ceph_command "ceph balancer status" default_timeout false ;;
  active <- lift (getitem out "active") ;;
  if negb (truthy active)
  then ret (PBool false)
  else ret (PBool true).

(* ---------------------------------------------------------------- *)
(** ** get_pg_acting_set (lines 559-593)                              *)
(* ---------------------------------------------------------------- *)

(** [for val in out["pools"]: if val["pool_name"] == pool_name:
       pool_id = val["pool"]; break]; [None] is [pool_id] left unbound. *)
Fixpoint find_pool_id (pool_name : pyval) (l : list pyval)
  : res (option pyval) :=
  match l with
  | [] => Ok None
  | val :: rest =>
      let! n := getitem val "pool_name" in
      if equal n pool_name
      then let! id := getitem val "pool" in Ok (Some id)
      else find_pool_id pool_name rest
  end.

Definition get_pg_acting_set (kwargs : list (string * pyval)) : M pyval :=
  pg_num <-
    (if truthy (kwargs_get kwargs "pool_name")
     then
       let pool_name := kwargs_get kwargs "pool_name" in
       (* Collecting details about the cluster *)
       out <- run_ceph_command "ceph osd dump" default_timeout false ;;
       pool_id <- lift (let! p := getitem out "pools" in
                        let! l := iter p in
                        find_pool_id pool_name l) ;;
       (* Collecting the details of the 1st PG in the pool <ID>.0 *)
       id <- lift (read_local "pool_id" pool_id) ;;
       ret (fmt id ++ ".0")
     else if truthy (kwargs_get kwargs "pg_num")
     then ret (fmt (kwargs_get kwargs "pg_num"))
     else ret "1.0") ;;
  out <- run_ceph_command ("ceph pg map " ++ pg_num) default_timeout false ;;
  lift (getitem out "up").

(** The truth value of an argument that is a [str] or [None], and the
    [str] it holds *)
Definition str_given (o : option string) : bool :=
  match o with
  | Some s => negb (String.eqb s EmptyString)
  | None => false
  end.

Definition str_arg (o : option string) : string :=
  match o with
  | Some s => s
  | None => "None"
  end.

(* ---------------------------------------------------------------- *)
(** ** reweight_crush_items (lines 884-929)                           *)
(* ---------------------------------------------------------------- *)

Definition reweight_crush_items (fuel : nat) (kwargs : list (string * pyval))
  : M pyval :=
  (* Collecting OSD utilization before re-weights *)
  out <- run_ceph_command "ceph osd df tree" default_timeout false ;;
  osd_info_init <-
    lift (let! n := getitem out "nodes" in
          let! l := iter n in
          filter_res (fun entry =>
                        let! t := getitem entry "type" in
                        Ok (eq_str t "osd"))
                     l) ;;
  let finish (affected_osds : list pyval) : M pyval :=
    if truthy (kwargs_get kwargs "verify_reweight")
    then
      ok <- verify_reweight fuel affected_osds osd_info_init ;;
      if negb (truthy ok)
      then ret (PBool false)
      else ret (PBool true)
    else ret (PBool true) in
  if truthy (kwargs_get kwargs "name")
  then
    let name := kwargs_get kwargs "name" in
    weight <- lift (getitem (PDict kwargs) "weight") ;;
    let cmd := "ceph osd crush reweight " ++ fmt name ++ " " ++ fmt weight in
    _ <- run_ceph_command cmd default_timeout false ;;
    finish [name]
  else
    (* if no params are provided, Doing the re-balance by utilization. *)
    out <- run_ceph_command "ceph osd reweight-by-utilization"
             default_timeout false ;;
    changes <- lift (let! m := getitem out "max_change_osds" in py_int m) ;;
    if changes >=? 1
    then
      affected_osds <- lift (let! r := getitem out "reweights" in
                             column "osd" r) ;;
      (* log.info(f"... {out['utilization']['moved_pgs']} ...") *)
      _ <- lift (let! u := getitem out "utilization" in
                 getitem u "moved_pgs") ;;
      (* Sleeping for 5 seconds after command execution for process to start *)
      sleep 5 ;;;
      finish affected_osds
    else
      ret (PBool true).

(* ---------------------------------------------------------------- *)
(** ** get_cephdf_stats (lines 1428-1452), get_ceph_pg_dump
       (1889-1909)                                                    *)
(* ---------------------------------------------------------------- *)

(** [for pool_stat in pool_stats: if pool_stat.get("name") == pool_name:
       return pool_stat] followed by [raise KeyError] *)
Fixpoint find_pool_stat (pool_name : string) (l : list pyval) : res pyval :=
  match l with
  | [] => Raise KeyError
  | pool_stat :: rest =>
      let! n := dict_get pool_stat "name" in
      if eq_str n pool_name then Ok pool_stat
      else find_pool_stat pool_name rest
  end.

Definition get_cephdf_stats (pool_name : option string) (detail : bool)
  : M pyval :=
  let _cmd := if detail then "ceph df detail" else "ceph df" in
  cephdf_stats <- run_ceph_command _cmd default_timeout true ;;
  if str_given pool_name
  then
    lift (match (let! pool_stats := getitem cephdf_stats "pools" in
                 let! l := iter pool_stats in
                 find_pool_stat (str_arg pool_name) l) with
          | Raise KeyError =>
              (* log.error(f"{pool_name} not found in ceph df stats") *)
              Ok (PDict [])
          | r => r
          end)
  else ret cephdf_stats.

(** [for pg_stat in pg_stats: if pg_stat["pgid"] == pg_id: return pg_stat]
    followed by [raise KeyError(...)] *)
Fixpoint find_pg_stat (pg_id : string) (l : list pyval) : res pyval :=
  match l with
  | [] => Raise KeyError
  | pg_stat :: rest =>
      let! id := getitem pg_stat "pgid" in
      if eq_str id pg_id then Ok pg_stat else find_pg_stat pg_id rest
  end.

(** [self.client.exec_command(cmd=_cmd)]: [sudo] is not given. *)
Definition get_ceph_pg_dump (pg_id : string) : M pyval :=
  let _cmd := "ceph pg dump_json pgs" in
  dump_out_str <- exec_command _cmd false None ;;
  if isspace dump_out_str
  then ret (PDict [])
  else
    dump_out <- lift (json_loads E dump_out_str) ;;
    lift (let! m := getitem dump_out "pg_map" in
          let! pg_stats := getitem m "pg_stats" in
          let! l := iter pg_stats in
          find_pg_stat pg_id l).

(* ---------------------------------------------------------------- *)
(** ** change_heap_profiler_state (lines 1664-1695)                   *)
(* ---------------------------------------------------------------- *)

(** [l] without its element at position [i] *)
Fixpoint remove_at {A} (i : nat) (l : list A) : list A :=
  match i, l with
  | _, [] => []
  | O, _ :: l' => l'
  | S i', x :: l' => x :: remove_at i' l'
  end.

(** The position of the first of the first [n] elements of [l] that is
    equal to [x] *)
Fixpoint first_equal (x : pyval) (n : nat) (l : list pyval) : option nat :=
  match n, l with
  | S n', y :: l' =>
      if equal y x then Some O
      else match first_equal x n' l' with
           | Some j => Some (S j)
           | None => None
           end
  | _, _ => None
  end.

(** [osd_list.remove(osd_id)] for the [osd_id] that the loop has just read
    from position [i] of [osd_list]: the first element equal to it goes,
    which is the one at [i] unless an earlier one is equal. *)
Definition remove_seen (i : nat) (osd_id : pyval) (osd_list : list pyval)
  : list pyval :=
  match first_equal osd_id i osd_list with
  | Some j => remove_at j osd_list
  | None => remove_at i osd_list
  end.

(** [for osd_id in osd_list: ...] (lines 1679-1693).  The loop reads the
    list by position, and its body may shorten the list it is reading;
    every round moves to the next position, so the length of the list at
    the start bounds the rounds. *)
Fixpoint heap_profiler_loop (rounds : nat) (action : string) (i : nat)
  (osd_list : list pyval) : M (list pyval) :=
  match nth_error osd_list i with
  | None => ret osd_list
  | Some osd_id =>
      match rounds with
      | O => lift OutOfFuel
      | S rounds' =>
          st <- get_daemon_status "osd" osd_id ;;
          let osd_status := fst st in
          let status_desc := snd st in
          if negb (eq_int osd_status 0 || eq_str status_desc "stopped")
          then
            let cmd :=
              "ceph tell osd." ++ fmt osd_id ++ " heap " ++ action
              ++ "_profiler" in
            _ <- shell cmd None ;;
            heap_profiler_loop rounds' action (S i) osd_list
          else
            heap_profiler_loop rounds' action (S i)
              (remove_seen i osd_id osd_list)
      end
  end.

(** The method returns the pair (exit status, OSD list). *)
Definition change_heap_profiler_state (osd_list : list pyval)
  (action : string) : M (Z * list pyval) :=
  match osd_list with
  | [] =>
      (* log.error("OSD list is empty") *)
      ret (1, [])
  | _ =>
      l <- heap_profiler_loop (List.length osd_list) action O osd_list ;;
      ret (0, l)
  end.

(* ---------------------------------------------------------------- *)
(** ** enable_email_alerts (lines 84-145)                             *)
(* ---------------------------------------------------------------- *)

(** The values of the dict [alert_cmds], in its order *)
Definition alert_cmds (kwargs : list (string * pyval)) : list string :=
  ["ceph config set mgr mgr/alerts/smtp_host "
   ++ fmt (kwargs_default kwargs "smtp_host" (PStr "smtp.corp.redhat.com"));
   "ceph config set mgr mgr/alerts/smtp_sender "
   ++ fmt (kwargs_default kwargs "smtp_sender"
             (PStr "ceph-iad2-c01-lab.mgr@redhat.com"));
   "ceph config set mgr mgr/alerts/smtp_ssl "
   ++ fmt (kwargs_default kwargs "smtp_ssl" (PStr "false"));
   "ceph config set mgr mgr/alerts/smtp_port "
   ++ fmt (kwargs_default kwargs "smtp_port" (PStr "25"));
   "ceph config set mgr mgr/alerts/interval "
   ++ fmt (kwargs_default kwargs "interval" (PStr "5"));
   "ceph config set mgr mgr/alerts/smtp_from_name '"
   ++ fmt (kwargs_default kwargs "smtp_from_name"
             (PStr "Rados 5.0 sanity Cluster")) ++ "'"].

Definition enable_email_alerts (kwargs : list (string * pyval)) : M pyval :=
  _ <- shell "ceph mgr module enable alerts" None ;;
  for_each (alert_cmds kwargs) (fun cmd => _ <- shell cmd None ;; ret tt) ;;;
  if truthy (kwargs_get kwargs "smtp_destination")
  then
    emails <- lift (iter (kwargs_get kwargs "smtp_destination")) ;;
    for_each emails (fun email =>
      _ <- shell ("ceph config set mgr mgr/alerts/smtp_destination "
                  ++ fmt email) None ;;
      ret tt) ;;;
    (* Printing all the configuration set *)
    _ <- run_ceph_command "ceph config dump" default_timeout false ;;
    (* Disabling and enabling the email alert module after setting all the
       config *)
    for_each ["disable"; "enable"] (fun state =>
      _ <- shell ("ceph mgr module " ++ state ++ " alerts") None ;;
      sleep 1) ;;;
    (* Triggering email alert *)
    r <- attempt (shell "ceph alerts send" None) ;;
    match r with
    | inl _ => ret (PBool false)
    | inr _ => ret (PBool true)
    end
  else
    (* log.error("email addresses not provided") *)
    ret (PBool false).

(* ---------------------------------------------------------------- *)
(** ** pool_inline_compression (lines 172-233)                        *)
(* ---------------------------------------------------------------- *)

(** The literal [0.875] *)
Definition lit_0_875 : spec_float :=
  Eval vm_compute in float_of_decimal false 875 (-3).

(** The dict [value_map] of lines 205-213 *)
Definition compression_value_map (kwargs : list (string * pyval))
  : list (string * pyval) :=
  [("compression_algorithm",
    kwargs_default kwargs "compression_algorithm" (PStr "snappy"));
   ("compression_mode", kwargs_default kwargs "compression_mode" (PStr "none"));
   ("compression_required_ratio",
    kwargs_default kwargs "compression_required_ratio" (PFloat lit_0_875));
   ("compression_min_blob_size",
    kwargs_default kwargs "compression_min_blob_size" (PStr "0B"));
   ("compression_max_blob_size",
    kwargs_default kwargs "compression_max_blob_size" (PStr "0B"))].

(** [for detail in details["pools"]: ...] (lines 222-230) and the
    [return True] after it; the loop does not stop at the pool. *)
Fixpoint compression_check (pool_name : string) (algorithm : pyval)
  (details : list pyval) : res pyval :=
  match details with
  | [] => Ok (PBool true)
  | detail :: rest =>
      let! n := getitem detail "pool_name" in
      if eq_str n pool_name
      then
        let! compression_conf := getitem detail "options" in
        let! a := getitem compression_conf "compression_algorithm" in
        if negb (equal a algorithm)
        then Ok (PBool false)
        else compression_check pool_name algorithm rest
      else compression_check pool_name algorithm rest
  end.

Definition pool_inline_compression (pool_name : string)
  (kwargs : list (string * pyval)) : M pyval :=
  pools <- list_pools ;;
  if negb (str_in_list pool_name pools)
  then ret (PBool false)
  else
    let value_map := compression_value_map kwargs in
    (* Adding the config values *)
    for_each value_map (fun kv =>
      if truthy (kwargs_default kwargs (fst kv) (PBool false))
      then
        _ <- shell ("ceph osd pool set " ++ pool_name ++ " " ++ fst kv ++ " "
                    ++ fmt (snd kv)) None ;;
        ret tt
      else ret tt) ;;;
    details <- run_ceph_command "ceph osd dump" default_timeout false ;;
    lift (let! p := getitem details "pools" in
          let! l := iter p in
          compression_check pool_name
            (kwargs_default kwargs "compression_algorithm" (PStr "snappy")) l).

End Orchestrator.

(* ================================================================== *)
(** * Vocabulary for stating what the methods do                       *)
(* ================================================================== *)

Definition opt_eqb (a b : option Z) : bool :=
  match a, b with
  | Some x, Some y => x =? y
  | None, None => true
  | _, _ => false
  end.

Definition event_eqb (a b : event) : bool :=
  match a, b with
  | Shell c t, Shell c' t' => String.eqb c c' && opt_eqb t t'
  | ExecCommand c s t, ExecCommand c' s' t' =>
      String.eqb c c' && Bool.eqb s s' && opt_eqb t t'
  | Sleep n, Sleep n' => n =? n'
  | _, _ => false
  end.

(** How often [ev] occurs in a trace *)
Fixpoint count_event (ev : event) (h : list event) : nat :=
  match h with
  | [] => O
  | e :: h' => (if event_eqb ev e then 1 else 0) + count_event ev h'
  end.

Definition is_sleep (ev : event) : bool :=
  match ev with
  | Sleep _ => true
  | _ => false
  end.

(** How many calls of [time.sleep] a trace holds *)
Definition sleeps (h : list event) : nat := List.length (filter is_sleep h).

(** The command line an event sends to the cluster, if it sends one *)
Definition command_of (ev : event) : option string :=
  match ev with
  | Shell c _ => Some c
  | ExecCommand c _ _ => Some c
  | Sleep _ => None
  end.

(** Whether a trace holds a call that sends the command line [cmd] *)
Definition issued (cmd : string) (h : list event) : bool :=
  existsb (fun ev => match command_of ev with
                     | Some c => String.eqb c cmd
                     | None => false
                     end) h.

(** The transport call [run_ceph_command] makes *)
Definition fetch_event (cmd : string) (timeout : Z) (client_exec : bool)
  : event :=
  if client_exec
  then ExecCommand (cmd ++ " -f json") true (Some timeout)
  else Shell (cmd ++ " -f json") (Some timeout).

(** The world after the transport call [ev] *)
Definition advance (E : env) (ev : event) (w : world) : world :=
  mkWorld (clock w + Z.of_N (took (cluster E (trace w) ev))) (ev :: trace w).

(** The command prints [out] at once: no exception, no time taken. *)
Definition prints (E : env) (h : list event) (ev : event) (out : string)
  : Prop :=
  cluster E h ev = mkReply (inr out) 0.

(** [run_ceph_command] hands [doc] to its caller for output [out]. *)
Definition decodes (E : env) (out : string) (doc : pyval) : Prop :=
  isspace out = false /\ json_loads E out = Ok doc.

(** The cluster never makes a transport raise. *)
Definition never_raises (E : env) : Prop :=
  forall h ev, exists out, result (cluster E h ev) = inr out.

(** Every command returns at once: only [time.sleep] moves the clock. *)
Definition instant (E : env) : Prop :=
  forall h ev, took (cluster E h ev) = 0%N.

(** Every command takes at most [L] microseconds. *)
Definition latency_at_most (E : env) (L : Z) : Prop :=
  forall h ev, Z.of_N (took (cluster E h ev)) <= L.

(** A scripted fetch sequence: counting from the [n]-th call of [ev], the
    successive calls print the successive members of [outs], at once. *)
Definition scripted (E : env) (ev : event) (n : nat) (outs : list string)
  : Prop :=
  forall h i out,
    count_event ev h = (n + i)%nat ->
    nth_error outs i = Some out ->
    prints E h ev out.

(** In every state of the cluster the call [ev] prints a text that
    [run_ceph_command] decodes to a document satisfying [P]. *)
Definition answers (E : env) (ev : event) (P : pyval -> Prop) : Prop :=
  forall h, exists out doc,
      result (cluster E h ev) = inr out /\ decodes E out doc /\ P doc.

(** The world after one unsuccessful round of a poll: the fetch [ev], then
    [time.sleep(secs)]. *)
Definition after_round (E : env) (ev : event) (secs : Z) (w : world) : world :=
  mkWorld (clock (advance E ev w) + seconds secs)
          (Sleep secs :: ev :: trace w).

(** The fetch of the loop of [verify_reweight] *)
Definition report_event : event := fetch_event "ceph report" default_timeout false.

(** The fetch of the loop of [run_pool_sanity_check] *)
Definition sanity_event : event := fetch_event "ceph report" default_timeout true.

Definition scrub_event : event := ExecCommand "ceph osd scrub all" true None.
Definition deep_scrub_event : event :=
  ExecCommand "ceph osd deep-scrub all" true None.

(** The world in which [run_pool_sanity_check] starts its deadline: after
    the two scrub commands and the ten-second sleep. *)
Definition sanity_start (E : env) (w : world) : world :=
  let w2 := advance E deep_scrub_event (advance E scrub_event w) in
  mkWorld (clock w2 + seconds 10)
          (Sleep 10 :: deep_scrub_event :: scrub_event :: trace w).

Definition config_set_event : event :=
  ExecCommand "ceph config set mon mon_allow_pool_delete true" true None.

(** The two commands of one round of [host_maintenance_enter] *)
Definition enter_event (hostname : string) : event :=
  ExecCommand ("ceph orch host maintenance enter " ++ hostname ++ " --force")
    true (Some 600).

Definition host_ls_event (hostname : string) : event :=
  ExecCommand ("ceph orch host ls --host_pattern " ++ hostname ++ " -f json")
    true None.

(** The fetch of the loop of [change_osd_state] *)
Definition daemon_event (E : env) (target : pyval) : event :=
  fetch_event
    ("ceph orch ps --daemon_type osd --daemon_id " ++ fmt E target ++ " --refresh")
    default_timeout false.

(** The entry [v] of the PG-statistics list is a PG record with id
    [fst r] and state [snd r]. *)
Definition pg_record (v : pyval) (r : string * pyval) : Prop :=
  exists d, v = PDict d
            /\ lookup "pgid" d = Some (PStr (fst r))
            /\ lookup "state" d = Some (snd r).

(** The state listed for [pgid], if the list has the PG *)
Fixpoint pg_find (pgid : string) (pgs : list (string * pyval)) : option pyval :=
  match pgs with
  | [] => None
  | (id, st) :: rest => if String.eqb id pgid then Some st else pg_find pgid rest
  end.

Definition config_listing (doc : pyval) : Prop :=
  exists names, column "name" doc = Ok names.

(** The pool is not among those [ceph df] lists. *)
Definition pool_absent (pool : string) (doc : pyval) : Prop :=
  exists p names,
    getitem doc "pools" = Ok p
    /\ column "name" p = Ok names
    /\ str_in_list pool names = false.

(** The verdict of the loop body of [verify_reweight] on one report, with
    [flag] not bound before: [Some true] when the last PG-state entry has
    neither [remapped] nor [backfilling], [Some false] when it has one,
    and [None] (the name stays unbound) when the report has no entry. *)
Definition reweight_done (report : pyval) : res (option bool) :=
  let! l := getitem report "num_pg_by_state" in
  let! entries := iter l in
  reweight_flag entries None.

(** The report has the health checks the "waiting" log line prints. *)
Definition logs_health (report : pyval) : Prop :=
  exists h c ks,
    getitem report "health" = Ok h
    /\ getitem h "checks" = Ok c
    /\ keys c = Ok ks.

Definition reweight_pending (report : pyval) : Prop :=
  reweight_done report = Ok (Some false) /\ logs_health report.

(** What [check_host_status(hostname, status="maintenance")] answers on a
    decoded host listing. *)
Definition host_verdict (doc : pyval) : res bool :=
  let! h := getindex doc 0 in
  let! st := getitem h "status" in
  let! hs := lower_of st in
  Ok (if contains "maintenance" hs then true
      else if contains "offline" hs then false
      else true).

(** The report carries one of the health warnings the sanity check
    looks for. *)
Definition sanity_warned (doc : pyval) : Prop :=
  exists h c ks,
    getitem doc "health" = Ok h
    /\ getitem h "checks" = Ok c
    /\ keys c = Ok ks
    /\ existsb (fun key => str_in key health_warns) ks = true.

(** The daemon listing shows the OSD neither with status 0 nor as
    stopped. *)
Definition still_running (doc : pyval) : Prop :=
  exists e st sd,
    getindex doc 0 = Ok e
    /\ getitem e "status" = Ok st
    /\ getitem e "status_desc" = Ok sd
    /\ eq_int st 0 = false
    /\ eq_str sd "stopped" = false.

(** The daemon listing shows the OSD in a state that does not end the
    loop of [change_osd_state] for [action]: neither of the two [break]
    conditions holds. *)
Definition state_not_reached (action : string) (doc : pyval) : Prop :=
  exists e st sd,
    getindex doc 0 = Ok e
    /\ getitem e "status" = Ok st
    /\ getitem e "status_desc" = Ok sd
    /\ (eq_int st 0 || eq_str sd "stopped") && String.eqb action "stop" = false
    /\ (eq_int st 1 || eq_str sd "running") && String.eqb action "start" = false.

(** The events of a poll that fetches with [ev], sleeps [secs] seconds
    after each of [k] unsuccessful fetches and stops at the next fetch
    (most recent event first). *)
Fixpoint poll_trace (ev : event) (secs : Z) (k : nat) : list event :=
  match k with
  | O => [ev]
  | S k' => (poll_trace ev secs k' ++ [Sleep secs; ev])%list
  end.

(** The events of [host_maintenance_enter] when the check fails [k] times
    and then succeeds (most recent event first). *)
Fixpoint enter_trace (hostname : string) (k : nat) : list event :=
  match k with
  | O => [host_ls_event hostname; Sleep 20; enter_event hostname]
  | S k' =>
      (enter_trace hostname k'
       ++ [Sleep 15; host_ls_event hostname; Sleep 20; enter_event hostname])%list
  end.

(** The events of [j] unsuccessful rounds of a poll (most recent first) *)
Fixpoint timeout_trace (ev : event) (secs : Z) (j : nat) : list event :=
  match j with
  | O => []
  | S j' => (timeout_trace ev secs j' ++ [Sleep secs; ev])%list
  end.

(* ---------------------------------------------------------------- *)
(** ** Scripted clusters, to run the methods on concrete outputs      *)
(* ---------------------------------------------------------------- *)

(** For each transport call, the answers to its successive occurrences and
    the answer to every later one. *)
Definition script : Type :=
  list (event * (list (exn + string) * (exn + string))).

Fixpoint script_find (ev : event) (s : script)
  : option (list (exn + string) * (exn + string)) :=
  match s with
  | [] => None
  | (e, a) :: s' => if event_eqb ev e then Some a else script_find ev s'
  end.

(** A call the script does not mention prints nothing.  All calls return
    at once. *)
Definition scripted_cluster (s : script) (h : list event) (ev : event)
  : reply :=
  match script_find ev s with
  | Some (outs, last) => mkReply (nth (count_event ev h) outs last) 0
  | None => mkReply (inr EmptyString) 0
  end.

(** The environment of the examples: a scripted cluster and the reference
    decoder.  The examples never reach the other library functions. *)
Definition scripted_env (s : script) : env :=
  mkEnv (scripted_cluster s) PyJson.loads
        (fun _ => EmptyString)
        (fun _ => Raise ValueError)
        (fun _ => Raise ValueError)
        (fun _ _ => false).

Definition is_inr {A B} (x : A + B) : bool :=
  match x with
  | inr _ => true
  | inl _ => false
  end.

Definition script_ok (s : script) : bool :=
  forallb (fun entry => forallb is_inr (fst (snd entry)) && is_inr (snd (snd entry))) s.

Definition w0 : world := mkWorld 0 [].

(** JSON text: [jstr s] is the string literal for [s] (nothing to escape
    in the texts used here), [jfield k v] the member [k: v]. *)
Definition jstr (s : string) : string := PyJson.dq ++ s ++ PyJson.dq.
Definition jfield (k v : string) : string := jstr k ++ ": " ++ v.

(** The documents the reference decoder makes of the example outputs *)
Definition decoded (out : string) : pyval :=
  match PyJson.loads out with
  | Ok doc => doc
  | _ => PNone
  end.

(* ---------------------------------------------------------------- *)
(** ** The clusters and command outputs of the examples               *)
(* ---------------------------------------------------------------- *)

(** A cluster on which every command prints nothing. *)
Definition silent_env : env := scripted_env [].

(** A cluster whose admin node cannot be reached. *)
Definition unreachable_env : env :=
  scripted_env
    [(Shell "ceph report -f json" (Some 300),
      ([], inl (CommandFailed "ssh: connect to host failed")))].

(** A cluster that answers [ceph report] with a single space, and one that
    answers it with text that is not JSON. *)
Definition blank_env : env :=
  scripted_env [(Shell "ceph report -f json" (Some 300), ([], inr " "))].



(** A PG dump with two PGs *)
Definition pg_dump_env : env :=
  scripted_env
    [(Shell "ceph pg dump pgs -f json" (Some 300),
      ([], inr ("{" ++ jfield "pg_stats"
                  ("[{" ++ jfield "pgid" (jstr "1.0") ++ ", "
                        ++ jfield "state" (jstr "active+clean") ++ "}, "
                   ++ "{" ++ jfield "pgid" (jstr "11.2f") ++ ", "
                        ++ jfield "state" (jstr "active+remapped+backfilling")
                        ++ "}]")
                ++ "}")))].

(** An OSD whose allocator reports a fragmentation rating of 1.25 *)
Definition fragmented_env : env :=
  scripted_env
    [(Shell "ceph tell osd.3 bluestore allocator score block -f json" (Some 300),
      ([], inr ("{" ++ jfield "fragmentation_rating" "1.25" ++ "}")))].

(** A cluster with two pools, and no [mon_allow_pool_delete] in its
    configuration dump *)
Definition pools_env : env :=
  scripted_env
    [(ExecCommand "ceph config dump -f json" true (Some 300),
      ([], inr ("[{" ++ jfield "name" (jstr "osd_op_queue") ++ ", "
                     ++ jfield "value" (jstr "wpq") ++ "}]")));
     (ExecCommand "ceph df -f json" true (Some 300),
      ([], inr ("{" ++ jfield "pools"
                  ("[{" ++ jfield "name" (jstr "rbd") ++ "}, {"
                        ++ jfield "name" (jstr "cephfs_data") ++ "}]")
                ++ "}")))].

(** Command outputs for the examples *)
Definition report_json (state checks : string) : string :=
  "{" ++ jfield "num_pg_by_state"
           ("[{" ++ jfield "state" (jstr state) ++ ", " ++ jfield "num" "32" ++ "}]")
  ++ ", " ++ jfield "health" ("{" ++ jfield "checks" checks ++ "}") ++ "}".

Definition degraded_report : string :=
  report_json "active+remapped+backfilling"
    ("{" ++ jfield "PG_DEGRADED" "{}" ++ "}").

Definition clean_report : string := report_json "active+clean" "{}".

Definition no_pg_report : string :=
  "{" ++ jfield "num_pg_by_state" "[]"
  ++ ", " ++ jfield "health" ("{" ++ jfield "checks" "{}" ++ "}") ++ "}".

Definition host_json (status : string) : string :=
  "[{" ++ jfield "hostname" (jstr "node1") ++ ", "
       ++ jfield "status" (jstr status) ++ "}]".

(** Two unsuccessful fetches, then a successful one, for both loops *)
Definition converging_env : env :=
  scripted_env
    [(report_event,
      (map inr [degraded_report; degraded_report; clean_report],
       inr clean_report));
     (host_ls_event "node1",
      (map inr [host_json "Offline"; host_json "Offline";
                host_json "Maintenance"],
       inr (host_json "Maintenance")))].

(** A host that is in maintenance mode at the first check *)
Definition maintenance_env : env :=
  scripted_env
    [(host_ls_event "node1", ([], inr (host_json "Maintenance")))].

(** The documents the reports decode to *)
Definition degraded_doc : pyval := Eval vm_compute in decoded degraded_report.
Definition clean_doc : pyval := Eval vm_compute in decoded clean_report.
Definition no_pg_doc : pyval := Eval vm_compute in decoded no_pg_report.

(** A first report with PGs still moving, a second with no PG-state entry
    at all, a third with all PGs clean *)
Definition stale_env : env :=
  scripted_env
    [(report_event,
      (map inr [degraded_report; no_pg_report; clean_report],
       inr clean_report))].

(** A cluster whose report never has a PG-state entry *)
Definition no_pg_env : env :=
  scripted_env [(report_event, ([], inr no_pg_report))].

(** The daemon listing of an OSD that is running *)
Definition running_json : string :=
  "[{" ++ jfield "daemon_name" (jstr "osd.1") ++ ", "
       ++ jfield "status" "1" ++ ", "
       ++ jfield "status_desc" (jstr "running") ++ "}]".

(** An OSD that keeps running while [change_osd_state] waits for it to
    stop *)
Definition osd_env : env :=
  scripted_env
    [(Shell "ceph orch ps --daemon_type osd --daemon_id 1 --refresh -f json"
        (Some 300),
      ([], inr running_json))].

(** A cluster that never converges: the reports always show PGs on the
    move and a health warning, and the OSD keeps running.  In [slow_env]
    every command takes seven seconds. *)
Definition stuck_script : script :=
  [(sanity_event, ([], inr degraded_report));
   (report_event, ([], inr degraded_report));
   (Shell "ceph orch ps --daemon_type osd --daemon_id 1 --refresh -f json"
      (Some 300),
    ([], inr running_json))].

Definition stuck_env : env := scripted_env stuck_script.

Definition slow_env : env :=
  mkEnv (fun h ev => mkReply (result (scripted_cluster stuck_script h ev)) 7000000)
        PyJson.loads
        (fun _ => EmptyString)
        (fun _ => Raise ValueError)
        (fun _ => Raise ValueError)
        (fun _ _ => false).

(* ---------------------------------------------------------------- *)
(** ** Vocabulary of the pool, host and OSD methods                   *)
(* ---------------------------------------------------------------- *)

(** The fetch of [list_pools] *)
Definition df_event : event := fetch_event "ceph df" default_timeout false.

(** [ceph df] lists the pools named [names], in this order. *)
Definition pool_listing (names : list pyval) (doc : pyval) : Prop :=
  exists p, getitem doc "pools" = Ok p /\ column "name" p = Ok names.

(** The command of [set_pool_property] *)
Definition pool_set_event (E : env) (pool : pyval) (props : string)
  (value : pyval) : event :=
  Shell ("ceph osd pool set " ++ fmt E pool ++ " " ++ props ++ " "
         ++ fmt E value) None.

(** The two commands of [enable_file_logging] *)
Definition log_to_file_event : event :=
  Shell "ceph config set global log_to_file true" None.
Definition mon_log_to_file_event : event :=
  Shell "ceph config set global mon_cluster_log_to_file true" None.

(** The command of [check_file_exists_on_client] *)
Definition ls_event (E : env) (loc : pyval) : event :=
  ExecCommand ("ls " ++ fmt E loc) true None.

(** The two commands of [bench_read] *)
Definition bench_event (E : env) (pool_name : string)
  (kwargs : list (string * pyval)) (mode : string) : event :=
  Shell ("rados --no-log-to-stderr -p " ++ pool_name ++ " bench "
         ++ fmt E (kwargs_default kwargs "rados_read_duration" (PInt 80))
         ++ " " ++ mode) None.

(** Whether a transport call succeeded *)
Definition succeeded (r : reply) : bool := is_inr (result r).

(** The fetch of [get_cephdf_stats] *)
Definition cephdf_event (detail : bool) : event :=
  fetch_event (if detail then "ceph df detail" else "ceph df")
    default_timeout true.

Definition is_dict (v : pyval) : bool :=
  match v with
  | PDict _ => true
  | _ => false
  end.

(** The object [v] has the name [pool]. *)
Definition named (pool : string) (v : pyval) : bool :=
  match v with
  | PDict d => match lookup "name" d with
               | Some n => eq_str n pool
               | None => false
               end
  | _ => false
  end.

(** The statistics [ceph df] lists for [pool] in the document [d]: those
    of the first pool of that name, and the empty document when no pool
    has the name or the document lists no pools at all. *)
Definition pool_stat_of (pool : string) (d : list (string * pyval)) : pyval :=
  match lookup "pools" d with
  | Some (PList entries) =>
      match find (named pool) entries with
      | Some v => v
      | None => PDict []
      end
  | _ => PDict []
  end.

(** The document has no ["pools"], or a list of objects under it. *)
Definition lists_pool_stats (d : list (string * pyval)) : bool :=
  match lookup "pools" d with
  | None => true
  | Some (PList entries) => forallb is_dict entries
  | Some _ => false
  end.

(** The command of [get_ceph_pg_dump] *)
Definition pg_dump_event : event := ExecCommand "ceph pg dump_json pgs" false None.

(** The PG record [v] has the id [pg_id]. *)
Definition has_pgid (pg_id : string) (v : pyval) : bool :=
  match getitem v "pgid" with
  | Ok id => eq_str id pg_id
  | _ => false
  end.

(** The dump that [get_ceph_pg_dump] decodes lists the PG records
    [entries], each with an id. *)
Definition pg_dump_lists (entries : list pyval) (doc : pyval) : Prop :=
  exists m,
    getitem doc "pg_map" = Ok m
    /\ getitem m "pg_stats" = Ok (PList entries)
    /\ Forall (fun v => exists id, getitem v "pgid" = Ok id) entries.

(** The first fetch of [get_pg_acting_set] *)
Definition osd_dump_event : event :=
  fetch_event "ceph osd dump" default_timeout false.

(** The entry [v] of the pool list of [ceph osd dump] is a pool named [n]. *)
Definition pool_named (v : pyval) (n : string) : Prop :=
  exists d, v = PDict d /\ lookup "pool_name" d = Some (PStr n).

(** The entry [v] of an OSD listing is the OSD [fst r] with [snd r] KB
    in use. *)
Definition osd_usage (v : pyval) (r : Z * Z) : Prop :=
  exists d, v = PDict d
            /\ lookup "id" d = Some (PInt (fst r))
            /\ lookup "kb_used" d = Some (PInt (snd r)).

(** Some OSD of [before] is listed in [after] with fewer KB in use. *)
Definition usage_dropped (before after : list (Z * Z)) : bool :=
  existsb (fun e =>
             existsb (fun i => (fst i =? fst e) && (snd i >? snd e)) before)
          after.

(** The fetch of [enable_configuration_checks] and
    [disable_configuration_checks] *)
Definition config_check_ls_event : event :=
  fetch_event "ceph cephadm config-check ls" default_timeout false.

(** The entry [v] of the listing is the check [fst r] with status
    [snd r]. *)
Definition check_record (v : pyval) (r : string * string) : Prop :=
  exists d, v = PDict d
            /\ lookup "name" d = Some (PStr (fst r))
            /\ lookup "status" d = Some (PStr (snd r)).

(** The check is one of those named in [names]. *)
Definition selected (names : list string) (r : string * string) : bool :=
  existsb (fun n => String.eqb n (fst r)) names.

Definition is_enabled (r : string * string) : bool :=
  String.eqb (snd r) "enabled".

(** The command of one round of [host_maintenance_exit] *)
Definition exit_event (hostname : string) : event :=
  ExecCommand ("ceph orch host maintenance exit " ++ hostname ++ " ")
    true (Some 600).

(** What [check_host_status(hostname)], without a status, answers on a
    decoded host listing. *)
Definition host_online (doc : pyval) : res bool :=
  let! h := getindex doc 0 in
  let! st := getitem h "status" in
  let! hs := lower_of st in
  Ok (negb (contains "offline" hs)).

(** In every state of the cluster the host listing prints a text that
    [json.loads] decodes to a document satisfying [P]. *)
Definition host_answers (E : env) (hostname : string) (P : pyval -> Prop)
  : Prop :=
  forall h, exists out doc,
      result (cluster E h (host_ls_event hostname)) = inr out
      /\ json_loads E out = Ok doc
      /\ P doc.

(** The events of [k] rounds of [host_maintenance_enter] whose check
    fails *)
Fixpoint failed_enter_trace (hostname : string) (k : nat) : list event :=
  match k with
  | O => []
  | S k' =>
      Sleep 15 :: host_ls_event hostname :: Sleep 20 :: enter_event hostname
      :: failed_enter_trace hostname k'
  end.

(** The commands of [create_pool] and [create_erasure_pool] *)
Definition create_pool_event (E : env) (pool_name : pyval)
  (kwargs : list (string * pyval)) : event :=
  Shell (create_pool_cmd E pool_name kwargs) None.

Definition app_enable_event (E : env) (pool_name : pyval)
  (kwargs : list (string * pyval)) : event :=
  Shell ("sudo ceph osd pool application enable " ++ fmt E pool_name ++ " "
         ++ fmt E (kwargs_default kwargs "app_name" (PStr "rados"))) None.

Definition autoscale_off_cmd (E : env) (pool_name : pyval) : string :=
  "ceph osd pool set " ++ fmt E pool_name ++ " pg_autoscale_mode off".

Definition profile_set_event (E : env) (name : string)
  (kwargs : list (string * pyval)) : event :=
  Shell (erasure_profile_cmd E name kwargs) None.

Definition profile_get_event (name : string) : event :=
  Shell ("ceph osd erasure-code-profile get " ++ "ecprofile_" ++ name) None.

(** The daemon listing shows the OSD with status 0 or as stopped. *)
Definition is_stopped (doc : pyval) : Prop :=
  exists e st sd,
    getindex doc 0 = Ok e
    /\ getitem e "status" = Ok st
    /\ getitem e "status_desc" = Ok sd
    /\ (eq_int st 0 || eq_str sd "stopped") = true.

(** Every second element of a list: those at positions 0, 2, 4, ... when
    [take] is [true], those at positions 1, 3, 5, ... when it is [false]. *)
Fixpoint alternate {A} (take : bool) (l : list A) : list A :=
  match l with
  | [] => []
  | x :: l' => if take then x :: alternate false l' else alternate true l'
  end.

(** The fetches of [reweight_crush_items] *)
Definition df_tree_event : event :=
  fetch_event "ceph osd df tree" default_timeout false.

Definition reweight_by_utilization_event : event :=
  fetch_event "ceph osd reweight-by-utilization" default_timeout false.

(** [ceph osd df tree] lists nodes, each with a type. *)
Definition osd_tree (doc : pyval) : Prop :=
  exists nodes,
    getitem doc "nodes" = Ok (PList nodes)
    /\ Forall (fun v => exists t, getitem v "type" = Ok t) nodes.

(** The re-weight by utilization changed no OSD. *)
Definition no_reweights (E : env) (doc : pyval) : Prop :=
  exists m z,
    getitem doc "max_change_osds" = Ok m /\ py_int E m = Ok z /\ z < 1.

(** The settings [autoscaler_pool_settings] knows *)
Definition autoscaler_keys : list string :=
  ["pg_autoscale_mode"; "target_size_ratio"; "target_size_bytes"; "pg_num_min"].

(** The fetches of [enable_balancer] *)
Definition mgr_module_ls_event : event :=
  fetch_event "ceph mgr module ls" default_timeout false.

Definition balancer_status_event : event :=
  fetch_event "ceph balancer status" default_timeout false.

(** The module listing has its two lists, whatever they hold. *)
Definition module_listing (doc : pyval) : Prop :=
  exists a e,
    getitem doc "always_on_modules" = Ok (PList a)
    /\ getitem doc "enabled_modules" = Ok (PList e).

(** The pool [pool] is among those [ceph df] lists. *)
Definition pool_present (pool : string) (doc : pyval) : Prop :=
  exists p names,
    getitem doc "pools" = Ok p
    /\ column "name" p = Ok names
    /\ str_in_list pool names = true.

(** The entry [v] of the pool list of [ceph osd dump] is the pool [pool]
    with no compression algorithm among its options. *)
Definition uncompressed_pool (pool : string) (v : pyval) : Prop :=
  exists d o,
    v = PDict d
    /\ lookup "pool_name" d = Some (PStr pool)
    /\ lookup "options" d = Some (PDict o)
    /\ lookup "compression_algorithm" o = None.

(* ---------------------------------------------------------------- *)
(** ** More clusters for the examples                                 *)
(* ---------------------------------------------------------------- *)

(** A cluster whose admin node cannot be reached for [ceph df] *)
Definition df_down_env : env :=
  scripted_env
    [(df_event, ([], inl (CommandFailed "ssh: connect to host failed")))].

(** A cluster with the pools [rbd] and [cephfs_data] *)
Definition pool_list_json : string :=
  "{" ++ jfield "pools"
           ("[{" ++ jfield "name" (jstr "rbd") ++ "}, {"
                 ++ jfield "name" (jstr "cephfs_data") ++ "}]")
  ++ "}".

Definition two_pools_env : env :=
  scripted_env [(df_event, ([], inr pool_list_json))].

(** A [ceph df] output with the statistics of two pools *)
Definition df_stats_json : string :=
  "{" ++ jfield "pools"
           ("[{" ++ jfield "name" (jstr "rbd") ++ ", "
                 ++ jfield "id" "1" ++ "}, {"
                 ++ jfield "name" (jstr "cephfs_data") ++ ", "
                 ++ jfield "id" "2" ++ "}]")
  ++ "}".

Definition df_stats_env : env :=
  scripted_env [(cephdf_event false, ([], inr df_stats_json))].

Definition df_stats_doc : list (string * pyval) :=
  Eval vm_compute in
    match decoded df_stats_json with
    | PDict d => d
    | _ => []
    end.

(** A PG dump with two PGs, as [ceph pg dump_json pgs] prints it *)
Definition pg_dump_json : string :=
  "{" ++ jfield "pg_map"
           ("{" ++ jfield "pg_stats"
                     ("[{" ++ jfield "pgid" (jstr "1.0") ++ ", "
                           ++ jfield "state" (jstr "active+clean") ++ "}, "
                      ++ "{" ++ jfield "pgid" (jstr "11.2f") ++ ", "
                           ++ jfield "state" (jstr "active+clean") ++ "}]")
            ++ "}")
  ++ "}".

Definition pg_dump_json_env : env :=
  scripted_env [(pg_dump_event, ([], inr pg_dump_json))].

Definition pg_dump_entries : list pyval :=
  Eval vm_compute in
    match decoded pg_dump_json with
    | PDict [(_, PDict [(_, PList l)])] => l
    | _ => []
    end.

(** An OSD dump with the pools [rbd] and [cephfs_data] *)
Definition osd_dump_json : string :=
  "{" ++ jfield "pools"
           ("[{" ++ jfield "pool" "1" ++ ", "
                 ++ jfield "pool_name" (jstr "rbd") ++ "}, {"
                 ++ jfield "pool" "2" ++ ", "
                 ++ jfield "pool_name" (jstr "cephfs_data") ++ "}]")
  ++ "}".

Definition osd_dump_env : env :=
  scripted_env [(osd_dump_event, ([], inr osd_dump_json))].

Definition osd_dump_entries : list pyval :=
  Eval vm_compute in
    match decoded osd_dump_json with
    | PDict [(_, PList l)] => l
    | _ => []
    end.

(** A listing of configuration checks: one enabled, one disabled *)
Definition config_check_json : string :=
  "[{" ++ jfield "name" (jstr "kernel_security") ++ ", "
       ++ jfield "status" (jstr "enabled") ++ "}, {"
       ++ jfield "name" (jstr "osd_mtu_size") ++ ", "
       ++ jfield "status" (jstr "disabled") ++ "}]".

Definition config_check_env : env :=
  scripted_env [(config_check_ls_event, ([], inr config_check_json))].

Definition config_check_entries : list pyval :=
  Eval vm_compute in
    match decoded config_check_json with
    | PList l => l
    | _ => []
    end.

(** A host that stays offline *)
Definition offline_env : env :=
  scripted_env [(host_ls_event "node1", ([], inr (host_json "Offline")))].

(** A cluster that refuses to create the pool [scratch], and one that
    creates it and then fails to enable the application on it *)
Definition no_create_env : env :=
  scripted_env
    [(Shell "ceph osd pool create scratch" None,
      ([], inl (CommandFailed "pool creation failed")))].

Definition no_app_env : env :=
  scripted_env
    [(Shell "sudo ceph osd pool application enable scratch rados" None,
      ([], inl (CommandFailed "application enable failed")))].

(** The daemon listing of an OSD that is stopped, and a cluster whose
    OSDs 1, 2 and 3 are all stopped *)
Definition stopped_json : string :=
  "[{" ++ jfield "daemon_name" (jstr "osd") ++ ", "
       ++ jfield "status" "0" ++ ", "
       ++ jfield "status_desc" (jstr "stopped") ++ "}]".

Definition stopped_script : script :=
  map (fun id => (daemon_event silent_env (PInt id), ([], inr stopped_json)))
      [1; 2; 3].

Definition stopped_env : env := scripted_env stopped_script.

(** A cluster with one OSD on which the re-weight by utilization finds
    nothing to change *)
Definition df_tree_json : string :=
  "{" ++ jfield "nodes"
           ("[{" ++ jfield "id" "0" ++ ", "
                 ++ jfield "type" (jstr "osd") ++ ", "
                 ++ jfield "kb_used" "100" ++ "}]")
  ++ "}".

Definition balanced_env : env :=
  scripted_env
    [(df_tree_event, ([], inr df_tree_json));
     (reweight_by_utilization_event,
      ([], inr ("{" ++ jfield "max_change_osds" "0" ++ "}")))].

(** A cluster without the balancer module among its manager modules,
    whose balancer reports that it is active *)
Definition balancer_env : env :=
  scripted_env
    [(mgr_module_ls_event,
      ([], inr ("{" ++ jfield "always_on_modules" "[]" ++ ", "
                    ++ jfield "enabled_modules" ("[" ++ jstr "iostat" ++ "]")
                ++ "}")));
     (balancer_status_event,
      ([], inr ("{" ++ jfield "active" "true" ++ "}")))].

(** A cluster with the pool [rbd], which has no compression options *)
Definition plain_pool_json : string :=
  "{" ++ jfield "pools"
           ("[{" ++ jfield "pool" "1" ++ ", "
                 ++ jfield "pool_name" (jstr "rbd") ++ ", "
                 ++ jfield "options" "{}" ++ "}]")
  ++ "}".

Definition plain_pool_script : script :=
  [(df_event, ([], inr pool_list_json));
   (osd_dump_event, ([], inr plain_pool_json))].

Definition plain_pool_env : env := scripted_env plain_pool_script.

End Rados.

(* ================================================================== *)
(** * Properties                                                       *)
(* ================================================================== *)

Import Py Rados.
Local Open Scope py_scope.

(** ** run_ceph_command *)

(** What [run_ceph_command] returns, by the answer of the transport. *)
Lemma run_ceph_command_eq (E : env) cmd timeout client_exec w :
  run_ceph_command E cmd timeout client_exec w =
  (match result (cluster E (trace w) (fetch_event cmd timeout client_exec)) with
   | inl _ => Ok PNone
   | inr out => if isspace out then Ok (PDict []) else json_loads E out
   end,
   advance E (fetch_event cmd timeout client_exec) w).
Proof.
  unfold run_ceph_command, fetch_event, advance, bind, attempt,
    exec_command, shell, transport, lift, ret.
  destruct client_exec; cbn;
    (match goal with
     | |- context [result ?r] => destruct (result r) as [e | out]
     end; cbn; [reflexivity |]);
    destruct (isspace out); cbn; try reflexivity;
    destruct (json_loads E out); reflexivity.
Qed.

(** Output made of whitespace only (at least one character) gives the
    empty document. *)
Lemma run_ceph_command_whitespace (E : env) cmd timeout client_exec w out :
  result (cluster E (trace w) (fetch_event cmd timeout client_exec)) = inr out ->
  isspace out = true ->
  run_ceph_command E cmd timeout client_exec w =
  (Ok (PDict []), advance E (fetch_event cmd timeout client_exec) w).
Proof.
  intros Hout Hsp. rewrite run_ceph_command_eq, Hout, Hsp. reflexivity.
Qed.

(** Any other output is handed to [json.loads], whose result, a document or
    an exception, is the result of the call. *)
Lemma run_ceph_command_decode (E : env) cmd timeout client_exec w out :
  result (cluster E (trace w) (fetch_event cmd timeout client_exec)) = inr out ->
  isspace out = false ->
  run_ceph_command E cmd timeout client_exec w =
  (json_loads E out, advance E (fetch_event cmd timeout client_exec) w).
Proof.
  intros Hout Hsp. rewrite run_ceph_command_eq, Hout, Hsp. reflexivity.
Qed.

(** [str.isspace] is false of the empty string. *)
Lemma isspace_empty : isspace EmptyString = false.
Proof. reflexivity. Qed.

(** C1, at the input on which the code departs from the claim: a command
    that prints nothing.  The empty string is not whitespace for
    [str.isspace], so [run_ceph_command] passes it to [json.loads] and the
    call ends in [JSONDecodeError] instead of returning the empty
    document. *)
Theorem run_ceph_command_empty_output_raises :
  run_ceph_command silent_env "ceph osd crush reweight osd.1 0.5"
    default_timeout false w0
  = (Raise JSONDecodeError,
     mkWorld 0 [Shell "ceph osd crush reweight osd.1 0.5 -f json" (Some 300)]).
Proof. vm_compute. reflexivity. Qed.

(** C2 fails on the code: the transport raises, yet [run_ceph_command]
    returns [None] to its caller and raises nothing. *)
Lemma run_ceph_command_swallows_transport_failure :
  result (cluster unreachable_env (trace w0)
            (fetch_event "ceph report" default_timeout false))
  = inl (CommandFailed "ssh: connect to host failed")
  /\ fst (run_ceph_command unreachable_env "ceph report" default_timeout false w0)
     = Ok PNone.
Proof. split; vm_compute; reflexivity. Qed.

(** C2 as amended: whenever the command-execution call inside
    [run_ceph_command] raises, the exception is caught there and the call
    returns [None]; what the transport raised does not reach the caller. *)
Theorem run_ceph_command_transport_failure_returns_none
  (E : env) cmd timeout client_exec w e :
  result (cluster E (trace w) (fetch_event cmd timeout client_exec)) = inl e ->
  run_ceph_command E cmd timeout client_exec w =
  (Ok PNone, advance E (fetch_event cmd timeout client_exec) w).
Proof.
  intros Hres. rewrite run_ceph_command_eq, Hres. reflexivity.
Qed.

Lemma run_ceph_command_transport_failure_returns_none_witness :
  run_ceph_command unreachable_env "ceph report" default_timeout false w0 =
  (Ok PNone,
   advance unreachable_env (fetch_event "ceph report" default_timeout false) w0).
Proof.
  apply (run_ceph_command_transport_failure_returns_none unreachable_env
           "ceph report" default_timeout false w0
           (CommandFailed "ssh: connect to host failed")).
  reflexivity.
Defined.

(** A single space is blank: the call returns the empty document. *)
Example run_ceph_command_blank_output :
  fst (run_ceph_command blank_env "ceph report" default_timeout false w0)
  = Ok (PDict []).
Proof. vm_compute. reflexivity. Qed.

(** Whatever the strict decoder accepts, [json.loads] accepts with the
    same result: [json.loads] rejects only texts that are not valid
    JSON. *)
Lemma strict_atom_accepted s r :
  PyJson.strict_atom s = Ok r -> PyJson.scan_atom s = Ok r.
Proof.
  unfold PyJson.strict_atom, PyJson.scan_atom.
  destruct (PyJson.strip "null" s); [trivial |].
  destruct (PyJson.strip "true" s); [trivial |].
  destruct (PyJson.strip "false" s); [trivial |].
  destruct (PyJson.scan_number s); [trivial | discriminate].
Qed.

Lemma strict_accepted fuel :
  (forall s r, PyJson.strict_value fuel s = Ok r -> PyJson.value fuel s = Ok r)
  /\ (forall acc s r, PyJson.strict_members fuel acc s = Ok r ->
                      PyJson.members fuel acc s = Ok r)
  /\ (forall acc s r, PyJson.strict_elements fuel acc s = Ok r ->
                      PyJson.elements fuel acc s = Ok r).
Proof.
  induction fuel as [| fuel (IHv & IHm & IHe)].
  - repeat split; intros; discriminate.
  - split; [| split].
    + intros s r. cbn [PyJson.strict_value PyJson.value].
      destruct s as [| c s']; [apply strict_atom_accepted |].
      destruct c as [[] [] [] [] [] [] [] []];
        try apply strict_atom_accepted; try (intros H; exact H).
      * destruct (PyJson.skip_ws s') as [| c2 s2]; [apply IHm |].
        destruct c2 as [[] [] [] [] [] [] [] []]; try apply IHm; trivial.
      * destruct (PyJson.skip_ws s') as [| c2 s2]; [apply IHe |].
        destruct c2 as [[] [] [] [] [] [] [] []]; try apply IHe; trivial.
    + intros acc s r. cbn [PyJson.strict_members PyJson.members].
      destruct s as [| c s']; [trivial |].
      destruct c as [[] [] [] [] [] [] [] []]; trivial.
      destruct (PyJson.scan_string EmptyString s') as [kr | e |];
        cbn [res_bind]; trivial.
      destruct (PyJson.skip_ws (snd kr)) as [| c2 s2]; [trivial |].
      destruct c2 as [[] [] [] [] [] [] [] []]; trivial.
      destruct (PyJson.strict_value fuel (PyJson.skip_ws s2)) as [vr | e |] eqn:Hv;
        cbn [res_bind]; try discriminate.
      rewrite (IHv _ _ Hv). cbn [res_bind].
      destruct (PyJson.skip_ws (snd vr)) as [| c3 s3]; [trivial |].
      destruct c3 as [[] [] [] [] [] [] [] []]; trivial; apply IHm.
    + intros acc s r. cbn [PyJson.strict_elements PyJson.elements].
      destruct (PyJson.strict_value fuel s) as [vr | e |] eqn:Hv;
        cbn [res_bind]; try discriminate.
      rewrite (IHv _ _ Hv). cbn [res_bind].
      destruct (PyJson.skip_ws (snd vr)) as [| c3 s3]; [trivial |].
      destruct c3 as [[] [] [] [] [] [] [] []]; trivial; apply IHe.
Qed.

Lemma strict_loads_accepted s v :
  PyJson.strict_loads s = Ok v -> PyJson.loads s = Ok v.
Proof.
  unfold PyJson.strict_loads, PyJson.loads.
  destruct (PyJson.strict_value (2 + String.length s) (PyJson.skip_ws s))
    as [vr | e |] eqn:Hv; cbn [res_bind]; try discriminate.
  rewrite (proj1 (strict_accepted _) _ _ Hv). trivial.
Qed.




(** ** check_pg_state *)

Lemma check_pg_state_loop_find pgid entries pgs :
  Forall2 pg_record entries pgs ->
  check_pg_state_loop pgid entries =
  Ok (match pg_find pgid pgs with
      | Some st => st
      | None => PList []
      end).
Proof.
  induction 1 as [| v [id st] entries pgs Hrec _ IH]; [reflexivity |].
  destruct Hrec as (d & -> & Hid & Hst). cbn in Hid, Hst.
  cbn [check_pg_state_loop pg_find getitem res_bind].
  rewrite Hid. cbn [res_bind eq_str].
  destruct (String.eqb id pgid).
  - rewrite Hst. reflexivity.
  - exact IH.
Qed.

Lemma pg_find_absent pgid pgs :
  ~ In pgid (map fst pgs) -> pg_find pgid pgs = None.
Proof.
  induction pgs as [| [id st] pgs IH]; cbn; [reflexivity |].
  intros Hnot. destruct (String.eqb_spec id pgid) as [-> | _].
  - exfalso. apply Hnot. now left.
  - apply IH. intros Hin. apply Hnot. now right.
Qed.

(** C9: when [ceph pg dump pgs] is decoded to a document whose
    ["pg_stats"] is a list of PG records, [check_pg_state] returns the
    empty list for a PG id that no record carries, raising nothing, and
    for a PG id that is listed it returns the state of that PG's record. *)
Theorem check_pg_state_spec (E : env) pgid w out doc entries pgs :
  result (cluster E (trace w) (fetch_event "ceph pg dump pgs" default_timeout false))
  = inr out ->
  decodes E out doc ->
  getitem doc "pg_stats" = Ok (PList entries) ->
  Forall2 pg_record entries pgs ->
  (~ In pgid (map fst pgs) ->
   fst (check_pg_state E pgid w) = Ok (PList []))
  /\ (forall st, pg_find pgid pgs = Some st ->
      fst (check_pg_state E pgid w) = Ok st).
Proof.
  intros Hout [Hsp Hdoc] Hstats Hrecs.
  assert (Hrun : fst (check_pg_state E pgid w) =
                 Ok (match pg_find pgid pgs with
                     | Some st => st
                     | None => PList []
                     end)).
  { unfold check_pg_state, bind, lift.
    rewrite (run_ceph_command_decode E _ _ _ w out Hout Hsp), Hdoc.
    cbn [fst]. rewrite Hstats. cbn [res_bind iter].
    apply check_pg_state_loop_find, Hrecs. }
  split.
  - intros Habs. rewrite Hrun, (pg_find_absent _ _ Habs). reflexivity.
  - intros st Hfind. rewrite Hrun, Hfind. reflexivity.
Qed.

Lemma check_pg_state_spec_witness :
  fst (check_pg_state pg_dump_env "7.1" w0) = Ok (PList [])
  /\ fst (check_pg_state pg_dump_env "11.2f" w0)
     = Ok (PStr "active+remapped+backfilling").
Proof.
  assert (Hrecs : Forall2 pg_record
                    [decoded ("{" ++ jfield "pgid" (jstr "1.0") ++ ", "
                              ++ jfield "state" (jstr "active+clean") ++ "}");
                     decoded ("{" ++ jfield "pgid" (jstr "11.2f") ++ ", "
                              ++ jfield "state" (jstr "active+remapped+backfilling")
                              ++ "}")]
                    [("1.0", PStr "active+clean");
                     ("11.2f", PStr "active+remapped+backfilling")]).
  { repeat constructor; eexists; repeat split; vm_compute; reflexivity. }
  split.
  - eapply (proj1 (check_pg_state_spec pg_dump_env "7.1" w0 _ _ _ _
                     eq_refl (conj eq_refl eq_refl) eq_refl Hrecs)).
    vm_compute. intros [H | [H | []]]; discriminate H.
  - eapply (proj2 (check_pg_state_spec pg_dump_env "11.2f" w0 _ _ _ _
                     eq_refl (conj eq_refl eq_refl) eq_refl Hrecs)).
    reflexivity.
Defined.

(** The two cases of C9 on the scripted PG dump *)
Example check_pg_state_listed :
  fst (check_pg_state pg_dump_env "11.2f" w0)
  = Ok (PStr "active+remapped+backfilling").
Proof. vm_compute. reflexivity. Qed.

Example check_pg_state_unlisted :
  fst (check_pg_state pg_dump_env "7.1" w0) = Ok (PList []).
Proof. vm_compute. reflexivity. Qed.

(** ** check_fragmentation_score *)

Lemma SFcompare_antisym x y :
  SFcompare y x = option_map CompOpp (SFcompare x y).
Proof.
  destruct x as [sx | sx | | sx mx ex], y as [sy | sy | | sy my ey];
    cbn; try reflexivity;
    try (destruct sx; reflexivity);
    try (destruct sy; reflexivity);
    try (destruct sx, sy; reflexivity).
  destruct sx, sy; cbn; try reflexivity;
    rewrite (Z.compare_antisym ex ey);
    destruct (ex ?= ey); cbn; try reflexivity;
    pose proof (Pos.compare_cont_antisym mx my Eq) as H; cbn in H;
    rewrite <- H; try rewrite CompOpp_involutive; reflexivity.
Qed.

Lemma SFleb_not_SFltb x y : SFleb x y = true -> SFltb y x = false.
Proof.
  unfold SFleb, SFltb. rewrite (SFcompare_antisym x y).
  destruct (SFcompare x y) as [[| |] |]; cbn; congruence.
Qed.

(** C10: for a fragmentation score [s] (the float made of the rating the
    OSD reports), [check_fragmentation_score] returns [False] exactly when
    [0.9 < s < 1.0] and [True] otherwise; a score of [1.0] or more
    passes. *)
Theorem check_fragmentation_score_spec (E : env) osd_id w v w' s :
  get_fragmentation_score E osd_id w = (Ok v, w') ->
  py_float E v = Ok s ->
  (fst (check_fragmentation_score E osd_id w) = Ok (PBool false)
   <-> lt lit_0_9 s = true /\ lt s lit_1_0 = true)
  /\ (fst (check_fragmentation_score E osd_id w) = Ok (PBool false)
      \/ fst (check_fragmentation_score E osd_id w) = Ok (PBool true))
  /\ (SFleb lit_1_0 s = true ->
      fst (check_fragmentation_score E osd_id w) = Ok (PBool true)).
Proof.
  intros Hget Hfloat.
  assert (Hrun : fst (check_fragmentation_score E osd_id w)
                 = Ok (PBool (negb (lt lit_0_9 s && lt s lit_1_0)))).
  { unfold check_fragmentation_score, bind, lift, ret.
    rewrite Hget, Hfloat.
    destruct (lt lit_0_9 s && lt s lit_1_0); reflexivity. }
  rewrite Hrun. split; [split | split].
  - intros Heq. apply andb_true_iff.
    destruct (lt lit_0_9 s && lt s lit_1_0); [reflexivity | discriminate].
  - intros Heq. apply andb_true_iff in Heq. rewrite Heq. reflexivity.
  - destruct (lt lit_0_9 s && lt s lit_1_0); [now left | now right].
  - intros Hge. unfold lt at 2. rewrite (SFleb_not_SFltb _ _ Hge).
    rewrite andb_false_r. reflexivity.
Qed.

Lemma check_fragmentation_score_spec_witness :
  fst (check_fragmentation_score fragmented_env (PInt 3) w0) = Ok (PBool true).
Proof.
  refine (proj2 (proj2 (check_fragmentation_score_spec fragmented_env (PInt 3) w0
                          (PFloat (float_of_decimal false 125 (-2)))
                          _ (float_of_decimal false 125 (-2)) _ _)) _).
  - vm_compute. reflexivity.
  - vm_compute. reflexivity.
  - vm_compute. reflexivity.
Defined.

(** A score above the range the method reports as dangerous passes. *)
Example check_fragmentation_score_above_one :
  fst (check_fragmentation_score fragmented_env (PInt 3) w0) = Ok (PBool true).
Proof. vm_compute. reflexivity. Qed.

(** ** detete_pool *)

Lemma transport_ok (E : env) ev w out :
  result (cluster E (trace w) ev) = inr out ->
  transport E ev w = (Ok out, advance E ev w).
Proof. intros H. unfold transport, advance. rewrite H. reflexivity. Qed.

Lemma transport_raise (E : env) ev w e :
  result (cluster E (trace w) ev) = inl e ->
  transport E ev w = (Raise e, advance E ev w).
Proof. intros H. unfold transport, advance. rewrite H. reflexivity. Qed.

Lemma trace_advance (E : env) ev w : trace (advance E ev w) = ev :: trace w.
Proof. reflexivity. Qed.

Lemma bind_ok {A B} (m : M A) (k : A -> M B) w a w' :
  m w = (Ok a, w') -> bind m k w = k a w'.
Proof. intros H. unfold bind. rewrite H. reflexivity. Qed.

Lemma bind_raise {A B} (m : M A) (k : A -> M B) w e w' :
  m w = (Raise e, w') -> bind m k w = (Raise e, w').
Proof. intros H. unfold bind. rewrite H. reflexivity. Qed.

Lemma lift_ok {A} (r : res A) a w : r = Ok a -> lift r w = (Ok a, w).
Proof. intros ->. reflexivity. Qed.

Lemma lift_raise {A} (r : res A) e w : r = Raise e -> lift r w = (Raise e, w).
Proof. intros ->. reflexivity. Qed.

Lemma run_ceph_command_ok (E : env) cmd timeout client_exec w out doc :
  result (cluster E (trace w) (fetch_event cmd timeout client_exec)) = inr out ->
  decodes E out doc ->
  run_ceph_command E cmd timeout client_exec w =
  (Ok doc, advance E (fetch_event cmd timeout client_exec) w).
Proof.
  intros Hout [Hsp Hdoc].
  rewrite (run_ceph_command_decode E _ _ _ w out Hout Hsp), Hdoc. reflexivity.
Qed.

Lemma detete_pool_absent_once (E : env) pool w :
  answers E (fetch_event "ceph config dump" default_timeout true) config_listing ->
  (forall h, exists out, result (cluster E h config_set_event) = inr out) ->
  answers E (fetch_event "ceph df" default_timeout true) (pool_absent pool) ->
  exists w' evs,
    detete_pool E pool w = (Ok (PBool true), w')
    /\ trace w' = (evs ++ trace w)%list
    /\ issued (delete_cmd pool) evs = false.
Proof.
  intros Hcfg Hset Hdf.
  unfold detete_pool.
  destruct (Hcfg (trace w)) as (out1 & doc1 & Hout1 & Hdec1 & names1 & Hnames1).
  rewrite (bind_ok _ _ w _ _ (run_ceph_command_ok E _ _ _ w _ _ Hout1 Hdec1)).
  set (w1 := advance E (fetch_event "ceph config dump" default_timeout true) w).
  rewrite (bind_ok _ _ w1 _ _ (lift_ok _ _ w1 Hnames1)).
  assert (Hrest : forall w2 evs,
             trace w2 = (evs ++ trace w)%list ->
             issued (delete_cmd pool) evs = false ->
             exists w' evs',
               (existing_pools <- run_ceph_command E "ceph df" default_timeout true ;;
                pools <- lift (let! p := getitem existing_pools "pools" in
                               column "name" p) ;;
                if negb (str_in_list pool pools)
                then ret (PBool true)
                else
                  _ <- exec_command E (delete_cmd pool) true None ;;
                  existing_pools <- run_ceph_command E "ceph df" default_timeout true ;;
                  pools <- lift (let! p := getitem existing_pools "pools" in
                                 column "name" p) ;;
                  if negb (str_in_list pool pools)
                  then ret (PBool true)
                  else ret (PBool false)) w2
               = (Ok (PBool true), w')
               /\ trace w' = (evs' ++ trace w)%list
               /\ issued (delete_cmd pool) evs' = false).
  { intros w2 evs Htr Hiss.
    destruct (Hdf (trace w2))
      as (out3 & doc3 & Hout3 & Hdec3 & p & names3 & Hp & Hnames3 & Habs).
    rewrite (bind_ok _ _ w2 _ _ (run_ceph_command_ok E _ _ _ w2 _ _ Hout3 Hdec3)).
    set (w3 := advance E (fetch_event "ceph df" default_timeout true) w2).
    assert (Hpools : (let! p := getitem doc3 "pools" in column "name" p)
                     = Ok names3).
    { rewrite Hp. exact Hnames3. }
    rewrite (bind_ok _ _ w3 _ _ (lift_ok _ _ w3 Hpools)).
    rewrite Habs. cbn [negb].
    exists w3, (fetch_event "ceph df" default_timeout true :: evs).
    split; [reflexivity |]. split.
    - subst w3. rewrite trace_advance, Htr. reflexivity.
    - cbn [issued existsb]. fold (issued (delete_cmd pool) evs).
      rewrite Hiss. reflexivity. }
  destruct (negb (str_in_list "mon_allow_pool_delete" names1)).
  - destruct (Hset (trace w1)) as (out2 & Hout2).
    unfold exec_command at 1.
    fold config_set_event.
    rewrite (bind_ok _ _ w1 tt (advance E config_set_event w1)).
    + apply (Hrest _ [config_set_event;
                      fetch_event "ceph config dump" default_timeout true]);
        reflexivity.
    + rewrite (bind_ok _ _ w1 _ _ (transport_ok E _ w1 _ Hout2)). reflexivity.
  - rewrite (bind_ok _ _ w1 tt w1) by reflexivity.
    apply (Hrest _ [fetch_event "ceph config dump" default_timeout true]);
      reflexivity.
Qed.

(** C7: when the cluster answers the two listings the method reads and
    [ceph df] does not list [pool], [detete_pool] returns [True], it
    returns [True] again when invoked once more, and neither invocation
    sends the pool-delete command. *)
Theorem detete_pool_absent_idempotent (E : env) pool w :
  answers E (fetch_event "ceph config dump" default_timeout true) config_listing ->
  (forall h, exists out, result (cluster E h config_set_event) = inr out) ->
  answers E (fetch_event "ceph df" default_timeout true) (pool_absent pool) ->
  exists w1 w2 evs,
    detete_pool E pool w = (Ok (PBool true), w1)
    /\ detete_pool E pool w1 = (Ok (PBool true), w2)
    /\ trace w2 = (evs ++ trace w)%list
    /\ issued (delete_cmd pool) evs = false.
Proof.
  intros Hcfg Hset Hdf.
  destruct (detete_pool_absent_once E pool w Hcfg Hset Hdf)
    as (w1 & evs1 & Hrun1 & Htr1 & Hiss1).
  destruct (detete_pool_absent_once E pool w1 Hcfg Hset Hdf)
    as (w2 & evs2 & Hrun2 & Htr2 & Hiss2).
  exists w1, w2, (evs2 ++ evs1)%list.
  repeat split; try assumption.
  - rewrite Htr2, Htr1, app_assoc. reflexivity.
  - unfold issued in *. rewrite existsb_app, Hiss1, Hiss2. reflexivity.
Qed.

Lemma scripted_cluster_constant (s : script) ev last h :
  script_find ev s = Some ([], last) ->
  scripted_cluster s h ev = mkReply last 0.
Proof.
  intros Hfind. unfold scripted_cluster. rewrite Hfind.
  destruct (count_event ev h); reflexivity.
Qed.

Lemma detete_pool_absent_idempotent_witness :
  exists w1 w2 evs,
    detete_pool pools_env "scratch" w0 = (Ok (PBool true), w1)
    /\ detete_pool pools_env "scratch" w1 = (Ok (PBool true), w2)
    /\ trace w2 = (evs ++ trace w0)%list
    /\ issued (delete_cmd "scratch") evs = false.
Proof.
  apply (detete_pool_absent_idempotent pools_env "scratch" w0).
  - intros h. eexists. eexists. split; [| split].
    + cbn [cluster pools_env scripted_env].
      erewrite (scripted_cluster_constant _ _ _ h) by (vm_compute; reflexivity).
      reflexivity.
    + split; vm_compute; reflexivity.
    + eexists. vm_compute. reflexivity.
  - intros h. eexists. reflexivity.
  - intros h. eexists. eexists. split; [| split].
    + cbn [cluster pools_env scripted_env].
      erewrite (scripted_cluster_constant _ _ _ h) by (vm_compute; reflexivity).
      reflexivity.
    + split; vm_compute; reflexivity.
    + eexists. eexists. repeat split; vm_compute; reflexivity.
Defined.

(** The absent pool on the scripted cluster: [True], and the trace holds
    the three commands of the method, none of them the delete. *)
Example detete_pool_absent_run :
  detete_pool pools_env "scratch" w0
  = (Ok (PBool true),
     mkWorld 0 [ExecCommand "ceph df -f json" true (Some 300);
                ExecCommand "ceph config set mon mon_allow_pool_delete true"
                  true None;
                ExecCommand "ceph config dump -f json" true (Some 300)]).
Proof. vm_compute. reflexivity. Qed.

(** ** The polling loops *)

Lemma advance_prints (E : env) ev w out :
  prints E (trace w) ev out ->
  advance E ev w = mkWorld (clock w) (ev :: trace w)
  /\ result (cluster E (trace w) ev) = inr out.
Proof.
  unfold prints, advance. intros ->. cbn. rewrite Z.add_0_r. now split.
Qed.

Lemma reweight_flag_bound entries b fl :
  reweight_flag entries None = Ok (Some b) ->
  reweight_flag entries fl = Ok (Some b).
Proof.
  destruct entries as [| entry rest]; cbn; [discriminate |].
  destruct (getitem entry "state") as [st | |]; cbn; try discriminate.
  destruct (split_of st "+") as [parts | |]; cbn; try discriminate.
  trivial.
Qed.

Lemma reweight_done_entries report r :
  reweight_done report = Ok r ->
  exists entries,
    (let! l := getitem report "num_pg_by_state" in iter l) = Ok entries
    /\ reweight_flag entries None = Ok r.
Proof.
  unfold reweight_done.
  destruct (getitem report "num_pg_by_state") as [l | |]; cbn; try discriminate.
  destruct (iter l) as [entries | |]; cbn; try discriminate.
  intros H. now exists entries.
Qed.

Lemma clock_advance (E : env) ev w : clock w <= clock (advance E ev w).
Proof. cbn. lia. Qed.

Lemma after_round_prints (E : env) ev secs w out :
  prints E (trace w) ev out ->
  after_round E ev secs w =
  mkWorld (clock w + seconds secs) (Sleep secs :: ev :: trace w).
Proof.
  intros Hprint. unfold after_round.
  destruct (advance_prints E ev w out Hprint) as [-> _]. reflexivity.
Qed.

(** One round of the loop of [verify_reweight] on a report that leaves
    [flag] false: the loop sleeps a minute and goes on. *)
Lemma verify_reweight_poll_round (E : env) fuel end_time locals w out doc fl :
  clock w < end_time ->
  result (cluster E (trace w) report_event) = inr out ->
  decodes E out doc ->
  (let! l := getitem doc "num_pg_by_state" in iter l) = Ok fl ->
  reweight_flag fl (flag locals) = Ok (Some false) ->
  logs_health doc ->
  verify_reweight_poll E (S fuel) end_time locals w =
  verify_reweight_poll E fuel end_time (mkLocals (Some false) (Some doc))
    (after_round E report_event 60 w).
Proof.
  intros Hlt Hres Hdec Hent Hflag (h & c & ks & Hh & Hc & Hks).
  cbn [verify_reweight_poll].
  rewrite (bind_ok _ _ w (clock w) w) by reflexivity.
  replace (end_time >? clock w) with true by (symmetry; apply Z.gtb_lt; lia).
  rewrite (bind_ok _ _ w _ _ (run_ceph_command_ok E _ _ _ w _ _ Hres Hdec)).
  fold report_event.
  set (w1 := advance E report_event w).
  rewrite (bind_ok _ _ w1 _ _ (lift_ok _ _ w1 Hent)).
  rewrite (bind_ok _ _ w1 _ _ (lift_ok _ _ w1 Hflag)).
  rewrite (bind_ok _ _ w1 false w1) by reflexivity.
  assert (Hlog : (let! h := getitem doc "health" in
                  let! c := getitem h "checks" in keys c) = Ok ks).
  { rewrite Hh. cbn [res_bind]. rewrite Hc. exact Hks. }
  rewrite (bind_ok _ _ w1 _ _ (lift_ok _ _ w1 Hlog)).
  rewrite (bind_ok _ _ w1 tt (after_round E report_event 60 w))
    by reflexivity.
  reflexivity.
Qed.

Lemma verify_reweight_poll_pending (E : env) fuel end_time locals w out doc :
  clock w < end_time ->
  prints E (trace w) report_event out ->
  decodes E out doc ->
  reweight_pending doc ->
  verify_reweight_poll E (S fuel) end_time locals w =
  verify_reweight_poll E fuel end_time (mkLocals (Some false) (Some doc))
    (mkWorld (clock w + seconds 60) (Sleep 60 :: report_event :: trace w)).
Proof.
  intros Hlt Hprint Hdec [Hdone Hlog].
  destruct (advance_prints E _ w out Hprint) as [_ Hres].
  destruct (reweight_done_entries _ _ Hdone) as (entries & Hent & Hflag).
  rewrite (verify_reweight_poll_round E fuel end_time locals w out doc entries
             Hlt Hres Hdec Hent
             (reweight_flag_bound _ _ (flag locals) Hflag) Hlog).
  rewrite (after_round_prints E _ 60 w out Hprint). reflexivity.
Qed.

Lemma verify_reweight_poll_done (E : env) fuel end_time locals w out doc :
  clock w < end_time ->
  prints E (trace w) report_event out ->
  decodes E out doc ->
  reweight_done doc = Ok (Some true) ->
  verify_reweight_poll E (S fuel) end_time locals w =
  (Ok (mkLocals (Some true) (Some doc)),
   mkWorld (clock w) (report_event :: trace w)).
Proof.
  intros Hlt Hprint Hdec Hdone.
  destruct (advance_prints E _ w out Hprint) as [Hadv Hres].
  destruct (reweight_done_entries _ _ Hdone) as (entries & Hent & Hflag).
  cbn [verify_reweight_poll].
  rewrite (bind_ok _ _ w (clock w) w) by reflexivity.
  replace (end_time >? clock w) with true by (symmetry; apply Z.gtb_lt; lia).
  rewrite (bind_ok _ _ w _ _ (run_ceph_command_ok E _ _ _ w _ _ Hres Hdec)).
  fold report_event. rewrite Hadv.
  set (w1 := mkWorld (clock w) (report_event :: trace w)).
  rewrite (bind_ok _ _ w1 _ _ (lift_ok _ _ w1 Hent)).
  rewrite (bind_ok _ _ w1 _ _
             (lift_ok _ _ w1 (reweight_flag_bound _ _ (flag locals) Hflag))).
  rewrite (bind_ok _ _ w1 true w1) by reflexivity.
  reflexivity.
Qed.

Lemma scripted_tail (E : env) ev n out outs :
  scripted E ev n (out :: outs) -> scripted E ev (S n) outs.
Proof.
  intros Hs h i o Hcount Hnth.
  apply (Hs h (S i) o); [rewrite Hcount; lia | exact Hnth].
Qed.

Lemma scripted_head (E : env) ev n out outs h :
  scripted E ev n (out :: outs) ->
  count_event ev h = n ->
  prints E h ev out.
Proof.
  intros Hs Hcount. apply (Hs h O out); [rewrite Hcount; lia | reflexivity].
Qed.

Lemma verify_reweight_poll_succeeds (E : env) :
  forall k outs docs n fuel end_time locals w Sk,
    scripted E report_event n outs ->
    Forall2 (decodes E) outs docs ->
    count_event report_event (trace w) = n ->
    nth_error docs k = Some Sk ->
    reweight_done Sk = Ok (Some true) ->
    (forall i S, (i < k)%nat -> nth_error docs i = Some S -> reweight_pending S) ->
    clock w + seconds (60 * Z.of_nat k) < end_time ->
    (k < fuel)%nat ->
    verify_reweight_poll E fuel end_time locals w =
    (Ok (mkLocals (Some true) (Some Sk)),
     mkWorld (clock w + seconds (60 * Z.of_nat k))
       (poll_trace report_event 60 k ++ trace w)).
Proof.
  induction k as [| k IH];
    intros outs docs n fuel end_time locals w Sk
      Hscript Hdec Hcount Hnth Hdone Hpend Hdeadline Hfuel;
    destruct fuel as [| fuel]; try lia;
    destruct Hdec as [| out doc outs docs Hd Hdec]; try discriminate.
  - cbn in Hnth. injection Hnth as ->.
    unfold seconds in Hdeadline.
    rewrite (verify_reweight_poll_done E fuel end_time locals w out Sk);
      try assumption; try lia.
    + cbn [poll_trace app]. unfold seconds. rewrite Z.add_0_r. reflexivity.
    + exact (scripted_head E _ n out outs _ Hscript Hcount).
  - cbn in Hnth.
    assert (Hp : reweight_pending doc) by (apply (Hpend O); [lia | reflexivity]).
    unfold seconds in Hdeadline.
    rewrite (verify_reweight_poll_pending E fuel end_time locals w out doc);
      try assumption; try lia.
    + rewrite (IH outs docs (S n) fuel end_time _ _ Sk);
        try assumption; try lia.
      * cbn [clock trace poll_trace]. rewrite <- app_assoc. cbn [app].
        f_equal. f_equal. unfold seconds. lia.
      * exact (scripted_tail E _ n out outs Hscript).
      * cbn [trace]. rewrite <- Hcount. reflexivity.
      * intros i S0 Hi. apply (Hpend (S i)). lia.
      * cbn [clock]. unfold seconds. lia.
    + exact (scripted_head E _ n out outs _ Hscript Hcount).
Qed.

Lemma sleeps_app h1 h2 : sleeps (h1 ++ h2) = (sleeps h1 + sleeps h2)%nat.
Proof. unfold sleeps. rewrite filter_app, length_app. reflexivity. Qed.

Lemma sleeps_poll_trace secs k :
  sleeps (poll_trace report_event secs k) = k.
Proof.
  induction k as [| k IH]; [reflexivity |].
  cbn [poll_trace]. rewrite sleeps_app, IH. cbn. lia.
Qed.

Lemma count_poll_trace secs k :
  count_event report_event (poll_trace report_event secs k) = S k.
Proof.
  induction k as [| k IH]; [reflexivity |].
  cbn [poll_trace].
  assert (Happ : forall h1 h2,
             count_event report_event (h1 ++ h2)
             = (count_event report_event h1 + count_event report_event h2)%nat).
  { induction h1 as [| e h1 IH1]; intros h2; [reflexivity |].
    cbn [app count_event]. rewrite IH1. lia. }
  rewrite Happ, IH. cbn. lia.
Qed.

Lemma opt_eqb_refl t : opt_eqb t t = true.
Proof. destruct t as [z |]; cbn; [apply Z.eqb_refl | reflexivity]. Qed.

Lemma event_eqb_refl ev : event_eqb ev ev = true.
Proof.
  destruct ev as [c t | c s t | n]; cbn.
  - rewrite String.eqb_refl, opt_eqb_refl. reflexivity.
  - rewrite String.eqb_refl, opt_eqb_refl. destruct s; reflexivity.
  - apply Z.eqb_refl.
Qed.

Lemma check_host_status_maintenance (E : env) hostname w out doc b :
  prints E (trace w) (host_ls_event hostname) out ->
  json_loads E out = Ok doc ->
  host_verdict doc = Ok b ->
  check_host_status E hostname (Some "maintenance") w =
  (Ok b, mkWorld (clock w) (host_ls_event hostname :: trace w)).
Proof.
  intros Hprint Hdoc Hverdict.
  destruct (advance_prints E _ w out Hprint) as [Hadv Hres].
  unfold check_host_status, exec_command.
  fold (host_ls_event hostname).
  rewrite (bind_ok _ _ w _ _ (transport_ok E _ w out Hres)), Hadv.
  set (w1 := mkWorld (clock w) (host_ls_event hostname :: trace w)).
  unfold host_verdict in Hverdict.
  destruct (getindex doc 0) as [h | |] eqn:Hh; cbn [res_bind] in Hverdict;
    try discriminate.
  destruct (getitem h "status") as [st | |] eqn:Hst; cbn [res_bind] in Hverdict;
    try discriminate.
  destruct (lower_of st) as [hs | |] eqn:Hhs; cbn [res_bind] in Hverdict;
    try discriminate.
  assert (Hstatus : (let! doc := json_loads E out in
                     let! h := getindex doc 0 in
                     let! st := getitem h "status" in
                     lower_of st) = Ok hs).
  { rewrite Hdoc. cbn [res_bind]. rewrite Hh. cbn [res_bind].
    rewrite Hst. exact Hhs. }
  rewrite (bind_ok _ _ w1 _ _ (lift_ok _ _ w1 Hstatus)).
  change (lower "maintenance") with "maintenance".
  change (negb (String.eqb "maintenance" EmptyString)) with true.
  cbn [andb].
  injection Hverdict as <-.
  destruct (contains "maintenance" hs); [reflexivity |].
  destruct (contains "offline" hs); reflexivity.
Qed.

Lemma count_host_ls_round hostname h :
  count_event (host_ls_event hostname)
    (Sleep 20 :: enter_event hostname :: h)
  = count_event (host_ls_event hostname) h.
Proof. reflexivity. Qed.

Lemma host_maintenance_enter_loop_succeeds (E : env) hostname retry :
  (forall h, exists out, prints E h (enter_event hostname) out) ->
  forall k outs docs n fuel iteration w,
    scripted E (host_ls_event hostname) n outs ->
    Forall2 (fun out doc => json_loads E out = Ok doc) outs docs ->
    count_event (host_ls_event hostname) (trace w) = n ->
    (exists Sk, nth_error docs k = Some Sk /\ host_verdict Sk = Ok true) ->
    (forall i S, (i < k)%nat -> nth_error docs i = Some S ->
                 host_verdict S = Ok false) ->
    iteration + Z.of_nat k < retry ->
    (k < fuel)%nat ->
    host_maintenance_enter_loop E fuel hostname retry iteration w =
    (Ok (PBool true),
     mkWorld (clock w + seconds (35 * Z.of_nat k + 20))
       (enter_trace hostname k ++ trace w)).
Proof.
  intros Henter.
  induction k as [| k IH];
    intros outs docs n fuel iteration w
      Hscript Hdec Hcount (Sk & Hnth & Htrue) Hfalse Hretry Hfuel;
    destruct fuel as [| fuel]; try lia;
    destruct Hdec as [| out doc outs docs Hd Hdec]; try discriminate;
    destruct (Henter (trace w)) as (eout & Heprint);
    destruct (advance_prints E _ w eout Heprint) as [Hadv Hres];
    cbn [host_maintenance_enter_loop];
    (replace (iteration <=? retry) with true by (symmetry; apply Z.leb_le; lia));
    unfold exec_command at 1; fold (enter_event hostname);
    rewrite (bind_ok _ _ w _ _ (transport_ok E _ w eout Hres)), Hadv;
    set (w1 := mkWorld (clock w) (enter_event hostname :: trace w));
    set (w2 := mkWorld (clock w + seconds 20)
                 (Sleep 20 :: enter_event hostname :: trace w));
    rewrite (bind_ok _ _ w1 tt w2) by reflexivity;
    assert (Hprint : prints E (trace w2) (host_ls_event hostname) out)
      by (apply (scripted_head E _ n out outs _ Hscript);
          subst w2; cbn [trace]; rewrite count_host_ls_round; exact Hcount).
  - cbn in Hnth. injection Hnth as ->.
    rewrite (bind_ok _ _ w2 _ _
               (check_host_status_maintenance E hostname w2 out Sk true
                  Hprint Hd Htrue)).
    cbn [negb]. unfold ret. subst w2. cbn [clock trace enter_trace app].
    reflexivity.
  - cbn in Hnth.
    assert (Hf : host_verdict doc = Ok false)
      by (apply (Hfalse O); [lia | reflexivity]).
    rewrite (bind_ok _ _ w2 _ _
               (check_host_status_maintenance E hostname w2 out doc false
                  Hprint Hd Hf)).
    cbn [negb].
    set (w3 := mkWorld (clock w2) (host_ls_event hostname :: trace w2)).
    set (w4 := mkWorld (clock w3 + seconds 15) (Sleep 15 :: trace w3)).
    rewrite (bind_ok _ _ w3 tt w4) by reflexivity.
    replace (iteration + 1 =? retry) with false
      by (symmetry; apply Z.eqb_neq; lia).
    rewrite (IH outs docs (S n) fuel (iteration + 1) w4); try lia.
    + subst w4 w3 w2. cbn [clock trace enter_trace].
      rewrite <- app_assoc. cbn [app].
      f_equal. f_equal. unfold seconds. lia.
    + exact (scripted_tail E _ n out outs Hscript).
    + exact Hdec.
    + subst w4 w3 w2. cbn [trace].
      cbn [count_event]. rewrite event_eqb_refl, Hcount. reflexivity.
    + exists Sk. split; assumption.
    + intros i S0 Hi. apply (Hfalse (S i)). lia.
Qed.

Lemma sleeps_enter_trace hostname k :
  sleeps (enter_trace hostname k) = (2 * k + 1)%nat.
Proof.
  induction k as [| k IH]; [reflexivity |].
  cbn [enter_trace]. rewrite sleeps_app, IH. cbn. lia.
Qed.

Lemma scripted_env_scripted (s : script) ev outs last :
  script_find ev s = Some (map inr outs, last) ->
  scripted (scripted_env s) ev 0 outs.
Proof.
  intros Hfind h i out Hcount Hnth.
  unfold prints. cbn [cluster scripted_env]. unfold scripted_cluster.
  rewrite Hfind, Hcount. cbn [Nat.add]. f_equal.
  apply nth_error_nth. rewrite nth_error_map, Hnth. reflexivity.
Qed.

(** C4 fails on the code: [host_maintenance_enter] sleeps 20 seconds before
    its first check.  Here the very first fetched state satisfies the
    predicate (k = 0), and the method has slept once when it returns. *)
Lemma host_maintenance_enter_sleeps_before_first_check :
  (let! doc := json_loads maintenance_env (host_json "Maintenance") in
   host_verdict doc) = Ok true
  /\ host_maintenance_enter maintenance_env 11 "node1" 10 w0
     = (Ok (PBool true),
        mkWorld (seconds 20)
          [host_ls_event "node1"; Sleep 20; enter_event "node1"])
  /\ sleeps [host_ls_event "node1"; Sleep 20; enter_event "node1"] = 1%nat.
Proof. repeat split; vm_compute; reflexivity. Qed.

Lemma poll_trace_ends (ev : event) secs k :
  exists mid, (poll_trace ev secs k ++ [])%list = (mid ++ [ev])%list
              /\ hd_error (poll_trace ev secs k) = Some ev.
Proof.
  induction k as [| k (mid & Hmid & Hhd)].
  - exists []. split; reflexivity.
  - exists (poll_trace ev secs k ++ [Sleep secs])%list. split.
    + cbn [poll_trace]. rewrite app_nil_r, <- app_assoc. reflexivity.
    + cbn [poll_trace]. destruct (poll_trace ev secs k); [discriminate |].
      exact Hhd.
Qed.

Lemma enter_trace_starts hostname k :
  exists later,
    enter_trace hostname k =
    (later ++ [host_ls_event hostname; Sleep 20; enter_event hostname])%list.
Proof.
  destruct k as [| k].
  - exists []. reflexivity.
  - exists (enter_trace hostname k ++ [Sleep 15])%list.
    cbn [enter_trace]. rewrite <- app_assoc. reflexivity.
Qed.

(** C4 as amended.  On a cluster whose commands return at once, with a
    scripted fetch sequence in which the predicate holds of the [k]-th
    state and of none before it, each loop under its own hypotheses:
    - the loop of [verify_reweight], when [k] is below 20 (the deadline of
      1200 seconds over the interval of 60), stops at the [k]-th fetch
      with its flag true and that state as its last report, after exactly
      [k] sleeps, each between two fetches: none before the first check
      and none after the successful one;
    - [host_maintenance_enter], when [k] is below [retry], returns [True]
      at the [k]-th check after [2k + 1] sleeps: 20 seconds before every
      check, the first included, and 15 seconds after every failed one. *)
Theorem poll_succeeds_at_first_true_state
  (E : env) (k : nat) (fuel : nat) (w : world) :
  (forall (outs : list string) (docs : list pyval) (Sk : pyval),
      scripted E report_event (count_event report_event (trace w)) outs ->
      Forall2 (decodes E) outs docs ->
      nth_error docs k = Some Sk ->
      reweight_done Sk = Ok (Some true) ->
      (forall i S, (i < k)%nat -> nth_error docs i = Some S ->
                   reweight_pending S) ->
      (k < 20)%nat ->
      (k < fuel)%nat ->
      verify_reweight_poll E fuel (clock w + seconds 1200)
        (mkLocals None None) w
      = (Ok (mkLocals (Some true) (Some Sk)),
         mkWorld (clock w + seconds (60 * Z.of_nat k))
           (poll_trace report_event 60 k ++ trace w))
      /\ sleeps (poll_trace report_event 60 k) = k
      /\ count_event report_event (poll_trace report_event 60 k) = S k
      /\ exists mid, poll_trace report_event 60 k
                     = (report_event :: mid ++ [report_event])%list
                     \/ poll_trace report_event 60 k = [report_event])
  /\ (forall (hostname : string) (retry : Z)
             (houts : list string) (hdocs : list pyval),
         (forall h, exists out, prints E h (enter_event hostname) out) ->
         scripted E (host_ls_event hostname)
           (count_event (host_ls_event hostname) (trace w)) houts ->
         Forall2 (fun out doc => json_loads E out = Ok doc) houts hdocs ->
         (exists Hk, nth_error hdocs k = Some Hk /\ host_verdict Hk = Ok true) ->
         (forall i S, (i < k)%nat -> nth_error hdocs i = Some S ->
                      host_verdict S = Ok false) ->
         Z.of_nat k < retry ->
         (k < fuel)%nat ->
         host_maintenance_enter E fuel hostname retry w
         = (Ok (PBool true),
            mkWorld (clock w + seconds (35 * Z.of_nat k + 20))
              (enter_trace hostname k ++ trace w))
         /\ sleeps (enter_trace hostname k) = (2 * k + 1)%nat
         /\ exists later,
             enter_trace hostname k =
             (later ++ [host_ls_event hostname; Sleep 20;
                        enter_event hostname])%list).
Proof.
  split.
  - intros outs docs Sk Hscript Hdec Hnth Hdone Hpend Hk Hfuel.
    split; [| split; [| split]].
    + apply (verify_reweight_poll_succeeds E k outs docs
               (count_event report_event (trace w)));
        try assumption; try reflexivity.
      unfold seconds. lia.
    + apply sleeps_poll_trace.
    + apply count_poll_trace.
    + destruct k as [| k]; [exists []; now right |].
      destruct (poll_trace_ends report_event 60 (S k)) as (mid & Hmid & Hhd).
      rewrite app_nil_r in Hmid.
      destruct mid as [| e mid].
      * cbn [poll_trace] in Hmid.
        apply (f_equal (@List.length event)) in Hmid.
        rewrite length_app in Hmid. cbn in Hmid. lia.
      * exists mid. left. rewrite Hmid in Hhd |- *. cbn in Hhd.
        injection Hhd as ->. reflexivity.
  - intros hostname retry houts hdocs Henter Hhscript Hhdec Hhk Hhfalse
      Hretry Hfuel.
    split; [| split].
    + unfold host_maintenance_enter.
      apply (host_maintenance_enter_loop_succeeds E hostname retry Henter
               k houts hdocs (count_event (host_ls_event hostname) (trace w)));
        try assumption; try reflexivity; try lia.
    + apply sleeps_enter_trace.
    + apply enter_trace_starts.
Qed.

Lemma poll_succeeds_at_first_true_state_witness :
  fst (verify_reweight_poll converging_env 3 (clock w0 + seconds 1200)
         (mkLocals None None) w0)
  = Ok (mkLocals (Some true) (Some clean_doc))
  /\ fst (host_maintenance_enter converging_env 3 "node1" 10 w0)
     = Ok (PBool true)
  /\ sleeps (poll_trace report_event 60 2) = 2%nat
  /\ sleeps (enter_trace "node1" 2) = 5%nat.
Proof.
  destruct (poll_succeeds_at_first_true_state converging_env 2 3 w0)
    as [Hverify Hhost].
  destruct (Hverify [degraded_report; degraded_report; clean_report]
              [degraded_doc; degraded_doc; clean_doc] clean_doc)
    as (Hpoll & Hsleeps & _).
  - apply (scripted_env_scripted _ _ _ (inr clean_report)). reflexivity.
  - repeat constructor; vm_compute; reflexivity.
  - reflexivity.
  - vm_compute. reflexivity.
  - intros [| [| i]] S Hi Hnth; try lia; cbn in Hnth; injection Hnth as <-;
      (split; [vm_compute; reflexivity |]);
      do 3 eexists; repeat split; vm_compute; reflexivity.
  - lia.
  - lia.
  - destruct (Hhost "node1" 10
                [host_json "Offline"; host_json "Offline";
                 host_json "Maintenance"]
                [decoded (host_json "Offline"); decoded (host_json "Offline");
                 decoded (host_json "Maintenance")])
      as (Henter & Hsleeps' & _).
    + intros h. exists EmptyString. reflexivity.
    + apply (scripted_env_scripted _ _ _ (inr (host_json "Maintenance"))).
      reflexivity.
    + repeat constructor; vm_compute; reflexivity.
    + eexists. split; [reflexivity | vm_compute; reflexivity].
    + intros [| [| i]] S Hi Hnth; try lia; cbn in Hnth; injection Hnth as <-;
        vm_compute; reflexivity.
    + lia.
    + lia.
    + rewrite Hpoll, Henter. repeat split; assumption.
Defined.

(** ** The flag of verify_reweight on an empty collection *)

(** C8 fails on the code for an iteration that follows one with a
    non-empty collection: the second report fetched here has no PG-state
    entry, yet the second iteration raises nothing.  [flag] is a local of
    the whole method and still holds the [False] of the first iteration,
    so the loop sleeps, fetches a third time and succeeds. *)
Lemma verify_reweight_poll_keeps_stale_flag :
  decodes stale_env no_pg_report no_pg_doc
  /\ (let! l := getitem no_pg_doc "num_pg_by_state" in iter l) = Ok []
  /\ verify_reweight_poll stale_env 3 (clock w0 + seconds 1200)
       (mkLocals None None) w0
     = (Ok (mkLocals (Some true) (Some clean_doc)),
        mkWorld (seconds 120)
          [report_event; Sleep 60; report_event; Sleep 60; report_event]).
Proof. repeat split; vm_compute; reflexivity. Qed.

(** C8 as amended.  In an iteration of the loop of [verify_reweight] whose
    fetched report has no PG-state entry:
    - if no earlier iteration has bound [flag] (as in the first
      iteration), the test [if flag:] after the per-entry loop raises
      [UnboundLocalError], so the error is reachable on an empty
      collection;
    - if an earlier iteration has bound [flag] (to [False], or the loop
      would have ended), the name keeps that value and the iteration
      counts as "not yet met": the loop sleeps 60 seconds and polls
      again. *)
Theorem verify_reweight_poll_empty_collection
  (E : env) fuel end_time locals w out doc :
  clock w < end_time ->
  result (cluster E (trace w) report_event) = inr out ->
  decodes E out doc ->
  (let! l := getitem doc "num_pg_by_state" in iter l) = Ok [] ->
  (flag locals = None ->
   verify_reweight_poll E (S fuel) end_time locals w =
   (Raise (UnboundLocalError "flag"), advance E report_event w))
  /\ (flag locals = Some false ->
      logs_health doc ->
      verify_reweight_poll E (S fuel) end_time locals w =
      verify_reweight_poll E fuel end_time (mkLocals (Some false) (Some doc))
        (after_round E report_event 60 w)).
Proof.
  intros Hlt Hres Hdec Hent. split.
  - intros Hunbound.
    cbn [verify_reweight_poll].
    rewrite (bind_ok _ _ w (clock w) w) by reflexivity.
    replace (end_time >? clock w) with true by (symmetry; apply Z.gtb_lt; lia).
    rewrite (bind_ok _ _ w _ _ (run_ceph_command_ok E _ _ _ w _ _ Hres Hdec)).
    fold report_event.
    set (w1 := advance E report_event w).
    rewrite (bind_ok _ _ w1 _ _ (lift_ok _ _ w1 Hent)).
    cbn [reweight_flag]. rewrite Hunbound.
    rewrite (bind_ok _ _ w1 None w1) by reflexivity.
    reflexivity.
  - intros Hbound Hlog.
    apply (verify_reweight_poll_round E fuel end_time locals w out doc []);
      try assumption.
    cbn [reweight_flag]. rewrite Hbound. reflexivity.
Qed.

Lemma verify_reweight_poll_empty_collection_witness :
  verify_reweight_poll no_pg_env 1 (clock w0 + seconds 1200)
    (mkLocals None None) w0 =
  (Raise (UnboundLocalError "flag"), advance no_pg_env report_event w0).
Proof.
  refine (proj1 (verify_reweight_poll_empty_collection no_pg_env 0
                   (clock w0 + seconds 1200) (mkLocals None None) w0
                   no_pg_report no_pg_doc _ _ _ _) eq_refl).
  - vm_compute. reflexivity.
  - vm_compute. reflexivity.
  - split; vm_compute; reflexivity.
  - vm_compute. reflexivity.
Defined.

(** The whole method on a cluster that reports no PG-state entry: the
    first iteration ends in the error. *)
Example verify_reweight_no_pg_raises :
  fst (verify_reweight no_pg_env 21 [] [] w0) = Raise (UnboundLocalError "flag").
Proof. vm_compute. reflexivity. Qed.

(** ** Polls that run into their deadline *)

Lemma count_event_app ev h1 h2 :
  count_event ev (h1 ++ h2) = (count_event ev h1 + count_event ev h2)%nat.
Proof.
  induction h1 as [| e h1 IH]; [reflexivity |].
  cbn [app count_event]. rewrite IH. lia.
Qed.

Lemma count_timeout_trace ev secs j :
  is_sleep ev = false -> count_event ev (timeout_trace ev secs j) = j.
Proof.
  intros Hev. induction j as [| j IH]; [reflexivity |].
  cbn [timeout_trace]. rewrite count_event_app, IH.
  cbn [count_event]. rewrite event_eqb_refl.
  destruct ev; cbn in Hev |- *; try discriminate; lia.
Qed.

Lemma after_round_instant (E : env) ev secs w :
  instant E ->
  after_round E ev secs w =
  mkWorld (clock w + seconds secs) (Sleep secs :: ev :: trace w).
Proof.
  intros Hinst. unfold after_round, advance. cbn [clock].
  rewrite Hinst. cbn. rewrite Z.add_0_r. reflexivity.
Qed.


(** One round of the loop of [run_pool_sanity_check] on a report with a
    warning: the loop sleeps ten seconds and goes on. *)
Lemma run_pool_sanity_check_poll_round (E : env) fuel end_time fl w out doc :
  clock w < end_time ->
  result (cluster E (trace w) sanity_event) = inr out ->
  decodes E out doc ->
  sanity_warned doc ->
  run_pool_sanity_check_poll E (S fuel) end_time fl w =
  run_pool_sanity_check_poll E fuel end_time false
    (after_round E sanity_event 10 w).
Proof.
  intros Hlt Hres Hdec (h & c & ks & Hh & Hc & Hks & Hwarn).
  cbn [run_pool_sanity_check_poll].
  rewrite (bind_ok _ _ w (clock w) w) by reflexivity.
  replace (end_time >? clock w) with true by (symmetry; apply Z.gtb_lt; lia).
  rewrite (bind_ok _ _ w _ _ (run_ceph_command_ok E _ _ _ w _ _ Hres Hdec)).
  fold sanity_event.
  set (w1 := advance E sanity_event w).
  rewrite (bind_ok _ _ w1 _ _ (lift_ok _ _ w1 Hh)).
  assert (Hkeys : (let! c := getitem h "checks" in keys c) = Ok ks)
    by (rewrite Hc; exact Hks).
  rewrite (bind_ok _ _ w1 _ _ (lift_ok _ _ w1 Hkeys)).
  rewrite Hwarn.
  rewrite (bind_ok _ _ w1 tt (after_round E sanity_event 10 w)) by reflexivity.
  reflexivity.
Qed.

(** The deadline has passed: the loop ends and leaves [flag] as it is. *)
Lemma run_pool_sanity_check_poll_expired (E : env) fuel end_time fl w :
  end_time <= clock w ->
  run_pool_sanity_check_poll E (S fuel) end_time fl w = (Ok fl, w).
Proof.
  intros Hle. cbn [run_pool_sanity_check_poll].
  rewrite (bind_ok _ _ w (clock w) w) by reflexivity.
  replace (end_time >? clock w) with false
    by (symmetry; rewrite Z.gtb_ltb; apply Z.ltb_ge; lia).
  reflexivity.
Qed.


(** When only [time.sleep] moves the clock, a poll that starts
    [10 * j] seconds before its deadline makes exactly [j] rounds and ends
    on the deadline. *)
Lemma run_pool_sanity_check_poll_times_out (E : env) end_time :
  instant E ->
  answers E sanity_event sanity_warned ->
  forall j fuel w,
    end_time = clock w + seconds (10 * Z.of_nat j) ->
    (j < fuel)%nat ->
    run_pool_sanity_check_poll E fuel end_time false w =
    (Ok false, mkWorld end_time (timeout_trace sanity_event 10 j ++ trace w)).
Proof.
  intros Hinst Hans.
  induction j as [| j IH]; intros fuel w Hend Hfuel;
    destruct fuel as [| fuel]; try lia.
  - rewrite run_pool_sanity_check_poll_expired
      by (unfold seconds in Hend; lia).
    destruct w as [c t]. cbn in Hend |- *. unfold seconds in Hend.
    f_equal. f_equal. lia.
  - destruct (Hans (trace w)) as (out & doc & Hres & Hdec & Hwarn).
    rewrite (run_pool_sanity_check_poll_round E fuel end_time false w out doc);
      try assumption; [| unfold seconds in Hend; lia].
    rewrite (after_round_instant E _ _ w Hinst).
    rewrite IH; [| cbn [clock]; unfold seconds in *; lia | lia].
    cbn [trace timeout_trace]. rewrite <- app_assoc. reflexivity.
Qed.

Lemma verify_reweight_poll_expired (E : env) fuel end_time locals w :
  end_time <= clock w ->
  verify_reweight_poll E (S fuel) end_time locals w = (Ok locals, w).
Proof.
  intros Hle. cbn [verify_reweight_poll].
  rewrite (bind_ok _ _ w (clock w) w) by reflexivity.
  replace (end_time >? clock w) with false
    by (symmetry; rewrite Z.gtb_ltb; apply Z.ltb_ge; lia).
  reflexivity.
Qed.

Lemma verify_reweight_poll_round_pending
  (E : env) fuel end_time locals w out doc :
  clock w < end_time ->
  result (cluster E (trace w) report_event) = inr out ->
  decodes E out doc ->
  reweight_pending doc ->
  verify_reweight_poll E (S fuel) end_time locals w =
  verify_reweight_poll E fuel end_time (mkLocals (Some false) (Some doc))
    (after_round E report_event 60 w).
Proof.
  intros Hlt Hres Hdec [Hdone Hlog].
  destruct (reweight_done_entries _ _ Hdone) as (entries & Hent & Hflag).
  exact (verify_reweight_poll_round E fuel end_time locals w out doc entries
           Hlt Hres Hdec Hent
           (reweight_flag_bound _ _ (flag locals) Hflag) Hlog).
Qed.


Lemma verify_reweight_poll_times_out (E : env) end_time :
  instant E ->
  answers E report_event reweight_pending ->
  forall j fuel w locals,
    end_time = clock w + seconds (60 * Z.of_nat j) ->
    (j < fuel)%nat ->
    (j = O -> flag locals = Some false) ->
    exists locals',
      verify_reweight_poll E fuel end_time locals w =
      (Ok locals',
       mkWorld end_time (timeout_trace report_event 60 j ++ trace w))
      /\ flag locals' = Some false.
Proof.
  intros Hinst Hans.
  induction j as [| j IH]; intros fuel w locals Hend Hfuel Hflag;
    destruct fuel as [| fuel]; try lia.
  - exists locals. split; [| now apply Hflag].
    rewrite verify_reweight_poll_expired by (unfold seconds in Hend; lia).
    destruct w as [c t]. cbn in Hend |- *. unfold seconds in Hend.
    f_equal. f_equal. lia.
  - destruct (Hans (trace w)) as (out & doc & Hres & Hdec & Hpend).
    rewrite (verify_reweight_poll_round_pending E fuel end_time locals w out doc);
      try assumption; [| unfold seconds in Hend; lia].
    rewrite (after_round_instant E _ _ w Hinst).
    destruct (IH fuel (mkWorld (clock w + seconds 60)
                         (Sleep 60 :: report_event :: trace w))
                (mkLocals (Some false) (Some doc)))
      as (locals' & Hrun & Hfl);
      [cbn [clock]; unfold seconds in *; lia | lia | reflexivity |].
    exists locals'. split; [| exact Hfl].
    rewrite Hrun. cbn [trace timeout_trace]. rewrite <- app_assoc. reflexivity.
Qed.

Lemma shell_ok (E : env) cmd t w :
  never_raises E ->
  exists out, shell E cmd t w = (Ok out, advance E (Shell cmd t) w).
Proof.
  intros Hnr. destruct (Hnr (trace w) (Shell cmd t)) as [out Hout].
  exists out. apply transport_ok. exact Hout.
Qed.

Lemma clock_advance_instant (E : env) ev w :
  instant E -> clock (advance E ev w) = clock w.
Proof. intros Hinst. cbn. rewrite Hinst. cbn. lia. Qed.

(** A [for] loop that sends one shell command per item *)
Lemma for_each_shell_ok (E : env) {A} (f : A -> string) (l : list A) w :
  never_raises E ->
  exists w',
    for_each l (fun x => _ <- shell E (f x) None ;; ret tt) w = (Ok tt, w')
    /\ trace w' = (rev (map (fun x => Shell (f x) None) l) ++ trace w)%list
    /\ clock w <= clock w'
    /\ (instant E -> clock w' = clock w).
Proof.
  intros Hnr. revert w.
  induction l as [| x l IH]; intros w.
  - exists w. repeat split; try reflexivity; try lia.
  - cbn [for_each map rev].
    destruct (shell_ok E (f x) None w Hnr) as [out Hout].
    rewrite (bind_ok _ _ w tt (advance E (Shell (f x) None) w))
      by (rewrite (bind_ok _ _ w _ _ Hout); reflexivity).
    destruct (IH (advance E (Shell (f x) None) w))
      as (w' & Hrun & Htr & Hle & Heq).
    exists w'. split; [exact Hrun |]. split; [| split].
    + rewrite Htr, trace_advance, <- app_assoc. reflexivity.
    + pose proof (clock_advance E (Shell (f x) None) w). lia.
    + intros Hinst. rewrite (Heq Hinst). apply clock_advance_instant, Hinst.
Qed.

(** [change_recovery_threads] on a cluster that never fails: it returns,
    it does not sleep, and it does not fetch the report. *)
Lemma change_recovery_threads_ok (E : env) config action w :
  never_raises E ->
  exists w' evs,
    change_recovery_threads E config action w = (Ok tt, w')
    /\ trace w' = (evs ++ trace w)%list
    /\ count_event report_event evs = O
    /\ clock w <= clock w'
    /\ (instant E -> clock w' = clock w).
Proof.
  intros Hnr.
  unfold change_recovery_threads, check_osd_op_queue.
  destruct (shell_ok E "ceph config get osd osd_op_queue" None w Hnr) as [q Hq].
  rewrite (bind_ok _ _ w _ _ (bind_ok _ _ w _ _ Hq)).
  set (e0 := Shell "ceph config get osd osd_op_queue" None).
  set (w1 := advance E e0 w).
  unfold ret at 1.
  set (f := fun kv : string * string =>
              if String.eqb action "set"
              then (snd kv ++ " "
                    ++ fmt E (match lookup (fst kv) config with
                              | Some v => v
                              | None => PInt 8
                              end))%string
              else snd kv).
  set (l := [("osd_max_backfills",
              "ceph config " ++ action ++ " osd osd_max_backfills");
             ("osd_recovery_max_active",
              "ceph config " ++ action ++ " osd osd_recovery_max_active")]).
  assert (Hcount : count_event report_event
                     (rev (map (fun x => Shell (f x) None) l)) = O).
  { subst l f. cbn [map rev app fst snd count_event].
    destruct (String.eqb action "set"); reflexivity. }
  destruct (if contains (lower "mclock") (lower q) then true else false).
  - set (e1 := Shell "ceph config set osd osd_mclock_override_recovery_settings true" None).
    destruct (shell_ok E "ceph config set osd osd_mclock_override_recovery_settings true"
                None w1 Hnr) as [o Ho].
    fold e1 in Ho.
    rewrite (bind_ok _ _ w1 tt (advance E e1 w1))
      by (rewrite (bind_ok _ _ w1 _ _ Ho); reflexivity).
    destruct (for_each_shell_ok E f l (advance E e1 w1) Hnr)
      as (w' & Hrun & Htr & Hle & Heq).
    exists w', (rev (map (fun x => Shell (f x) None) l) ++ [e1; e0])%list.
    split; [exact Hrun |]. split; [| split; [| split]].
    + rewrite Htr, <- app_assoc. reflexivity.
    + rewrite count_event_app, Hcount. reflexivity.
    + pose proof (clock_advance E e1 w1). pose proof (clock_advance E e0 w).
      subst w1. lia.
    + intros Hinst. rewrite (Heq Hinst). subst w1.
      rewrite !clock_advance_instant by assumption. reflexivity.
  - rewrite (bind_ok _ _ w1 tt w1) by reflexivity.
    destruct (for_each_shell_ok E f l w1 Hnr) as (w' & Hrun & Htr & Hle & Heq).
    exists w', (rev (map (fun x => Shell (f x) None) l) ++ [e0])%list.
    split; [exact Hrun |]. split; [| split; [| split]].
    + rewrite Htr, <- app_assoc. reflexivity.
    + rewrite count_event_app, Hcount. reflexivity.
    + pose proof (clock_advance E e0 w). subst w1. lia.
    + intros Hinst. rewrite (Heq Hinst). subst w1.
      apply clock_advance_instant, Hinst.
Qed.

Lemma run_scrub_all (E : env) w :
  never_raises E ->
  run_scrub E [] w = (Ok PNone, advance E scrub_event w).
Proof.
  intros Hnr. destruct (Hnr (trace w) scrub_event) as [out Hout].
  unfold run_scrub, exec_command. cbn [kwargs_get lookup truthy].
  fold scrub_event.
  rewrite (bind_ok _ _ w _ _ (transport_ok E _ w out Hout)). reflexivity.
Qed.

Lemma run_deep_scrub_all (E : env) w :
  never_raises E ->
  run_deep_scrub E [] w = (Ok PNone, advance E deep_scrub_event w).
Proof.
  intros Hnr. destruct (Hnr (trace w) deep_scrub_event) as [out Hout].
  unfold run_deep_scrub, exec_command. cbn [kwargs_get lookup truthy].
  fold deep_scrub_event.
  rewrite (bind_ok _ _ w _ _ (transport_ok E _ w out Hout)). reflexivity.
Qed.

Lemma run_pool_sanity_check_unfold (E : env) fuel w :
  never_raises E ->
  run_pool_sanity_check E fuel w =
  (let w3 := sanity_start E w in
   flag <- run_pool_sanity_check_poll E fuel (clock w3 + seconds 600) false ;;
   if negb flag then ret (PBool false) else ret (PBool true)) (sanity_start E w).
Proof.
  intros Hnr. unfold run_pool_sanity_check.
  rewrite (bind_ok _ _ w _ _ (run_scrub_all E w Hnr)).
  set (w1 := advance E scrub_event w).
  rewrite (bind_ok _ _ w1 _ _ (run_deep_scrub_all E w1 Hnr)).
  set (w2 := advance E deep_scrub_event w1).
  rewrite (bind_ok _ _ w2 tt (sanity_start E w)) by reflexivity.
  rewrite (bind_ok _ _ (sanity_start E w) (clock (sanity_start E w))
             (sanity_start E w)) by reflexivity.
  reflexivity.
Qed.


Lemma run_pool_sanity_check_times_out (E : env) fuel w :
  instant E ->
  never_raises E ->
  answers E sanity_event sanity_warned ->
  (61 <= fuel)%nat ->
  run_pool_sanity_check E fuel w =
  (Ok (PBool false),
   mkWorld (clock w + seconds 10 + seconds 600)
     (timeout_trace sanity_event 10 60
      ++ Sleep 10 :: deep_scrub_event :: scrub_event :: trace w)).
Proof.
  intros Hinst Hnr Hans Hfuel.
  rewrite (run_pool_sanity_check_unfold E fuel w Hnr). cbv zeta.
  assert (Hstart : sanity_start E w =
                   mkWorld (clock w + seconds 10)
                     (Sleep 10 :: deep_scrub_event :: scrub_event :: trace w)).
  { unfold sanity_start. cbv zeta.
    rewrite !clock_advance_instant by assumption. reflexivity. }
  rewrite Hstart. cbn [clock].
  rewrite (bind_ok _ _ _ _ _
             (run_pool_sanity_check_poll_times_out E
                (clock w + seconds 10 + seconds 600) Hinst Hans 60 fuel
                (mkWorld (clock w + seconds 10)
                   (Sleep 10 :: deep_scrub_event :: scrub_event :: trace w))
                eq_refl ltac:(lia))).
  reflexivity.
Qed.


Lemma verify_reweight_times_out (E : env) fuel affected_osds osd_info w :
  instant E ->
  never_raises E ->
  answers E report_event reweight_pending ->
  (21 <= fuel)%nat ->
  exists w',
    verify_reweight E fuel affected_osds osd_info w = (Ok (PBool false), w')
    /\ clock w' = clock w + seconds 1200
    /\ count_event report_event (trace w')
       = (count_event report_event (trace w) + 20)%nat.
Proof.
  intros Hinst Hnr Hans Hfuel. unfold verify_reweight.
  destruct (change_recovery_threads_ok E [] "set" w Hnr)
    as (w1 & evs1 & Hset & Htr1 & Hc1 & _ & Hclk1).
  rewrite (bind_ok _ _ w _ _ Hset).
  rewrite (bind_ok _ _ w1 (clock w1) w1) by reflexivity.
  destruct (verify_reweight_poll_times_out E (clock w1 + seconds 1200)
              Hinst Hans 20 fuel w1 (mkLocals None None))
    as (locals & Hpoll & Hflag); [reflexivity | lia | discriminate |].
  rewrite (bind_ok _ _ w1 _ _ Hpoll).
  set (w2 := mkWorld (clock w1 + seconds 1200)
               (timeout_trace report_event 60 20 ++ trace w1)).
  destruct (change_recovery_threads_ok E [] "rm" w2 Hnr)
    as (w3 & evs3 & Hrm & Htr3 & Hc3 & _ & Hclk3).
  rewrite (bind_ok _ _ w2 _ _ Hrm).
  rewrite Hflag.
  rewrite (bind_ok _ _ w3 false w3) by reflexivity.
  exists w3. split; [reflexivity |]. split.
  - rewrite (Hclk3 Hinst). subst w2. cbn [clock]. rewrite (Hclk1 Hinst).
    reflexivity.
  - rewrite Htr3. subst w2. cbn [trace]. rewrite Htr1.
    rewrite !count_event_app, Hc3, Hc1.
    rewrite (count_timeout_trace report_event 60 20 eq_refl). lia.
Qed.

Lemma change_osd_state_poll_round
  (E : env) fuel action target timeout_time os sd w out doc :
  clock w <= timeout_time ->
  result (cluster E (trace w) (daemon_event E target)) = inr out ->
  decodes E out doc ->
  state_not_reached action doc ->
  exists os' sd',
    change_osd_state_poll E (S fuel) action target timeout_time os sd w =
    change_osd_state_poll E fuel action target timeout_time os' sd'
      (after_round E (daemon_event E target) 20 w).
Proof.
  intros Hle Hres Hdec (e & st & desc & He & Hst & Hdesc & Hstop & Hstart).
  exists st, desc.
  cbn [change_osd_state_poll].
  rewrite (bind_ok _ _ w (clock w) w) by reflexivity.
  replace (clock w <=? timeout_time) with true by (symmetry; apply Z.leb_le; lia).
  assert (Hstatus : get_daemon_status E "osd" target w =
                    (Ok (st, desc), advance E (daemon_event E target) w)).
  { unfold get_daemon_status.
    change (fetch_event _ default_timeout false) with (daemon_event E target)
      in Hres.
    rewrite (bind_ok _ _ w _ _ (run_ceph_command_ok E _ _ _ w _ _ Hres Hdec)).
    fold (daemon_event E target).
    apply lift_ok. rewrite He. cbn [res_bind]. rewrite Hst. cbn [res_bind].
    rewrite Hdesc. reflexivity. }
  rewrite (bind_ok _ _ w _ _ Hstatus). cbn [fst snd].
  rewrite Hstop, Hstart.
  set (w1 := advance E (daemon_event E target) w).
  rewrite (bind_ok _ _ w1 tt (after_round E (daemon_event E target) 20 w))
    by reflexivity.
  reflexivity.
Qed.

(** An OSD that is running has not reached the state [stop] waits for. *)
Lemma still_running_not_reached doc :
  still_running doc -> state_not_reached "stop" doc.
Proof.
  intros (e & st & sd & He & Hst & Hsd & H0 & Hstopped).
  exists e, st, sd. repeat split; try assumption.
  - rewrite H0, Hstopped. reflexivity.
  - apply andb_false_r.
Qed.

Lemma change_osd_state_poll_expired
  (E : env) fuel action target timeout_time os sd w :
  timeout_time < clock w ->
  change_osd_state_poll E (S fuel) action target timeout_time os sd w =
  (Ok (os, sd), w).
Proof.
  intros Hlt. cbn [change_osd_state_poll].
  rewrite (bind_ok _ _ w (clock w) w) by reflexivity.
  replace (clock w <=? timeout_time) with false
    by (symmetry; apply Z.leb_gt; lia).
  reflexivity.
Qed.

(** When only [time.sleep] moves the clock and the OSD never reaches the
    state waited for, the loop makes a round at every multiple of 20
    seconds up to and including the deadline. *)
Lemma change_osd_state_poll_times_out (E : env) action target timeout_time :
  instant E ->
  answers E (daemon_event E target) (state_not_reached action) ->
  forall j fuel w os sd,
    (j = O -> timeout_time < clock w) ->
    ((0 < j)%nat ->
     clock w + seconds (20 * (Z.of_nat j - 1)) <= timeout_time
     /\ timeout_time < clock w + seconds (20 * Z.of_nat j)) ->
    (j < fuel)%nat ->
    exists r,
      change_osd_state_poll E fuel action target timeout_time os sd w =
      (Ok r,
       mkWorld (clock w + seconds (20 * Z.of_nat j))
         (timeout_trace (daemon_event E target) 20 j ++ trace w)).
Proof.
  intros Hinst Hans.
  induction j as [| j IH]; intros fuel w os sd Hzero Hpos Hfuel;
    destruct fuel as [| fuel]; try lia.
  - exists (os, sd).
    rewrite change_osd_state_poll_expired by (apply Hzero; reflexivity).
    destruct w as [c t]. cbn. unfold seconds. rewrite Z.add_0_r. reflexivity.
  - destruct Hpos as [Hlow Hhigh]; [lia |].
    unfold seconds in Hlow, Hhigh.
    destruct (Hans (trace w)) as (out & doc & Hres & Hdec & Hrun).
    destruct (change_osd_state_poll_round E fuel action target timeout_time
                os sd w out doc ltac:(lia) Hres Hdec Hrun)
      as (os' & sd' & Hround).
    rewrite Hround, (after_round_instant E _ _ w Hinst).
    destruct (IH fuel (mkWorld (clock w + seconds 20)
                         (Sleep 20 :: daemon_event E target :: trace w))
                os' sd') as [r Hrest].
    + intros ->. cbn [clock]. unfold seconds. lia.
    + intros Hj. cbn [clock]. unfold seconds. lia.
    + lia.
    + exists r. rewrite Hrest. cbn [clock trace timeout_trace].
      rewrite <- app_assoc. cbn [app].
      f_equal. f_equal. unfold seconds. lia.
Qed.


(** *** Commands that take time *)

Lemma latency_nonneg (E : env) L : latency_at_most E L -> 0 <= L.
Proof.
  intros H. specialize (H [] (Sleep 0)).
  pose proof (N2Z.is_nonneg (took (cluster E [] (Sleep 0)))). lia.
Qed.

Lemma clock_after_round_bounds (E : env) L ev secs w :
  latency_at_most E L ->
  clock w + seconds secs <= clock (after_round E ev secs w)
  <= clock w + seconds secs + L.
Proof.
  intros HL. specialize (HL (trace w) ev).
  pose proof (N2Z.is_nonneg (took (cluster E (trace w) ev))).
  cbn. lia.
Qed.

Lemma count_after_round (E : env) ev secs w :
  is_sleep ev = false ->
  count_event ev (trace (after_round E ev secs w))
  = S (count_event ev (trace w)).
Proof.
  intros Hev. cbn [after_round trace count_event].
  rewrite event_eqb_refl. destruct ev; cbn in Hev |- *; try discriminate; lia.
Qed.

(** A loop guarded by [end_time > now], entered before its deadline with
    every command taking at most [L]: it ends at the first check at or
    after the deadline, less than one interval and one command later; a
    round lasts between [I] and [I + L]. *)
Lemma run_pool_sanity_check_poll_bounded (E : env) L end_time :
  latency_at_most E L ->
  answers E sanity_event sanity_warned ->
  forall fuel w,
    clock w < end_time ->
    end_time - clock w <= seconds 10 * (Z.of_nat fuel - 1) ->
    exists w' n,
      run_pool_sanity_check_poll E fuel end_time false w = (Ok false, w')
      /\ end_time <= clock w' < end_time + seconds 10 + L
      /\ count_event sanity_event (trace w')
         = (count_event sanity_event (trace w) + n)%nat
      /\ (Z.of_nat n - 1) * seconds 10 < end_time - clock w
         <= Z.of_nat n * (seconds 10 + L).
Proof.
  intros HL Hans. pose proof (latency_nonneg E L HL) as HL0.
  induction fuel as [| fuel IH]; intros w Hlt Hbound;
    [unfold seconds in Hbound; lia |].
  destruct (Hans (trace w)) as (out & doc & Hres & Hdec & Hwarn).
  rewrite (run_pool_sanity_check_poll_round E fuel end_time false w out doc
             Hlt Hres Hdec Hwarn).
  pose proof (clock_after_round_bounds E L sanity_event 10 w HL) as Hclock.
  pose proof (count_after_round E sanity_event 10 w eq_refl) as Hcount.
  set (w1 := after_round E sanity_event 10 w) in *.
  destruct (Z.lt_ge_cases (clock w1) end_time) as [Hlt1 | Hge1].
  - destruct (IH w1 Hlt1) as (w' & n & Hrun & Hend & Hn & Hrounds).
    { unfold seconds in *. lia. }
    exists w', (S n). split; [exact Hrun |]. split; [exact Hend |].
    split; [rewrite Hn, Hcount; lia |].
    unfold seconds in *. rewrite Nat2Z.inj_succ. nia.
  - destruct fuel as [| fuel]; [unfold seconds in *; lia |].
    exists w1, 1%nat. split; [apply run_pool_sanity_check_poll_expired; lia |].
    split; [unfold seconds in *; lia |].
    split; [rewrite Hcount; lia |].
    unfold seconds in *. change (Z.of_nat 1) with 1. lia.
Qed.

Lemma verify_reweight_poll_bounded (E : env) L end_time :
  latency_at_most E L ->
  answers E report_event reweight_pending ->
  forall fuel w locals,
    clock w < end_time ->
    end_time - clock w <= seconds 60 * (Z.of_nat fuel - 1) ->
    exists locals' w' n,
      verify_reweight_poll E fuel end_time locals w = (Ok locals', w')
      /\ flag locals' = Some false
      /\ end_time <= clock w' < end_time + seconds 60 + L
      /\ count_event report_event (trace w')
         = (count_event report_event (trace w) + n)%nat
      /\ (Z.of_nat n - 1) * seconds 60 < end_time - clock w
         <= Z.of_nat n * (seconds 60 + L).
Proof.
  intros HL Hans. pose proof (latency_nonneg E L HL) as HL0.
  induction fuel as [| fuel IH]; intros w locals Hlt Hbound;
    [unfold seconds in Hbound; lia |].
  destruct (Hans (trace w)) as (out & doc & Hres & Hdec & Hpend).
  rewrite (verify_reweight_poll_round_pending E fuel end_time locals w out doc
             Hlt Hres Hdec Hpend).
  pose proof (clock_after_round_bounds E L report_event 60 w HL) as Hclock.
  pose proof (count_after_round E report_event 60 w eq_refl) as Hcount.
  set (w1 := after_round E report_event 60 w) in *.
  destruct (Z.lt_ge_cases (clock w1) end_time) as [Hlt1 | Hge1].
  - destruct (IH w1 (mkLocals (Some false) (Some doc)) Hlt1)
      as (locals' & w' & n & Hrun & Hflag & Hend & Hn & Hrounds).
    { unfold seconds in *. lia. }
    exists locals', w', (S n). split; [exact Hrun |]. split; [exact Hflag |].
    split; [exact Hend |].
    split; [rewrite Hn, Hcount; lia |].
    unfold seconds in *. rewrite Nat2Z.inj_succ. nia.
  - destruct fuel as [| fuel]; [unfold seconds in *; lia |].
    exists (mkLocals (Some false) (Some doc)), w1, 1%nat.
    split; [apply verify_reweight_poll_expired; lia |].
    split; [reflexivity |].
    split; [unfold seconds in *; lia |].
    split; [rewrite Hcount; lia |].
    unfold seconds in *. change (Z.of_nat 1) with 1. lia.
Qed.

(** The loop guarded by [now <= timeout_time] still makes a round on the
    deadline itself. *)
Lemma change_osd_state_poll_bounded (E : env) L action target timeout_time :
  latency_at_most E L ->
  answers E (daemon_event E target) (state_not_reached action) ->
  forall fuel w os sd,
    clock w <= timeout_time ->
    timeout_time - clock w < seconds 20 * (Z.of_nat fuel - 1) ->
    exists r w' n,
      change_osd_state_poll E fuel action target timeout_time os sd w
      = (Ok r, w')
      /\ timeout_time < clock w' <= timeout_time + seconds 20 + L
      /\ count_event (daemon_event E target) (trace w')
         = (count_event (daemon_event E target) (trace w) + n)%nat
      /\ (Z.of_nat n - 1) * seconds 20 <= timeout_time - clock w
         < Z.of_nat n * (seconds 20 + L).
Proof.
  intros HL Hans. pose proof (latency_nonneg E L HL) as HL0.
  induction fuel as [| fuel IH]; intros w os sd Hle Hbound;
    [unfold seconds in Hbound; lia |].
  destruct (Hans (trace w)) as (out & doc & Hres & Hdec & Hunmet).
  destruct (change_osd_state_poll_round E fuel action target timeout_time
              os sd w out doc Hle Hres Hdec Hunmet) as (os' & sd' & Hround).
  rewrite Hround.
  pose proof (clock_after_round_bounds E L (daemon_event E target) 20 w HL)
    as Hclock.
  pose proof (count_after_round E (daemon_event E target) 20 w eq_refl)
    as Hcount.
  set (w1 := after_round E (daemon_event E target) 20 w) in *.
  destruct (Z.le_gt_cases (clock w1) timeout_time) as [Hle1 | Hgt1].
  - destruct (IH w1 os' sd' Hle1) as (r & w' & n & Hrun & Hend & Hn & Hrounds).
    { unfold seconds in *. lia. }
    exists r, w', (S n). split; [exact Hrun |]. split; [exact Hend |].
    split; [rewrite Hn, Hcount; lia |].
    unfold seconds in *. rewrite Nat2Z.inj_succ. nia.
  - destruct fuel as [| fuel]; [unfold seconds in *; lia |].
    exists (os', sd'), w1, 1%nat.
    split; [apply change_osd_state_poll_expired; lia |].
    split; [unfold seconds in *; lia |].
    split; [rewrite Hcount; lia |].
    unfold seconds in *. change (Z.of_nat 1) with 1. lia.
Qed.

(** *** A poll bounded by a number of retries *)

Lemma check_host_status_enter (E : env) hostname w out doc b :
  result (cluster E (trace w) (host_ls_event hostname)) = inr out ->
  json_loads E out = Ok doc ->
  host_verdict doc = Ok b ->
  check_host_status E hostname (Some "maintenance") w
  = (Ok b, advance E (host_ls_event hostname) w).
Proof.
  intros Hres Hdoc Hverdict.
  unfold check_host_status, exec_command.
  fold (host_ls_event hostname).
  rewrite (bind_ok _ _ w _ _ (transport_ok E _ w out Hres)).
  unfold host_verdict in Hverdict.
  destruct (getindex doc 0) as [h | |] eqn:Hh; cbn [res_bind] in Hverdict;
    try discriminate.
  destruct (getitem h "status") as [st | |] eqn:Hst; cbn [res_bind] in Hverdict;
    try discriminate.
  destruct (lower_of st) as [hs | |] eqn:Hhs; cbn [res_bind] in Hverdict;
    try discriminate.
  assert (Hstatus : (let! doc := json_loads E out in
                     let! h := getindex doc 0 in
                     let! st := getitem h "status" in
                     lower_of st) = Ok hs).
  { rewrite Hdoc. cbn [res_bind]. rewrite Hh. cbn [res_bind].
    rewrite Hst. exact Hhs. }
  rewrite (bind_ok _ _ _ _ _ (lift_ok _ _ _ Hstatus)).
  change (lower "maintenance") with "maintenance".
  change (negb (String.eqb "maintenance" EmptyString)) with true.
  cbn [andb].
  injection Hverdict as <-.
  destruct (contains "maintenance" hs); [reflexivity |].
  destruct (contains "offline" hs); reflexivity.
Qed.

(** One round of [host_maintenance_enter] whose check fails *)
Lemma host_maintenance_enter_round_fails (E : env) hostname retry fuel it w :
  never_raises E ->
  host_answers E hostname (fun doc => host_verdict doc = Ok false) ->
  it <= retry ->
  exists w1,
    trace w1 = (failed_enter_trace hostname 1 ++ trace w)%list
    /\ host_maintenance_enter_loop E (S fuel) hostname retry it w
       = if it + 1 =? retry then (Ok (PBool false), w1)
         else host_maintenance_enter_loop E fuel hostname retry (it + 1) w1.
Proof.
  intros Hnr Hans Hle.
  cbn [host_maintenance_enter_loop].
  assert (Hcond : (it <=? retry) = true) by (apply Z.leb_le; lia).
  rewrite Hcond.
  destruct (Hnr (trace w) (enter_event hostname)) as [o1 Ho1].
  unfold exec_command at 1. fold (enter_event hostname).
  rewrite (bind_ok _ _ w _ _ (transport_ok E _ w o1 Ho1)).
  set (w2 := mkWorld (clock (advance E (enter_event hostname) w) + seconds 20)
                     (Sleep 20 :: enter_event hostname :: trace w)).
  assert (Hsleep : sleep 20 (advance E (enter_event hostname) w) = (Ok tt, w2))
    by reflexivity.
  rewrite (bind_ok _ _ _ _ _ Hsleep).
  destruct (Hans (trace w2)) as (out & doc & Hout & Hdoc & Hverdict).
  rewrite (bind_ok _ _ _ _ _
             (check_host_status_enter E hostname w2 out doc false
                Hout Hdoc Hverdict)).
  cbn [negb].
  set (w3 := advance E (host_ls_event hostname) w2).
  set (w4 := mkWorld (clock w3 + seconds 15) (Sleep 15 :: trace w3)).
  assert (Hsleep2 : sleep 15 w3 = (Ok tt, w4)) by reflexivity.
  rewrite (bind_ok _ _ _ _ _ Hsleep2).
  exists w4. split; [reflexivity |].
  destruct (it + 1 =? retry); reflexivity.
Qed.

Lemma host_maintenance_enter_loop_gives_up (E : env) hostname retry :
  never_raises E ->
  host_answers E hostname (fun doc => host_verdict doc = Ok false) ->
  forall k fuel it w,
    retry = it + Z.of_nat (S k) ->
    (k < fuel)%nat ->
    exists w',
      host_maintenance_enter_loop E fuel hostname retry it w
      = (Ok (PBool false), w')
      /\ trace w' = (failed_enter_trace hostname (S k) ++ trace w)%list.
Proof.
  intros Hnr Hans.
  induction k as [| k IH]; intros fuel it w Hretry Hfuel.
  - destruct fuel as [| fuel]; [lia |].
    destruct (host_maintenance_enter_round_fails E hostname retry fuel it w
                Hnr Hans ltac:(lia)) as (w1 & Htr & Hrun).
    assert (Hlast : (it + 1 =? retry) = true) by (apply Z.eqb_eq; lia).
    rewrite Hlast in Hrun. exists w1. split; assumption.
  - destruct fuel as [| fuel]; [lia |].
    destruct (host_maintenance_enter_round_fails E hostname retry fuel it w
                Hnr Hans ltac:(lia)) as (w1 & Htr & Hrun).
    assert (Hnot : (it + 1 =? retry) = false) by (apply Z.eqb_neq; lia).
    rewrite Hnot in Hrun.
    destruct (IH fuel (it + 1) w1 ltac:(lia) ltac:(lia)) as (w' & Hrest & Htr').
    exists w'. split; [rewrite Hrun; exact Hrest |].
    rewrite Htr', Htr. clear.
    change (failed_enter_trace hostname 1)
      with [Sleep 15; host_ls_event hostname; Sleep 20; enter_event hostname].
    induction (S k) as [| j IHj]; [reflexivity |].
    cbn [failed_enter_trace app] in IHj |- *. rewrite IHj. reflexivity.
Qed.


(** C5 fails on the code in two ways.
    - The loop of [change_osd_state] is guarded by [now <= timeout_time]:
      with the default deadline of 180 seconds and its interval of 20, on
      a cluster whose commands return at once, it still polls on the
      deadline itself and ends 200 seconds after its start, outside
      [180, 200).
    - The time the commands take adds to the elapsed time: with commands
      of seven seconds each, [run_pool_sanity_check] (deadline 600 s,
      interval 10 s) returns [False] 612 seconds after its deadline
      started, outside [600, 610). *)
Lemma deadline_polls_overrun :
  (exists r w',
      change_osd_state_poll osd_env 11 "stop" (PInt 1) (clock w0 + seconds 180)
        (PInt 1) (PStr "running") w0 = (Ok r, w')
      /\ clock w' - clock w0 = seconds 200
      /\ ~ (seconds 180 <= clock w' - clock w0 < seconds 180 + seconds 20))
  /\ (exists w',
         run_pool_sanity_check slow_env 61 w0 = (Ok (PBool false), w')
         /\ clock w' - clock (sanity_start slow_env w0) = seconds 612
         /\ ~ (seconds 600 <= clock w' - clock (sanity_start slow_env w0)
               < seconds 600 + seconds 10)).
Proof.
  split.
  - eexists. eexists. split; [vm_compute; reflexivity |].
    split; [reflexivity |].
    cbn [clock w0]. unfold seconds. lia.
  - eexists. split; [vm_compute; reflexivity |].
    split; [reflexivity |].
    vm_compute. intros [_ H]. discriminate H.
Qed.

(** C5 as amended.  When the predicate is false of every fetched state
    and no command fails, each loop under its own hypotheses.
    On a cluster whose commands return at once:
    - [run_pool_sanity_check] (deadline 600 s, interval 10 s) and
      [verify_reweight] (1200 s, 60 s), whose loops are guarded by
      [end_time > now], return [False] with an elapsed time in
      [D, D + I), after exactly D / I fetches;
    - the loop of [change_osd_state], guarded by [now <= timeout_time]
      (deadline [timeout], interval 20 s), ends, for either action, with
      an elapsed time in (D, D + I], after [timeout / 20 + 1] fetches.
    On a cluster whose commands take at most [L] each, a loop entered a
    time [D] before its deadline ends after [n] fetches, where
    - for the loops of [run_pool_sanity_check] and [verify_reweight] the
      elapsed time is in [D, D + I + L) and (n - 1) I < D <= n (I + L);
    - for the loop of [change_osd_state] the elapsed time is in
      (D, D + I + L] and (n - 1) I <= D < n (I + L). *)
Theorem deadline_polls_time_out (E : env) (fuel : nat) (w : world) :
  (instant E ->
   never_raises E ->
   answers E sanity_event sanity_warned ->
   (61 <= fuel)%nat ->
   exists w',
     run_pool_sanity_check E fuel w = (Ok (PBool false), w')
     /\ seconds 600 <= clock w' - clock (sanity_start E w)
        < seconds 600 + seconds 10
     /\ count_event sanity_event (trace w')
        = (count_event sanity_event (trace w) + 60)%nat)
  /\ (forall affected_osds osd_info,
         instant E ->
         never_raises E ->
         answers E report_event reweight_pending ->
         (21 <= fuel)%nat ->
         exists w',
           verify_reweight E fuel affected_osds osd_info w
           = (Ok (PBool false), w')
           /\ seconds 1200 <= clock w' - clock w < seconds 1200 + seconds 60
           /\ count_event report_event (trace w')
              = (count_event report_event (trace w) + 20)%nat)
  /\ (forall action target timeout os sd,
         instant E ->
         answers E (daemon_event E target) (state_not_reached action) ->
         0 <= timeout ->
         (Z.to_nat (timeout / 20) + 1 < fuel)%nat ->
         exists r w',
           change_osd_state_poll E fuel action target
             (clock w + seconds timeout) os sd w = (Ok r, w')
           /\ seconds timeout < clock w' - clock w
              <= seconds timeout + seconds 20
           /\ count_event (daemon_event E target) (trace w')
              = (count_event (daemon_event E target) (trace w)
                 + (Z.to_nat (timeout / 20) + 1))%nat)
  /\ (forall L end_time,
         latency_at_most E L ->
         answers E sanity_event sanity_warned ->
         clock w < end_time ->
         end_time - clock w <= seconds 10 * (Z.of_nat fuel - 1) ->
         exists w' n,
           run_pool_sanity_check_poll E fuel end_time false w = (Ok false, w')
           /\ end_time <= clock w' < end_time + seconds 10 + L
           /\ count_event sanity_event (trace w')
              = (count_event sanity_event (trace w) + n)%nat
           /\ (Z.of_nat n - 1) * seconds 10 < end_time - clock w
              <= Z.of_nat n * (seconds 10 + L))
  /\ (forall L end_time locals,
         latency_at_most E L ->
         answers E report_event reweight_pending ->
         clock w < end_time ->
         end_time - clock w <= seconds 60 * (Z.of_nat fuel - 1) ->
         exists locals' w' n,
           verify_reweight_poll E fuel end_time locals w = (Ok locals', w')
           /\ flag locals' = Some false
           /\ end_time <= clock w' < end_time + seconds 60 + L
           /\ count_event report_event (trace w')
              = (count_event report_event (trace w) + n)%nat
           /\ (Z.of_nat n - 1) * seconds 60 < end_time - clock w
              <= Z.of_nat n * (seconds 60 + L))
  /\ (forall L action target timeout_time os sd,
         latency_at_most E L ->
         answers E (daemon_event E target) (state_not_reached action) ->
         clock w <= timeout_time ->
         timeout_time - clock w < seconds 20 * (Z.of_nat fuel - 1) ->
         exists r w' n,
           change_osd_state_poll E fuel action target timeout_time os sd w
           = (Ok r, w')
           /\ timeout_time < clock w' <= timeout_time + seconds 20 + L
           /\ count_event (daemon_event E target) (trace w')
              = (count_event (daemon_event E target) (trace w) + n)%nat
           /\ (Z.of_nat n - 1) * seconds 20 <= timeout_time - clock w
              < Z.of_nat n * (seconds 20 + L)).
Proof.
  split; [| split; [| split; [| split; [| split]]]].
  - intros Hinst Hnr Hsanity Hfuel.
    eexists. split; [| split].
    + apply run_pool_sanity_check_times_out; assumption.
    + unfold sanity_start. cbv zeta. cbn [clock].
      rewrite !clock_advance_instant by assumption. unfold seconds. lia.
    + cbn [trace]. rewrite count_event_app.
      rewrite (count_timeout_trace sanity_event 10 60 eq_refl).
      cbn [count_event].
      change (event_eqb sanity_event (Sleep 10)) with false.
      change (event_eqb sanity_event deep_scrub_event) with false.
      change (event_eqb sanity_event scrub_event) with false.
      cbv iota. lia.
  - intros affected_osds osd_info Hinst Hnr Hreport Hfuel.
    destruct (verify_reweight_times_out E fuel affected_osds osd_info w
                Hinst Hnr Hreport Hfuel) as (w' & Hrun & Hclock & Hcount).
    exists w'. split; [exact Hrun |]. split; [| exact Hcount].
    rewrite Hclock. unfold seconds. lia.
  - intros action target timeout os sd Hinst Hdaemon Htimeout Hfuel.
    pose proof (Z.div_mod timeout 20 ltac:(lia)) as Hdiv.
    pose proof (Z.mod_pos_bound timeout 20 ltac:(lia)) as Hmod.
    pose proof (Z.div_pos timeout 20 Htimeout ltac:(lia)) as Hq.
    destruct (change_osd_state_poll_times_out E action target
                (clock w + seconds timeout) Hinst Hdaemon
                (Z.to_nat (timeout / 20) + 1) fuel w os sd) as [r Hrun].
    + lia.
    + intros _. unfold seconds. lia.
    + exact Hfuel.
    + exists r. eexists. split; [exact Hrun |]. split.
      * cbn [clock]. unfold seconds. lia.
      * cbn [trace]. rewrite count_event_app.
        rewrite count_timeout_trace by reflexivity. lia.
  - intros L end_time HL Hans Hlt Hbound.
    exact (run_pool_sanity_check_poll_bounded E L end_time HL Hans fuel w
             Hlt Hbound).
  - intros L end_time locals HL Hans Hlt Hbound.
    exact (verify_reweight_poll_bounded E L end_time HL Hans fuel w locals
             Hlt Hbound).
  - intros L action target timeout_time os sd HL Hans Hle Hbound.
    exact (change_osd_state_poll_bounded E L action target timeout_time HL Hans
             fuel w os sd Hle Hbound).
Qed.



Lemma scripted_cluster_never_raises (s : script) :
  script_ok s = true ->
  forall h ev, exists out, result (scripted_cluster s h ev) = inr out.
Proof.
  intros Hok h ev. unfold scripted_cluster.
  destruct (script_find ev s) as [[outs last] |] eqn:Hfind;
    [| exists EmptyString; reflexivity].
  assert (Hentry : forallb is_inr outs && is_inr last = true).
  { clear h. induction s as [| [e a] s IH]; [discriminate |].
    cbn in Hok, Hfind. apply andb_true_iff in Hok as [Ha Hs].
    destruct (event_eqb ev e).
    - injection Hfind as ->. exact Ha.
    - apply IH; assumption. }
  apply andb_true_iff in Hentry as [Houts Hlast].
  cbn [result].
  destruct (nth_in_or_default (count_event ev h) outs last) as [Hin | ->].
  - rewrite forallb_forall in Houts. specialize (Houts _ Hin).
    destruct (nth (count_event ev h) outs last) as [e | out];
      [discriminate | now exists out].
  - destruct last as [e | out]; [discriminate | now exists out].
Qed.

Lemma scripted_env_instant (s : script) : instant (scripted_env s).
Proof.
  intros h ev. cbn [cluster scripted_env]. unfold scripted_cluster.
  destruct (script_find ev s) as [[outs last] |]; reflexivity.
Qed.

Lemma scripted_env_answers (s : script) ev out doc (P : pyval -> Prop) :
  script_find ev s = Some ([], inr out) ->
  isspace out = false ->
  PyJson.loads out = Ok doc ->
  P doc ->
  answers (scripted_env s) ev P.
Proof.
  intros Hfind Hsp Hdoc HP h. exists out, doc.
  cbn [cluster scripted_env].
  rewrite (scripted_cluster_constant s ev (inr out) h Hfind).
  repeat split; assumption.
Qed.

Lemma degraded_doc_pending : reweight_pending degraded_doc.
Proof.
  split; [vm_compute; reflexivity |].
  do 3 eexists. repeat split; vm_compute; reflexivity.
Qed.

Lemma degraded_doc_warned : sanity_warned degraded_doc.
Proof. do 3 eexists. repeat split; vm_compute; reflexivity. Qed.

Lemma running_doc_still_running : still_running (decoded running_json).
Proof. do 3 eexists. repeat split; vm_compute; reflexivity. Qed.

Lemma slow_env_answers ev out doc (P : pyval -> Prop) :
  script_find ev stuck_script = Some ([], inr out) ->
  isspace out = false ->
  PyJson.loads out = Ok doc ->
  P doc ->
  answers slow_env ev P.
Proof.
  intros Hfind Hsp Hdoc HP h. exists out, doc.
  cbn [cluster slow_env result].
  rewrite (scripted_cluster_constant stuck_script ev (inr out) h Hfind).
  repeat split; assumption.
Qed.

Lemma slow_env_latency : latency_at_most slow_env 7000000.
Proof. intros h ev. cbn. lia. Qed.

Lemma stuck_env_never_raises : never_raises stuck_env.
Proof. intros h ev. apply (scripted_cluster_never_raises stuck_script eq_refl). Qed.


Lemma stopped_doc_not_started :
  state_not_reached "start" (decoded stopped_json).
Proof. do 3 eexists. repeat split; vm_compute; reflexivity. Qed.

Lemma deadline_polls_time_out_witness :
  fst (run_pool_sanity_check stuck_env 61 w0) = Ok (PBool false)
  /\ fst (verify_reweight stuck_env 61 [] [] w0) = Ok (PBool false)
  /\ (exists r w',
         change_osd_state_poll stuck_env 61 "stop" (PInt 1)
           (clock w0 + seconds 180) (PInt 1) (PStr "running") w0 = (Ok r, w')
         /\ clock w' - clock w0 = seconds 200)
  /\ (exists r w',
         change_osd_state_poll stopped_env 61 "start" (PInt 1)
           (clock w0 + seconds 180) (PInt 0) (PStr "stopped") w0 = (Ok r, w')
         /\ clock w' - clock w0 = seconds 200)
  /\ (exists w' n,
         run_pool_sanity_check_poll slow_env 61 (clock w0 + seconds 600)
           false w0 = (Ok false, w')
         /\ clock w0 + seconds 600 <= clock w'
            < clock w0 + seconds 600 + seconds 10 + 7000000
         /\ (Z.of_nat n - 1) * seconds 10 < seconds 600
            <= Z.of_nat n * (seconds 10 + 7000000))
  /\ (exists locals' w' n,
         verify_reweight_poll slow_env 61 (clock w0 + seconds 1200)
           (mkLocals None None) w0 = (Ok locals', w')
         /\ flag locals' = Some false
         /\ clock w0 + seconds 1200 <= clock w'
            < clock w0 + seconds 1200 + seconds 60 + 7000000
         /\ (Z.of_nat n - 1) * seconds 60 < seconds 1200
            <= Z.of_nat n * (seconds 60 + 7000000))
  /\ (exists r w' n,
         change_osd_state_poll slow_env 61 "stop" (PInt 1)
           (clock w0 + seconds 180) (PInt 1) (PStr "running") w0 = (Ok r, w')
         /\ clock w0 + seconds 180 < clock w'
            <= clock w0 + seconds 180 + seconds 20 + 7000000
         /\ (Z.of_nat n - 1) * seconds 20 <= seconds 180
            < Z.of_nat n * (seconds 20 + 7000000)).
Proof.
  destruct (deadline_polls_time_out stuck_env 61 w0)
    as (Hsanity & Hreweight & Hosd & _).
  destruct (deadline_polls_time_out stopped_env 61 w0)
    as (_ & _ & Hstart & _).
  destruct (deadline_polls_time_out slow_env 61 w0)
    as (_ & _ & _ & Hslow & Hslow_reweight & Hslow_osd).
  destruct Hsanity as (w1 & Hrun1 & _).
  { apply scripted_env_instant. }
  { exact stuck_env_never_raises. }
  { apply (scripted_env_answers stuck_script sanity_event degraded_report
             degraded_doc);
      [reflexivity | reflexivity | vm_compute; reflexivity
      | exact degraded_doc_warned]. }
  { lia. }
  destruct (Hreweight [] []) as (w2 & Hrun2 & _).
  { apply scripted_env_instant. }
  { exact stuck_env_never_raises. }
  { apply (scripted_env_answers stuck_script report_event degraded_report
             degraded_doc);
      [reflexivity | reflexivity | vm_compute; reflexivity
      | exact degraded_doc_pending]. }
  { lia. }
  destruct (Hosd "stop" (PInt 1) 180 (PInt 1) (PStr "running"))
    as (r & w3 & Hrun3 & _).
  { apply scripted_env_instant. }
  { apply (scripted_env_answers stuck_script _ running_json
             (decoded running_json));
      [reflexivity | reflexivity | vm_compute; reflexivity
      | exact (still_running_not_reached _ running_doc_still_running)]. }
  { lia. }
  { vm_compute. lia. }
  destruct (Hstart "start" (PInt 1) 180 (PInt 0) (PStr "stopped"))
    as (r' & w3' & Hrun3' & _).
  { apply scripted_env_instant. }
  { apply (scripted_env_answers stopped_script _ stopped_json
             (decoded stopped_json));
      [reflexivity | reflexivity | vm_compute; reflexivity
      | exact stopped_doc_not_started]. }
  { lia. }
  { vm_compute. lia. }
  destruct (Hslow 7000000 (clock w0 + seconds 600))
    as (w4 & n & Hrun4 & Hclock4 & _ & Hn4).
  { exact slow_env_latency. }
  { apply (slow_env_answers sanity_event degraded_report degraded_doc);
      [reflexivity | reflexivity | vm_compute; reflexivity
      | exact degraded_doc_warned]. }
  { cbn. lia. }
  { cbn. lia. }
  destruct (Hslow_reweight 7000000 (clock w0 + seconds 1200)
              (mkLocals None None))
    as (locals5 & w5 & n5 & Hrun5 & Hflag5 & Hclock5 & _ & Hn5).
  { exact slow_env_latency. }
  { apply (slow_env_answers report_event degraded_report degraded_doc);
      [reflexivity | reflexivity | vm_compute; reflexivity
      | exact degraded_doc_pending]. }
  { cbn. lia. }
  { cbn. lia. }
  destruct (Hslow_osd 7000000 "stop" (PInt 1) (clock w0 + seconds 180)
              (PInt 1) (PStr "running"))
    as (r6 & w6 & n6 & Hrun6 & Hclock6 & _ & Hn6).
  { exact slow_env_latency. }
  { apply (slow_env_answers _ running_json (decoded running_json));
      [reflexivity | reflexivity | vm_compute; reflexivity
      | exact (still_running_not_reached _ running_doc_still_running)]. }
  { cbn. lia. }
  { cbn. lia. }
  rewrite Hrun1, Hrun2.
  split; [reflexivity |]. split; [reflexivity |].
  split; [| split; [| split; [| split]]].
  - exists r, w3. split; [exact Hrun3 |].
    vm_compute in Hrun3. injection Hrun3 as _ <-. reflexivity.
  - exists r', w3'. split; [exact Hrun3' |].
    vm_compute in Hrun3'. injection Hrun3' as _ <-. reflexivity.
  - exists w4, n. split; [exact Hrun4 |]. split; [exact Hclock4 |].
    replace (seconds 600) with (clock w0 + seconds 600 - clock w0) at 2 3
      by (cbn; lia).
    exact Hn4.
  - exists locals5, w5, n5. split; [exact Hrun5 |]. split; [exact Hflag5 |].
    split; [exact Hclock5 |].
    replace (seconds 1200) with (clock w0 + seconds 1200 - clock w0) at 2 3
      by (cbn; lia).
    exact Hn5.
  - exists r6, w6, n6. split; [exact Hrun6 |]. split; [exact Hclock6 |].
    replace (seconds 180) with (clock w0 + seconds 180 - clock w0) at 2 3
      by (cbn; lia).
    exact Hn6.
Defined.

Lemma offline_env_never_raises : never_raises offline_env.
Proof.
  intros h ev.
  apply (scripted_cluster_never_raises
           [(host_ls_event "node1", ([], inr (host_json "Offline")))] eq_refl).
Qed.

Lemma offline_env_answers :
  host_answers offline_env "node1" (fun doc => host_verdict doc = Ok false).
Proof.
  intros h. exists (host_json "Offline"), (decoded (host_json "Offline")).
  split; [| split].
  - cbn [cluster offline_env scripted_env].
    erewrite (scripted_cluster_constant _ _ _ h) by (vm_compute; reflexivity).
    reflexivity.
  - vm_compute. reflexivity.
  - vm_compute. reflexivity.
Qed.


(* ================================================================ *)
(** * Further properties of the pool, host and OSD methods            *)
(* ================================================================ *)

(** ** list_pools and set_pool_property *)

Lemma run_ceph_command_answers (E : env) cmd timeout client_exec
  (P : pyval -> Prop) w :
  answers E (fetch_event cmd timeout client_exec) P ->
  exists doc,
    run_ceph_command E cmd timeout client_exec w
    = (Ok doc, advance E (fetch_event cmd timeout client_exec) w)
    /\ P doc.
Proof.
  intros Hans. destruct (Hans (trace w)) as (out & doc & Hout & Hdec & HP).
  exists doc. split; [| exact HP].
  apply (run_ceph_command_ok E _ _ _ w out doc Hout Hdec).
Qed.

Lemma list_pools_ok (E : env) names w :
  answers E df_event (pool_listing names) ->
  list_pools E w = (Ok names, advance E df_event w).
Proof.
  intros Hans.
  destruct (run_ceph_command_answers E _ _ _ _ w Hans)
    as (doc & Hrun & p & Hp & Hcol).
  unfold list_pools. rewrite (bind_ok _ _ w _ _ Hrun).
  apply lift_ok. rewrite Hp. exact Hcol.
Qed.

(** X1.  When the transport fails, [list_pools] raises [TypeError]: the
    [None] that [run_ceph_command] returns is subscripted.  The exception
    of the transport does not reach the caller. *)
Theorem list_pools_transport_failure (E : env) w e :
  result (cluster E (trace w) df_event) = inl e ->
  list_pools E w = (Raise TypeError, advance E df_event w).
Proof.
  intros Hfail. unfold list_pools.
  assert (Hrun : run_ceph_command E "ceph df" default_timeout false w
                 = (Ok PNone, advance E df_event w)).
  { rewrite run_ceph_command_eq. fold df_event. rewrite Hfail. reflexivity. }
  rewrite (bind_ok _ _ w _ _ Hrun). reflexivity.
Qed.

Lemma list_pools_transport_failure_witness :
  list_pools df_down_env w0 = (Raise TypeError, advance df_down_env df_event w0).
Proof.
  apply (list_pools_transport_failure df_down_env w0
           (CommandFailed "ssh: connect to host failed")).
  reflexivity.
Defined.

(** The unlisted pool: [False] after the listing alone. *)
Lemma set_pool_property_unlisted (E : env) pool props value names w :
  answers E df_event (pool_listing names) ->
  member E pool names = false ->
  set_pool_property E pool props value w
  = (Ok (PBool false), advance E df_event w).
Proof.
  intros Hans Hmem. unfold set_pool_property.
  rewrite (bind_ok _ _ w _ _ (list_pools_ok E names w Hans)), Hmem.
  reflexivity.
Qed.

(** X2.  On a cluster whose commands do not fail, [set_pool_property]
    returns whether the pool is among those [ceph df] lists.  For a listed
    pool it sends the [ceph osd pool set] command and sleeps two seconds;
    for an unlisted pool it does neither. *)
Theorem set_pool_property_spec (E : env) pool props value names w :
  never_raises E ->
  answers E df_event (pool_listing names) ->
  exists w',
    set_pool_property E pool props value w
    = (Ok (PBool (member E pool names)), w')
    /\ trace w'
       = ((if member E pool names
           then [Sleep 2; pool_set_event E pool props value]
           else []) ++ df_event :: trace w)%list.
Proof.
  intros Hnr Hans. unfold set_pool_property.
  rewrite (bind_ok _ _ w _ _ (list_pools_ok E names w Hans)).
  destruct (member E pool names); cbn [negb].
  - destruct (shell_ok E ("ceph osd pool set " ++ fmt E pool ++ " " ++ props
                          ++ " " ++ fmt E value) None
                (advance E df_event w) Hnr) as [out Hout].
    rewrite (bind_ok _ _ _ _ _ Hout).
    eexists. split; [reflexivity |]. reflexivity.
  - eexists. split; reflexivity.
Qed.

Lemma two_pools_env_lists :
  answers two_pools_env df_event (pool_listing [PStr "rbd"; PStr "cephfs_data"]).
Proof.
  apply (scripted_env_answers _ df_event pool_list_json (decoded pool_list_json));
    [reflexivity | vm_compute; reflexivity | vm_compute; reflexivity |].
  eexists. split; vm_compute; reflexivity.
Qed.

Lemma two_pools_env_never_raises : never_raises two_pools_env.
Proof.
  intros h ev.
  apply (scripted_cluster_never_raises [(df_event, ([], inr pool_list_json))]
           eq_refl).
Qed.

Lemma set_pool_property_spec_witness :
  exists w',
    set_pool_property two_pools_env (PStr "scratch") "size" (PInt 3) w0
    = (Ok (PBool (member two_pools_env (PStr "scratch")
                    [PStr "rbd"; PStr "cephfs_data"])), w')
    /\ trace w'
       = ((if member two_pools_env (PStr "scratch")
                [PStr "rbd"; PStr "cephfs_data"]
           then [Sleep 2;
                 pool_set_event two_pools_env (PStr "scratch") "size" (PInt 3)]
           else []) ++ df_event :: trace w0)%list.
Proof.
  apply (set_pool_property_spec two_pools_env (PStr "scratch") "size" (PInt 3)
           [PStr "rbd"; PStr "cephfs_data"] w0).
  - exact two_pools_env_never_raises.
  - exact two_pools_env_lists.
Defined.

(** The unlisted pool on the scripted cluster: [False] after the listing
    alone. *)
Example set_pool_property_unlisted_run :
  set_pool_property two_pools_env (PStr "scratch") "size" (PInt 3) w0
  = (Ok (PBool false), mkWorld 0 [df_event]).
Proof. vm_compute. reflexivity. Qed.

(** ** The methods that wrap their commands in [try] *)

(** X3.  [enable_file_logging] never raises: it returns [True] when both
    of its commands succeed and [False] otherwise; when the first command
    fails the second is not sent. *)
Theorem enable_file_logging_never_raises (E : env) w :
  let r1 := cluster E (trace w) log_to_file_event in
  let w1 := advance E log_to_file_event w in
  let r2 := cluster E (trace w1) mon_log_to_file_event in
  enable_file_logging E w
  = (Ok (PBool (succeeded r1 && succeeded r2)),
     if succeeded r1 then advance E mon_log_to_file_event w1 else w1).
Proof.
  cbv zeta. unfold enable_file_logging, succeeded, bind, attempt, shell,
    transport, ret.
  fold log_to_file_event. unfold advance at 1 2 3 4.
  destruct (result (cluster E (trace w) log_to_file_event)) as [e | out];
    cbn; [reflexivity |].
  fold mon_log_to_file_event.
  destruct (result (cluster E (log_to_file_event :: trace w)
                      mon_log_to_file_event)) as [e | out2];
    reflexivity.
Qed.

(** X4.  [check_file_exists_on_client] never raises: it returns [True]
    when the [ls] command succeeds and prints something, and [False] when
    the command fails or prints nothing. *)
Theorem check_file_exists_on_client_never_raises (E : env) loc w :
  check_file_exists_on_client E loc w
  = (Ok (PBool (match result (cluster E (trace w) (ls_event E loc)) with
                | inr out => negb (String.eqb out EmptyString)
                | inl _ => false
                end)),
     advance E (ls_event E loc) w).
Proof.
  unfold check_file_exists_on_client, bind, attempt, exec_command, transport,
    ret, advance.
  fold (ls_event E loc).
  destruct (result (cluster E (trace w) (ls_event E loc))) as [e | out];
    cbn; [reflexivity |].
  destruct (String.eqb out EmptyString); reflexivity.
Qed.

(** X5.  [bench_read] never raises: it returns [True] when both of its
    benchmark commands succeed and [False] otherwise; when the sequential
    read fails the random read is not sent. *)
Theorem bench_read_never_raises (E : env) pool_name kwargs w :
  let seq := bench_event E pool_name kwargs "seq" in
  let rand := bench_event E pool_name kwargs "rand" in
  let r1 := cluster E (trace w) seq in
  let w1 := advance E seq w in
  let r2 := cluster E (trace w1) rand in
  bench_read E pool_name kwargs w
  = (Ok (PBool (succeeded r1 && succeeded r2)),
     if succeeded r1 then advance E rand w1 else w1).
Proof.
  cbv zeta.
  unfold bench_read, bench_event, succeeded, bind, attempt, shell, transport,
    ret, advance.
  change (" " ++ "seq") with " seq". change (" " ++ "rand") with " rand".
  match goal with
  | |- context [result ?r] => destruct (result r) as [e | out]
  end; cbn beta iota delta [is_inr andb trace clock]; [reflexivity |].
  match goal with
  | |- context [result ?r] => destruct (result r) as [e | out2]
  end; reflexivity.
Qed.

(** ** get_cephdf_stats, get_ceph_pg_dump, get_pg_acting_set *)

Lemma find_pool_stat_find pool entries :
  forallb is_dict entries = true ->
  find_pool_stat pool entries
  = match find (named pool) entries with
    | Some v => Ok v
    | None => Raise KeyError
    end.
Proof.
  induction entries as [| v entries IH]; intros Hd; [reflexivity |].
  cbn [forallb] in Hd. apply andb_true_iff in Hd as [Hv Hd].
  destruct v as [| | | | | | d]; try discriminate.
  cbn [find_pool_stat dict_get res_bind find named].
  destruct (lookup "name" d) as [n |].
  - destruct (eq_str n pool); [reflexivity | apply IH, Hd].
  - cbn [eq_str]. apply IH, Hd.
Qed.

(** X6.  For a pool name that is not empty and a [ceph df] document that
    lists objects under ["pools"], or has no ["pools"] at all,
    [get_cephdf_stats] returns the statistics of the first pool of that
    name, and the empty document, not an exception, when no pool has the
    name or nothing is listed. *)
Theorem get_cephdf_stats_pool (E : env) pool detail w d :
  pool <> EmptyString ->
  answers E (cephdf_event detail) (fun doc => doc = PDict d) ->
  lists_pool_stats d = true ->
  get_cephdf_stats E (Some pool) detail w
  = (Ok (pool_stat_of pool d), advance E (cephdf_event detail) w).
Proof.
  intros Hpool Hans Hwf.
  destruct (run_ceph_command_answers E _ _ _ _ w Hans) as (doc & Hrun & ->).
  unfold get_cephdf_stats. fold (cephdf_event detail) in Hrun |- *.
  rewrite (bind_ok _ _ w _ _ Hrun).
  assert (Hgiven : str_given (Some pool) = true).
  { cbn. apply negb_true_iff, String.eqb_neq, Hpool. }
  rewrite Hgiven. cbn [str_arg].
  apply lift_ok.
  unfold lists_pool_stats in Hwf. unfold pool_stat_of.
  cbn [getitem].
  destruct (lookup "pools" d) as [p |]; [| reflexivity].
  destruct p as [| | | | | entries |]; try discriminate.
  cbn [res_bind iter].
  rewrite (find_pool_stat_find pool entries Hwf).
  destruct (find (named pool) entries); reflexivity.
Qed.

Lemma get_cephdf_stats_pool_witness :
  get_cephdf_stats df_stats_env (Some "scratch") false w0
  = (Ok (pool_stat_of "scratch" df_stats_doc),
     advance df_stats_env (cephdf_event false) w0).
Proof.
  apply (get_cephdf_stats_pool df_stats_env "scratch" false w0 df_stats_doc).
  - discriminate.
  - apply (scripted_env_answers _ (cephdf_event false) df_stats_json
             (PDict df_stats_doc));
      [reflexivity | | | reflexivity]; vm_compute; reflexivity.
  - vm_compute. reflexivity.
Defined.

(** The pool that [ceph df] does not list: the empty document. *)
Example get_cephdf_stats_unlisted_run :
  fst (get_cephdf_stats df_stats_env (Some "scratch") false w0) = Ok (PDict []).
Proof. vm_compute. reflexivity. Qed.

Lemma find_pg_stat_find pg_id entries :
  Forall (fun v => exists id, getitem v "pgid" = Ok id) entries ->
  find_pg_stat pg_id entries
  = match find (has_pgid pg_id) entries with
    | Some v => Ok v
    | None => Raise KeyError
    end.
Proof.
  induction 1 as [| v entries [id Hid] _ IH]; [reflexivity |].
  cbn [find_pg_stat find]. unfold has_pgid at 1. rewrite Hid.
  cbn [res_bind]. destruct (eq_str id pg_id); [reflexivity | exact IH].
Qed.

(** X7.  On a decoded PG dump [get_ceph_pg_dump] returns the first record
    that carries the PG id, and raises [KeyError] when no record carries
    it. *)
Theorem get_ceph_pg_dump_spec (E : env) pg_id w out doc entries :
  result (cluster E (trace w) pg_dump_event) = inr out ->
  decodes E out doc ->
  pg_dump_lists entries doc ->
  get_ceph_pg_dump E pg_id w
  = (match find (has_pgid pg_id) entries with
     | Some v => Ok v
     | None => Raise KeyError
     end,
     advance E pg_dump_event w).
Proof.
  intros Hout [Hsp Hdoc] (m & Hm & Hstats & Hids).
  unfold get_ceph_pg_dump, exec_command. fold pg_dump_event.
  rewrite (bind_ok _ _ w _ _ (transport_ok E _ w out Hout)), Hsp.
  rewrite (bind_ok _ _ _ _ _ (lift_ok _ _ _ Hdoc)).
  unfold lift. rewrite Hm. cbn [res_bind]. rewrite Hstats. cbn [res_bind iter].
  rewrite (find_pg_stat_find pg_id entries Hids). reflexivity.
Qed.

Lemma get_ceph_pg_dump_spec_witness :
  get_ceph_pg_dump pg_dump_json_env "7.1" w0
  = (match find (has_pgid "7.1") pg_dump_entries with
     | Some v => Ok v
     | None => Raise KeyError
     end,
     advance pg_dump_json_env pg_dump_event w0).
Proof.
  apply (get_ceph_pg_dump_spec pg_dump_json_env "7.1" w0 pg_dump_json
           (decoded pg_dump_json) pg_dump_entries).
  - reflexivity.
  - split; vm_compute; reflexivity.
  - eexists. split; [vm_compute; reflexivity |].
    split; [vm_compute; reflexivity |].
    repeat constructor; eexists; vm_compute; reflexivity.
Defined.

(** The PG that the dump does not list: [KeyError]. *)
Example get_ceph_pg_dump_unlisted_run :
  fst (get_ceph_pg_dump pg_dump_json_env "7.1" w0) = Raise KeyError.
Proof. vm_compute. reflexivity. Qed.

Lemma find_pool_id_absent (E : env) pool entries names :
  Forall2 pool_named entries names ->
  ~ In pool names ->
  find_pool_id E (PStr pool) entries = Ok None.
Proof.
  induction 1 as [| v n entries names (d & -> & Hn) _ IH]; intros Hnot;
    [reflexivity |].
  cbn [find_pool_id getitem]. rewrite Hn. cbn [res_bind equal].
  destruct (String.eqb n pool) eqn:Heq.
  - apply String.eqb_eq in Heq. exfalso. apply Hnot. left. exact Heq.
  - apply IH. intros Hin. apply Hnot. right. exact Hin.
Qed.

(** X8.  When [get_pg_acting_set] is given a pool name that the OSD dump
    does not list, its [pool_id] is never bound and the method raises
    [UnboundLocalError]; it has fetched the dump only. *)
Theorem get_pg_acting_set_unknown_pool (E : env) kwargs pool w entries names :
  kwargs_get kwargs "pool_name" = PStr pool ->
  pool <> EmptyString ->
  answers E osd_dump_event (fun doc => getitem doc "pools" = Ok (PList entries)) ->
  Forall2 pool_named entries names ->
  ~ In pool names ->
  get_pg_acting_set E kwargs w
  = (Raise (UnboundLocalError "pool_id"), advance E osd_dump_event w).
Proof.
  intros Hkw Hpool Hans Hnamed Hnot.
  destruct (run_ceph_command_answers E _ _ _ _ w Hans) as (doc & Hrun & Hpools).
  unfold get_pg_acting_set. rewrite Hkw. cbn [truthy].
  assert (Hne : negb (String.eqb pool EmptyString) = true)
    by (apply negb_true_iff, String.eqb_neq, Hpool).
  rewrite Hne.
  apply bind_raise.
  rewrite (bind_ok _ _ w _ _ Hrun).
  assert (Hfind : (let! p := getitem doc "pools" in
                   let! l := iter p in
                   find_pool_id E (PStr pool) l) = Ok None).
  { rewrite Hpools. cbn [res_bind iter].
    apply (find_pool_id_absent E pool entries names Hnamed Hnot). }
  rewrite (bind_ok _ _ _ _ _ (lift_ok _ _ _ Hfind)).
  reflexivity.
Qed.

Lemma get_pg_acting_set_unknown_pool_witness :
  get_pg_acting_set osd_dump_env [("pool_name", PStr "scratch")] w0
  = (Raise (UnboundLocalError "pool_id"),
     advance osd_dump_env osd_dump_event w0).
Proof.
  apply (get_pg_acting_set_unknown_pool osd_dump_env
           [("pool_name", PStr "scratch")] "scratch" w0
           osd_dump_entries ["rbd"; "cephfs_data"]).
  - reflexivity.
  - discriminate.
  - apply (scripted_env_answers _ osd_dump_event osd_dump_json
             (decoded osd_dump_json));
      [reflexivity | | | ]; vm_compute; reflexivity.
  - repeat constructor; eexists; split; vm_compute; reflexivity.
  - cbn. intros [H | [H | []]]; discriminate.
Defined.

(** ** The utilization check of verify_reweight *)

Lemma utilization_higher_spec (E : env) osd_end e inits before :
  osd_usage osd_end e ->
  Forall2 osd_usage inits before ->
  utilization_higher E osd_end inits
  = Ok (existsb (fun i => (fst i =? fst e) && (snd i >? snd e)) before).
Proof.
  intros (de & -> & Hide & Hkbe).
  induction 1 as [| v i inits before (di & -> & Hidi & Hkbi) _ IH];
    [reflexivity |].
  cbn [utilization_higher getitem existsb].
  rewrite Hidi, Hide. cbn [res_bind py_int].
  destruct (fst i =? fst e); cbn [andb orb].
  - rewrite Hkbi, Hkbe. cbn [res_bind py_int].
    destruct (snd i >? snd e); cbn [orb]; [reflexivity | exact IH].
  - exact IH.
Qed.

(** X9.  The last step of [verify_reweight] compares the OSD listing taken
    before the re-weight with the one taken after it: it answers [False]
    exactly when some OSD is listed afterwards with fewer KB in use than
    before, and [True] otherwise. *)
Theorem check_utilization_spec (E : env) ends after inits before :
  Forall2 osd_usage ends after ->
  Forall2 osd_usage inits before ->
  check_utilization E ends inits = Ok (PBool (negb (usage_dropped before after))).
Proof.
  intros Hends Hinits. unfold usage_dropped.
  induction Hends as [| v e ends after Hv _ IH]; [reflexivity |].
  cbn [check_utilization existsb].
  rewrite (utilization_higher_spec E v e inits before Hv Hinits).
  cbn [res_bind].
  destruct (existsb _ before); cbn [orb negb]; [reflexivity | exact IH].
Qed.

Lemma check_utilization_spec_witness :
  check_utilization silent_env
    [PDict [("id", PInt 3); ("kb_used", PInt 100)]]
    [PDict [("id", PInt 3); ("kb_used", PInt 250)]]
  = Ok (PBool (negb (usage_dropped [(3, 250)] [(3, 100)]))).
Proof.
  apply (check_utilization_spec silent_env _ [(3, 100)] _ [(3, 250)]).
  - repeat constructor. eexists. repeat split.
  - repeat constructor. eexists. repeat split.
Defined.

(** ** enable_configuration_checks and disable_configuration_checks *)

Lemma forallb_pointwise {A} (f g : A -> bool) (l : list A) :
  (forall x, f x = g x) -> forallb f l = forallb g l.
Proof.
  intros Hfg. induction l as [| x l IH]; [reflexivity |].
  cbn [forallb]. rewrite Hfg, IH. reflexivity.
Qed.

Lemma changed_checks_status (E : env) names want entries records :
  Forall2 check_record entries records ->
  (let! changed := changed_checks E (PList entries) (PList (map PStr names)) in
   checks_have_status want changed)
  = Ok (PBool (forallb (fun r => implb (selected names r)
                                   (Bool.eqb (is_enabled r) want))
                       records)).
Proof.
  unfold changed_checks. cbn [iter res_bind].
  induction 1 as [| v r entries records (d & -> & Hname & Hstatus) _ IH];
    [reflexivity |].
  cbn [filter_res getitem forallb]. rewrite Hname. cbn [res_bind py_in].
  assert (Hsel : member E (PStr (fst r)) (map PStr names) = selected names r).
  { unfold member, selected. clear. induction names as [| n names IH];
      [reflexivity |].
    cbn [map existsb equal]. rewrite IH. reflexivity. }
  rewrite Hsel.
  destruct (filter_res _ entries) as [changed | e |] eqn:Hfilter;
    cbn [res_bind] in IH |- *; try discriminate.
  destruct (selected names r); cbn [implb andb].
  - cbn [checks_have_status getitem]. rewrite Hstatus. cbn [res_bind eq_str].
    unfold is_enabled.
    destruct (Bool.eqb (String.eqb (snd r) "enabled") want);
      [exact IH | reflexivity].
  - exact IH.
Qed.

(** X10.  On a cluster whose commands do not fail,
    [enable_configuration_checks] returns [True] exactly when every check
    that the listing shows under one of the given names has the status
    [enabled], and [disable_configuration_checks] exactly when none of them
    has it.  A given name that the listing does not show is ignored. *)
Theorem configuration_checks_spec (E : env) names w entries records :
  never_raises E ->
  answers E config_check_ls_event (fun doc => doc = PList entries) ->
  Forall2 check_record entries records ->
  (exists w',
     enable_configuration_checks E (PList (map PStr names)) w
     = (Ok (PBool (forallb (fun r => implb (selected names r) (is_enabled r))
                           records)), w'))
  /\ (exists w',
        disable_configuration_checks E (PList (map PStr names)) w
        = (Ok (PBool (forallb (fun r => implb (selected names r)
                                          (negb (is_enabled r)))
                              records)), w')).
Proof.
  intros Hnr Hans Hrec.
  split.
  - unfold enable_configuration_checks.
    rewrite (bind_ok _ _ w _ _
               (lift_ok (iter (PList (map PStr names))) _ w eq_refl)).
    destruct (for_each_shell_ok E
                (fun check => "ceph cephadm config-check enable " ++ fmt E check)
                (map PStr names) w Hnr) as (w1 & Hloop & _).
    rewrite (bind_ok _ _ w _ _ Hloop).
    destruct (run_ceph_command_answers E _ _ _ _ w1 Hans) as (doc & Hrun & ->).
    rewrite (bind_ok _ _ w1 _ _ Hrun).
    eexists. apply lift_ok.
    rewrite (changed_checks_status E names true entries records Hrec).
    do 2 f_equal. apply forallb_pointwise. intros r.
    destruct (is_enabled r); reflexivity.
  - unfold disable_configuration_checks.
    rewrite (bind_ok _ _ w _ _
               (lift_ok (iter (PList (map PStr names))) _ w eq_refl)).
    destruct (for_each_shell_ok E
                (fun check => "ceph cephadm config-check disable " ++ fmt E check)
                (map PStr names) w Hnr) as (w1 & Hloop & _).
    rewrite (bind_ok _ _ w _ _ Hloop).
    destruct (run_ceph_command_answers E _ _ _ _ w1 Hans) as (doc & Hrun & ->).
    rewrite (bind_ok _ _ w1 _ _ Hrun).
    eexists. apply lift_ok.
    rewrite (changed_checks_status E names false entries records Hrec).
    reflexivity.
Qed.

Lemma configuration_checks_spec_witness :
  (exists w',
     enable_configuration_checks config_check_env
       (PList (map PStr ["kernel_security"; "ceph_release"])) w0
     = (Ok (PBool (forallb (fun r => implb (selected ["kernel_security";
                                                      "ceph_release"] r)
                                       (is_enabled r))
                           [("kernel_security", "enabled");
                            ("osd_mtu_size", "disabled")])), w'))
  /\ (exists w',
        disable_configuration_checks config_check_env
          (PList (map PStr ["kernel_security"; "ceph_release"])) w0
        = (Ok (PBool (forallb (fun r => implb (selected ["kernel_security";
                                                         "ceph_release"] r)
                                          (negb (is_enabled r)))
                              [("kernel_security", "enabled");
                               ("osd_mtu_size", "disabled")])), w')).
Proof.
  apply (configuration_checks_spec config_check_env
           ["kernel_security"; "ceph_release"] w0 config_check_entries
           [("kernel_security", "enabled"); ("osd_mtu_size", "disabled")]).
  - intros h ev.
    apply (scripted_cluster_never_raises
             [(config_check_ls_event, ([], inr config_check_json))] eq_refl).
  - apply (scripted_env_answers _ config_check_ls_event config_check_json
             (decoded config_check_json));
      [reflexivity | | | ]; vm_compute; reflexivity.
  - repeat constructor; eexists; repeat split.
Defined.

(** ** host_maintenance_enter and host_maintenance_exit *)

Lemma check_host_status_plain (E : env) hostname w out doc b :
  result (cluster E (trace w) (host_ls_event hostname)) = inr out ->
  json_loads E out = Ok doc ->
  host_online doc = Ok b ->
  check_host_status E hostname None w
  = (Ok b, advance E (host_ls_event hostname) w).
Proof.
  intros Hres Hdoc Hverdict.
  unfold check_host_status, exec_command.
  fold (host_ls_event hostname).
  rewrite (bind_ok _ _ w _ _ (transport_ok E _ w out Hres)).
  unfold host_online in Hverdict.
  destruct (getindex doc 0) as [h | |] eqn:Hh; cbn [res_bind] in Hverdict;
    try discriminate.
  destruct (getitem h "status") as [st | |] eqn:Hst; cbn [res_bind] in Hverdict;
    try discriminate.
  destruct (lower_of st) as [hs | |] eqn:Hhs; cbn [res_bind] in Hverdict;
    try discriminate.
  assert (Hstatus : (let! doc := json_loads E out in
                     let! h := getindex doc 0 in
                     let! st := getitem h "status" in
                     lower_of st) = Ok hs).
  { rewrite Hdoc. cbn [res_bind]. rewrite Hh. cbn [res_bind].
    rewrite Hst. exact Hhs. }
  rewrite (bind_ok _ _ _ _ _ (lift_ok _ _ _ Hstatus)).
  injection Hverdict as <-.
  destruct (contains "offline" hs); reflexivity.
Qed.

(** X11.  When the host never shows as in maintenance,
    [host_maintenance_enter] with [retry >= 1] returns [False] after
    exactly [retry] rounds.  With [retry = 0] it makes one round and
    returns [None], and with a negative [retry] it returns [None] without
    sending any command. *)
Theorem host_maintenance_enter_gives_up (E : env) hostname retry fuel w :
  never_raises E ->
  host_answers E hostname (fun doc => host_verdict doc = Ok false) ->
  (Z.to_nat retry + 1 < fuel)%nat ->
  exists w',
    host_maintenance_enter E fuel hostname retry w
    = (Ok (if 1 <=? retry then PBool false else PNone), w')
    /\ trace w'
       = (failed_enter_trace hostname
            (Z.to_nat (if retry <? 0 then 0 else Z.max 1 retry))
          ++ trace w)%list.
Proof.
  intros Hnr Hans Hfuel. unfold host_maintenance_enter.
  destruct (Z.le_gt_cases 1 retry) as [Hpos | Hsmall].
  - assert (H1 : (1 <=? retry) = true) by (apply Z.leb_le; lia).
    assert (H2 : (retry <? 0) = false) by (apply Z.ltb_ge; lia).
    rewrite H1, H2.
    destruct (host_maintenance_enter_loop_gives_up E hostname retry Hnr Hans
                (Z.to_nat retry - 1) fuel 0 w ltac:(lia) ltac:(lia))
      as (w' & Hrun & Htr).
    exists w'. split; [exact Hrun |].
    rewrite Htr. do 2 f_equal. lia.
  - assert (H1 : (1 <=? retry) = false) by (apply Z.leb_gt; lia).
    rewrite H1.
    destruct (Z.eq_dec retry 0) as [-> | Hneg].
    + destruct fuel as [| [| fuel]]; try lia.
      destruct (host_maintenance_enter_round_fails E hostname 0 (S fuel) 0 w
                  Hnr Hans ltac:(lia)) as (w1 & Htr & Hrun).
      exists w1. split; [| exact Htr].
      rewrite Hrun. reflexivity.
    + assert (H2 : (retry <? 0) = true) by (apply Z.ltb_lt; lia).
      rewrite H2.
      destruct fuel as [| fuel]; [lia |].
      exists w. split; [| reflexivity].
      cbn [host_maintenance_enter_loop].
      assert (Hcond : (0 <=? retry) = false) by (apply Z.leb_gt; lia).
      rewrite Hcond. reflexivity.
Qed.

Lemma host_maintenance_enter_gives_up_witness :
  exists w',
    host_maintenance_enter offline_env 5 "node1" 3 w0
    = (Ok (if 1 <=? 3 then PBool false else PNone), w')
    /\ trace w'
       = (failed_enter_trace "node1"
            (Z.to_nat (if 3 <? 0 then 0 else Z.max 1 3))
          ++ trace w0)%list.
Proof.
  apply (host_maintenance_enter_gives_up offline_env "node1" 3 5 w0).
  - exact offline_env_never_raises.
  - exact offline_env_answers.
  - cbn. lia.
Defined.

(** With [retry = 0] on the host that stays offline: one round, then
    [None]. *)
Example host_maintenance_enter_no_retry_run :
  host_maintenance_enter offline_env 2 "node1" 0 w0
  = (Ok PNone,
     mkWorld (seconds 35)
       [Sleep 15; host_ls_event "node1"; Sleep 20; enter_event "node1"]).
Proof. vm_compute. reflexivity. Qed.

(** X12.  [host_maintenance_exit] returns [True] at its first check
    whenever the status of the host does not contain [offline], whatever
    else the status says. *)
Theorem host_maintenance_exit_first_check (E : env) hostname retry fuel w :
  never_raises E ->
  host_answers E hostname (fun doc => host_online doc = Ok true) ->
  0 <= retry ->
  (0 < fuel)%nat ->
  exists w',
    host_maintenance_exit E fuel hostname retry w = (Ok (PBool true), w')
    /\ trace w'
       = host_ls_event hostname :: Sleep 20 :: exit_event hostname :: trace w.
Proof.
  intros Hnr Hans Hretry Hfuel.
  destruct fuel as [| fuel]; [lia |].
  unfold host_maintenance_exit. cbn [host_maintenance_exit_loop].
  assert (Hcond : (0 <=? retry) = true) by (apply Z.leb_le; lia).
  rewrite Hcond.
  destruct (Hnr (trace w) (exit_event hostname)) as [o1 Ho1].
  unfold exec_command at 1. fold (exit_event hostname).
  rewrite (bind_ok _ _ w _ _ (transport_ok E _ w o1 Ho1)).
  set (w2 := mkWorld (clock (advance E (exit_event hostname) w) + seconds 20)
                     (Sleep 20 :: exit_event hostname :: trace w)).
  assert (Hsleep : sleep 20 (advance E (exit_event hostname) w) = (Ok tt, w2))
    by reflexivity.
  rewrite (bind_ok _ _ _ _ _ Hsleep).
  destruct (Hans (trace w2)) as (out & doc & Hout & Hdoc & Hverdict).
  rewrite (bind_ok _ _ _ _ _
             (check_host_status_plain E hostname w2 out doc true
                Hout Hdoc Hverdict)).
  cbn [negb]. eexists. split; reflexivity.
Qed.

Lemma host_maintenance_exit_first_check_witness :
  exists w',
    host_maintenance_exit maintenance_env 1 "node1" 3 w0 = (Ok (PBool true), w')
    /\ trace w'
       = host_ls_event "node1" :: Sleep 20 :: exit_event "node1" :: trace w0.
Proof.
  apply (host_maintenance_exit_first_check maintenance_env "node1" 3 1 w0).
  - intros h ev.
    apply (scripted_cluster_never_raises
             [(host_ls_event "node1", ([], inr (host_json "Maintenance")))]
             eq_refl).
  - intros h. exists (host_json "Maintenance"),
                     (decoded (host_json "Maintenance")).
    split; [| split].
    + cbn [cluster maintenance_env scripted_env].
      erewrite (scripted_cluster_constant _ _ _ h)
        by (vm_compute; reflexivity).
      reflexivity.
    + vm_compute. reflexivity.
    + vm_compute. reflexivity.
  - lia.
  - lia.
Defined.

(** X13.  Whatever status it is asked to look for, [check_host_status]
    returns [True] for a host whose status does not contain [offline]:
    the requested status only matters for a host that is offline. *)
Theorem check_host_status_not_offline (E : env) hostname status w out doc h st :
  result (cluster E (trace w) (host_ls_event hostname)) = inr out ->
  json_loads E out = Ok doc ->
  getindex doc 0 = Ok h ->
  getitem h "status" = Ok (PStr st) ->
  contains "offline" (lower st) = false ->
  check_host_status E hostname status w
  = (Ok true, advance E (host_ls_event hostname) w).
Proof.
  intros Hres Hdoc Hh Hst Hon.
  unfold check_host_status, exec_command.
  fold (host_ls_event hostname).
  rewrite (bind_ok _ _ w _ _ (transport_ok E _ w out Hres)).
  assert (Hstatus : (let! doc := json_loads E out in
                     let! h := getindex doc 0 in
                     let! st := getitem h "status" in
                     lower_of st) = Ok (lower st)).
  { rewrite Hdoc. cbn [res_bind]. rewrite Hh. cbn [res_bind].
    rewrite Hst. reflexivity. }
  rewrite (bind_ok _ _ _ _ _ (lift_ok _ _ _ Hstatus)).
  rewrite Hon.
  destruct status as [s |]; [| reflexivity].
  destruct (negb (String.eqb s EmptyString) && contains (lower s) (lower st));
    reflexivity.
Qed.

Lemma check_host_status_not_offline_witness :
  check_host_status maintenance_env "node1" (Some "drained") w0
  = (Ok true, advance maintenance_env (host_ls_event "node1") w0).
Proof.
  apply (check_host_status_not_offline maintenance_env "node1" (Some "drained")
           w0 (host_json "Maintenance") (decoded (host_json "Maintenance"))
           (PDict [("hostname", PStr "node1"); ("status", PStr "Maintenance")])
           "Maintenance");
    vm_compute; reflexivity.
Defined.

(** ** create_pool and create_erasure_pool *)

(** X14.  When the command that creates the pool fails, [create_pool]
    returns [False] and sends nothing else. *)
Theorem create_pool_creation_failure (E : env) pool_name kwargs w e :
  result (cluster E (trace w) (create_pool_event E pool_name kwargs)) = inl e ->
  create_pool E pool_name kwargs w
  = (Ok (PBool false), advance E (create_pool_event E pool_name kwargs) w).
Proof.
  intros Hfail. unfold create_pool, bind, attempt, shell.
  fold (create_pool_event E pool_name kwargs).
  rewrite (transport_raise E _ w e Hfail). reflexivity.
Qed.

Lemma create_pool_creation_failure_witness :
  create_pool no_create_env (PStr "scratch") [] w0
  = (Ok (PBool false),
     advance no_create_env (create_pool_event no_create_env (PStr "scratch") [])
       w0).
Proof.
  apply (create_pool_creation_failure no_create_env (PStr "scratch") [] w0
           (CommandFailed "pool creation failed")).
  reflexivity.
Defined.

(** X15.  When the pool is created and the command that enables the
    application on it fails, [create_pool] does not return [False]: the
    exception of the transport reaches the caller. *)
Theorem create_pool_app_enable_failure (E : env) pool_name kwargs w out e :
  let w1 := advance E (create_pool_event E pool_name kwargs) w in
  result (cluster E (trace w) (create_pool_event E pool_name kwargs)) = inr out ->
  result (cluster E (trace w1) (app_enable_event E pool_name kwargs)) = inl e ->
  create_pool E pool_name kwargs w
  = (Raise e, advance E (app_enable_event E pool_name kwargs) w1).
Proof.
  intros w1 Hcreate Hfail. unfold create_pool.
  assert (Htry : attempt (shell E (create_pool_cmd E pool_name kwargs) None) w
                 = (Ok (inr out), w1)).
  { unfold attempt, shell. fold (create_pool_event E pool_name kwargs).
    rewrite (transport_ok E _ w out Hcreate). reflexivity. }
  rewrite (bind_ok _ _ w _ _ Htry).
  apply bind_raise. unfold shell.
  fold (app_enable_event E pool_name kwargs).
  apply (transport_raise E _ w1 e Hfail).
Qed.

Lemma create_pool_app_enable_failure_witness :
  create_pool no_app_env (PStr "scratch") [] w0
  = (Raise (CommandFailed "application enable failed"),
     advance no_app_env (app_enable_event no_app_env (PStr "scratch") [])
       (advance no_app_env (create_pool_event no_app_env (PStr "scratch") [])
          w0)).
Proof.
  apply (create_pool_app_enable_failure no_app_env (PStr "scratch") [] w0
           EmptyString (CommandFailed "application enable failed"));
    reflexivity.
Defined.

Lemma issued_cons ev c h :
  issued c h = true -> issued c (ev :: h) = true.
Proof. intros H. unfold issued in *. cbn [existsb]. rewrite H. apply orb_true_r. Qed.

Lemma issued_shell c t h : issued c (Shell c t :: h) = true.
Proof. cbn. rewrite String.eqb_refl. reflexivity. Qed.

Lemma has_key_in k d : has_key k d = true -> In k (map fst d).
Proof.
  unfold has_key. induction d as [| [k' v] d IH]; [discriminate |].
  cbn [lookup map fst]. destruct (String.eqb k k') eqn:Heq.
  - intros _. left. symmetry. apply String.eqb_eq, Heq.
  - intros H. right. apply IH, H.
Qed.

(** The loop over the keyword arguments on a cluster that never fails:
    it runs to its end and has sent the command of every key that
    [cmd_map] knows. *)
Lemma create_pool_settings_ok (E : env) cmd_map keys w :
  never_raises E ->
  exists w',
    create_pool_settings E cmd_map keys w = (Ok None, w')
    /\ (forall c, issued c (trace w) = true -> issued c (trace w') = true)
    /\ (forall k c, In k keys -> lookup_cmd k cmd_map = Some c ->
                    c <> EmptyString -> issued c (trace w') = true).
Proof.
  intros Hnr. revert w.
  induction keys as [| key keys IH]; intros w.
  - exists w. split; [reflexivity |]. split; [auto |]. intros k c [].
  - cbn [create_pool_settings].
    destruct (lookup_cmd key cmd_map) as [c0 |] eqn:Hc0.
    + destruct (String.eqb c0 EmptyString) eqn:Hempty.
      * destruct (IH w) as (w' & Hrun & Hkeep & Hsent).
        exists w'. split; [exact Hrun |]. split; [exact Hkeep |].
        intros k c [<- | Hin] Hk Hne.
        -- rewrite Hc0 in Hk. injection Hk as <-.
           apply String.eqb_eq in Hempty. contradiction.
        -- apply (Hsent k c Hin Hk Hne).
      * destruct (shell_ok E c0 None w Hnr) as [out Hout].
        assert (Htry : attempt (shell E c0 None) w
                       = (Ok (inr out), advance E (Shell c0 None) w)).
        { unfold attempt. rewrite Hout. reflexivity. }
        rewrite (bind_ok _ _ w _ _ Htry).
        destruct (IH (advance E (Shell c0 None) w)) as (w' & Hrun & Hkeep & Hsent).
        exists w'. split; [exact Hrun |]. split.
        -- intros c Hc. apply Hkeep. rewrite trace_advance.
           apply issued_cons, Hc.
        -- intros k c [<- | Hin] Hk Hne.
           ++ rewrite Hc0 in Hk. injection Hk as <-.
              apply Hkeep. rewrite trace_advance. apply issued_shell.
           ++ apply (Hsent k c Hin Hk Hne).
    + destruct (IH w) as (w' & Hrun & Hkeep & Hsent).
      exists w'. split; [exact Hrun |]. split; [exact Hkeep |].
      intros k c [<- | Hin] Hk Hne.
      * rewrite Hc0 in Hk. discriminate.
      * apply (Hsent k c Hin Hk Hne).
Qed.

(** X16.  On a cluster whose commands do not fail, [create_pool] turns the
    PG autoscaler of the pool off whenever [disable_pg_autoscale] is among
    its keyword arguments, whatever value the argument has, and returns
    [True]. *)
Theorem create_pool_disable_pg_autoscale (E : env) pool_name kwargs w :
  never_raises E ->
  has_key "disable_pg_autoscale" kwargs = true ->
  exists w',
    create_pool E pool_name kwargs w = (Ok (PBool true), w')
    /\ issued (autoscale_off_cmd E pool_name) (trace w') = true.
Proof.
  intros Hnr Hkey. unfold create_pool.
  destruct (shell_ok E (create_pool_cmd E pool_name kwargs) None w Hnr)
    as [o1 Ho1].
  set (w1 := advance E (Shell (create_pool_cmd E pool_name kwargs) None) w)
    in *.
  assert (Htry : attempt (shell E (create_pool_cmd E pool_name kwargs) None) w
                 = (Ok (inr o1), w1)).
  { unfold attempt. rewrite Ho1. reflexivity. }
  rewrite (bind_ok _ _ w _ _ Htry).
  match goal with
  | |- context [shell E ?c None] =>
      destruct (shell_ok E c None w1 Hnr) as [o2 Ho2];
      set (w2 := advance E (Shell c None) w1) in *
  end.
  rewrite (bind_ok _ _ w1 _ _ Ho2).
  assert (Hinit : exists w3,
             (if eq_str (kwargs_get kwargs "app_name") "rbd"
              then _ <- shell E ("rbd pool init -p " ++ fmt E pool_name) None ;;
                   ret tt
              else ret tt) w2 = (Ok tt, w3)).
  { destruct (eq_str (kwargs_get kwargs "app_name") "rbd").
    - destruct (shell_ok E ("rbd pool init -p " ++ fmt E pool_name) None w2 Hnr)
        as [o3 Ho3].
      eexists. rewrite (bind_ok _ _ w2 _ _ Ho3). reflexivity.
    - eexists. reflexivity. }
  destruct Hinit as [w3 Hinit].
  rewrite (bind_ok _ _ w2 _ _ Hinit).
  destruct (create_pool_settings_ok E (create_pool_cmd_map E pool_name kwargs)
              (map fst kwargs) w3 Hnr) as (w4 & Hloop & _ & Hsent).
  rewrite (bind_ok _ _ w3 _ _ Hloop).
  eexists. split; [reflexivity |].
  cbn [trace]. apply issued_cons.
  apply (Hsent "disable_pg_autoscale").
  - apply has_key_in, Hkey.
  - reflexivity.
  - discriminate.
Qed.

Lemma create_pool_disable_pg_autoscale_witness :
  exists w',
    create_pool silent_env (PStr "scratch")
      [("disable_pg_autoscale", PBool false)] w0
    = (Ok (PBool true), w')
    /\ issued (autoscale_off_cmd silent_env (PStr "scratch")) (trace w') = true.
Proof.
  apply (create_pool_disable_pg_autoscale silent_env (PStr "scratch")
           [("disable_pg_autoscale", PBool false)] w0).
  - intros h ev. apply (scripted_cluster_never_raises [] eq_refl).
  - reflexivity.
Defined.

(** X17.  Without [pool_name] among its keyword arguments,
    [create_erasure_pool] creates the profile, reads it back and then
    raises [TypeError]: the call of [create_pool] lacks its positional
    argument.  No pool is created. *)
Theorem create_erasure_pool_requires_pool_name (E : env) name kwargs w :
  never_raises E ->
  lookup "pool_name" kwargs = None ->
  exists w',
    create_erasure_pool E name kwargs w = (Raise TypeError, w')
    /\ trace w'
       = profile_get_event name :: profile_set_event E name kwargs :: trace w.
Proof.
  intros Hnr Hmissing. unfold create_erasure_pool.
  destruct (shell_ok E (erasure_profile_cmd E name kwargs) None w Hnr)
    as [o1 Ho1].
  fold (profile_set_event E name kwargs) in Ho1.
  set (w1 := advance E (profile_set_event E name kwargs) w) in *.
  assert (Htry : attempt (shell E (erasure_profile_cmd E name kwargs) None) w
                 = (Ok (inr o1), w1)).
  { unfold attempt. rewrite Ho1. reflexivity. }
  rewrite (bind_ok _ _ w _ _ Htry).
  destruct (shell_ok E ("ceph osd erasure-code-profile get "
                        ++ "ecprofile_" ++ name) None w1 Hnr) as [o2 Ho2].
  fold (profile_get_event name) in Ho2.
  rewrite (bind_ok _ _ w1 _ _ Ho2).
  exists (advance E (profile_get_event name) w1).
  split; [| reflexivity].
  apply bind_raise. unfold call_create_pool. rewrite Hmissing.
  destruct (has_key "ec_profile_name" kwargs || has_key "self" kwargs);
    reflexivity.
Qed.

Lemma create_erasure_pool_requires_pool_name_witness :
  exists w',
    create_erasure_pool silent_env "ec21" [("k", PInt 2); ("m", PInt 1)] w0
    = (Raise TypeError, w')
    /\ trace w'
       = profile_get_event "ec21"
         :: profile_set_event silent_env "ec21" [("k", PInt 2); ("m", PInt 1)]
         :: trace w0.
Proof.
  apply (create_erasure_pool_requires_pool_name silent_env "ec21"
           [("k", PInt 2); ("m", PInt 1)] w0).
  - intros h ev. apply (scripted_cluster_never_raises [] eq_refl).
  - reflexivity.
Defined.

(** ** change_heap_profiler_state *)

Lemma nth_error_middle {A} (pre : list A) x rest :
  nth_error (pre ++ x :: rest) (List.length pre) = Some x.
Proof. induction pre as [| y pre IH]; [reflexivity | exact IH]. Qed.

Lemma nth_error_end {A} (pre : list A) :
  nth_error pre (List.length pre) = None.
Proof. induction pre as [| y pre IH]; [reflexivity | exact IH]. Qed.

Lemma remove_at_middle {A} (pre : list A) x rest :
  remove_at (List.length pre) (pre ++ x :: rest) = (pre ++ rest)%list.
Proof.
  induction pre as [| y pre IH]; [reflexivity |].
  cbn [List.length app remove_at]. rewrite IH. reflexivity.
Qed.

Lemma first_equal_fresh (E : env) x pre rest :
  ~ In x pre ->
  first_equal E (PInt x) (List.length pre) (map PInt (pre ++ rest)) = None.
Proof.
  induction pre as [| y pre IH]; intros Hnot; [reflexivity |].
  cbn [List.length app map first_equal equal].
  assert (Hne : (y =? x) = false).
  { apply Z.eqb_neq. intros ->. apply Hnot. left. reflexivity. }
  rewrite Hne, IH; [reflexivity |].
  intros Hin. apply Hnot. right. exact Hin.
Qed.

Lemma remove_seen_fresh (E : env) x pre rest :
  ~ In x pre ->
  remove_seen E (List.length pre) (PInt x) (map PInt (pre ++ x :: rest))
  = map PInt (pre ++ rest).
Proof.
  intros Hnot. unfold remove_seen.
  rewrite (first_equal_fresh E x pre (x :: rest) Hnot).
  rewrite <- (length_map PInt pre) at 1.
  rewrite !map_app. cbn [map]. apply remove_at_middle.
Qed.

Lemma get_daemon_status_stopped (E : env) target w :
  answers E (daemon_event E target) is_stopped ->
  exists st sd,
    get_daemon_status E "osd" target w
    = (Ok (st, sd), advance E (daemon_event E target) w)
    /\ (eq_int st 0 || eq_str sd "stopped") = true.
Proof.
  intros Hans.
  destruct (run_ceph_command_answers E _ _ _ _ w Hans)
    as (doc & Hrun & e & st & sd & He & Hst & Hsd & Hstopped).
  exists st, sd. split; [| exact Hstopped].
  unfold get_daemon_status.
  change ("ceph orch ps --daemon_type " ++ "osd" ++ " --daemon_id "
          ++ fmt E target ++ " --refresh")
    with ("ceph orch ps --daemon_type osd --daemon_id " ++ fmt E target
          ++ " --refresh").
  unfold daemon_event in Hrun.
  rewrite (bind_ok _ _ w _ _ Hrun).
  apply lift_ok. rewrite He. cbn [res_bind]. rewrite Hst. cbn [res_bind].
  rewrite Hsd. reflexivity.
Qed.

(** The loop when every OSD it looks at is stopped: removing the OSD just
    read moves the next one into its position, and the loop goes on with
    the position after that. *)
Lemma heap_profiler_loop_stopped (E : env) action :
  forall rounds suf pre w,
    NoDup (pre ++ suf) ->
    (forall id, In id suf -> answers E (daemon_event E (PInt id)) is_stopped) ->
    (List.length suf <= rounds)%nat ->
    exists w',
      heap_profiler_loop E rounds action (List.length pre)
        (map PInt (pre ++ suf)) w
      = (Ok (map PInt (pre ++ alternate false suf)), w')
      /\ trace w'
         = (rev (map (fun id => daemon_event E (PInt id)) (alternate true suf))
            ++ trace w)%list.
Proof.
  induction rounds as [| rounds IH]; intros suf pre w Hnd Hans Hlen.
  - destruct suf as [| x suf]; [| cbn in Hlen; lia].
    exists w. split; [| reflexivity].
    cbn [heap_profiler_loop alternate]. rewrite app_nil_r.
    rewrite <- (length_map PInt pre), nth_error_end. reflexivity.
  - destruct suf as [| x rest].
    + exists w. split; [| reflexivity].
      cbn [heap_profiler_loop alternate]. rewrite app_nil_r.
      rewrite <- (length_map PInt pre), nth_error_end. reflexivity.
    + cbn [heap_profiler_loop].
      assert (Hread : nth_error (map PInt (pre ++ x :: rest)) (List.length pre)
                      = Some (PInt x)).
      { rewrite map_app. cbn [map].
        rewrite <- (length_map PInt pre). apply nth_error_middle. }
      rewrite Hread.
      destruct (get_daemon_status_stopped E (PInt x) w
                  (Hans x (or_introl eq_refl)))
        as (st & sd & Hstatus & Hstopped).
      rewrite (bind_ok _ _ w _ _ Hstatus).
      cbn [fst snd]. rewrite Hstopped. cbn [negb].
      assert (Hfresh : ~ In x pre).
      { intros Hin. apply (NoDup_remove_2 pre rest x Hnd).
        apply in_or_app. left. exact Hin. }
      rewrite (remove_seen_fresh E x pre rest Hfresh).
      set (w1 := advance E (daemon_event E (PInt x)) w).
      destruct rest as [| y rest'].
      * exists w1. split; [| reflexivity].
        cbn [alternate]. rewrite !app_nil_r.
        destruct rounds as [| rounds']; cbn [heap_profiler_loop];
          rewrite <- (length_map PInt pre);
          (assert (Hend : nth_error (map PInt pre)
                            (S (List.length (map PInt pre))) = None)
            by (apply nth_error_None; lia));
          rewrite Hend; reflexivity.
      * assert (Hnd' : NoDup ((pre ++ [y]) ++ rest')).
        { rewrite <- app_assoc. cbn [app].
          apply (NoDup_remove_1 pre (y :: rest') x Hnd). }
        assert (Hans' : forall id, In id rest' ->
                                   answers E (daemon_event E (PInt id)) is_stopped).
        { intros id Hin. apply Hans. right. right. exact Hin. }
        assert (Hlen' : (List.length rest' <= rounds)%nat)
          by (cbn [List.length] in Hlen; lia).
        destruct (IH rest' (pre ++ [y])%list w1 Hnd' Hans' Hlen')
          as (w' & Hrun & Htr).
        exists w'. split.
        -- replace (S (List.length pre)) with (List.length (pre ++ [y]))
             by (rewrite length_app; cbn; lia).
           replace (pre ++ y :: rest')%list with ((pre ++ [y]) ++ rest')%list
             by (rewrite <- app_assoc; reflexivity).
           rewrite Hrun. cbn [alternate].
           rewrite <- app_assoc. reflexivity.
        -- rewrite Htr. cbn [alternate map rev].
           rewrite <- app_assoc. reflexivity.
Qed.

(** X18.  [change_heap_profiler_state] removes a stopped OSD from the list
    it is looping over, so the loop passes over the OSD that follows it.
    When all the (distinct) OSDs of the list are stopped, the method looks
    at those at positions 0, 2, 4, ... only and returns the list of the
    others, at positions 1, 3, 5, ..., which it has never looked at. *)
Theorem change_heap_profiler_state_skips (E : env) ids action w :
  NoDup ids ->
  (forall id, In id ids -> answers E (daemon_event E (PInt id)) is_stopped) ->
  exists w',
    change_heap_profiler_state E (map PInt ids) action w
    = (Ok (match ids with [] => 1 | _ => 0 end,
           map PInt (alternate false ids)), w')
    /\ trace w'
       = (rev (map (fun id => daemon_event E (PInt id)) (alternate true ids))
          ++ trace w)%list.
Proof.
  intros Hnd Hans.
  destruct ids as [| x ids]; [exists w; split; reflexivity |].
  destruct (heap_profiler_loop_stopped E action
              (List.length (map PInt (x :: ids))) (x :: ids) [] w Hnd Hans)
    as (w' & Hrun & Htr).
  { rewrite length_map. lia. }
  exists w'. split; [| exact Htr].
  unfold change_heap_profiler_state.
  cbn [map List.length app] in Hrun |- *.
  rewrite (bind_ok _ _ w _ _ Hrun). reflexivity.
Qed.

Lemma stopped_env_answers id :
  In id [1; 2; 3] ->
  answers stopped_env (daemon_event stopped_env (PInt id)) is_stopped.
Proof.
  intros Hin.
  apply (scripted_env_answers stopped_script _ stopped_json
           (decoded stopped_json)).
  - destruct Hin as [<- | [<- | [<- | []]]]; reflexivity.
  - vm_compute. reflexivity.
  - vm_compute. reflexivity.
  - do 3 eexists. repeat split; vm_compute; reflexivity.
Qed.

Lemma change_heap_profiler_state_skips_witness :
  exists w',
    change_heap_profiler_state stopped_env (map PInt [1; 2; 3]) "start" w0
    = (Ok (0, map PInt (alternate false [1; 2; 3])), w')
    /\ trace w'
       = (rev (map (fun id => daemon_event stopped_env (PInt id))
                   (alternate true [1; 2; 3]))
          ++ trace w0)%list.
Proof.
  apply (change_heap_profiler_state_skips stopped_env [1; 2; 3] "start" w0).
  - repeat constructor; cbn; intuition lia.
  - exact stopped_env_answers.
Defined.

(** Three stopped OSDs: OSD 2 is still in the list that comes back. *)
Example change_heap_profiler_state_run :
  fst (change_heap_profiler_state stopped_env [PInt 1; PInt 2; PInt 3]
         "start" w0)
  = Ok (0, [PInt 2]).
Proof. vm_compute. reflexivity. Qed.

(** ** reweight_crush_items *)

Lemma filter_osd_nodes (nodes : list pyval) :
  Forall (fun v => exists t, getitem v "type" = Ok t) nodes ->
  exists l,
    filter_res (fun entry => let! t := getitem entry "type" in
                             Ok (eq_str t "osd")) nodes = Ok l.
Proof.
  induction 1 as [| v nodes [t Ht] _ [l IH]]; [exists []; reflexivity |].
  cbn [filter_res]. rewrite Ht. cbn [res_bind]. rewrite IH. cbn [res_bind].
  eexists. reflexivity.
Qed.

Lemma reweight_crush_items_start (E : env) w :
  answers E df_tree_event osd_tree ->
  exists out l,
    run_ceph_command E "ceph osd df tree" default_timeout false w
    = (Ok out, advance E df_tree_event w)
    /\ (let! n := getitem out "nodes" in
        let! l := iter n in
        filter_res (fun entry => let! t := getitem entry "type" in
                                 Ok (eq_str t "osd")) l) = Ok l.
Proof.
  intros Hans.
  destruct (run_ceph_command_answers E _ _ _ _ w Hans)
    as (doc & Hrun & nodes & Hnodes & Htypes).
  destruct (filter_osd_nodes nodes Htypes) as [l Hl].
  exists doc, l. split; [exact Hrun |].
  rewrite Hnodes. cbn [res_bind iter]. exact Hl.
Qed.

(** X19.  [reweight_crush_items] with a [name] and without a [weight]
    raises [KeyError]; it has fetched the OSD listing and has not sent
    any re-weight command. *)
Theorem reweight_crush_items_missing_weight (E : env) fuel kwargs w :
  answers E df_tree_event osd_tree ->
  truthy (kwargs_get kwargs "name") = true ->
  lookup "weight" kwargs = None ->
  reweight_crush_items E fuel kwargs w
  = (Raise KeyError, advance E df_tree_event w).
Proof.
  intros Hans Hname Hweight.
  destruct (reweight_crush_items_start E w Hans) as (out & l & Hrun & Hl).
  unfold reweight_crush_items.
  rewrite (bind_ok _ _ w _ _ Hrun).
  rewrite (bind_ok _ _ _ _ _ (lift_ok _ _ _ Hl)).
  rewrite Hname. apply bind_raise. apply lift_raise.
  cbn [getitem]. rewrite Hweight. reflexivity.
Qed.

Lemma balanced_env_tree : answers balanced_env df_tree_event osd_tree.
Proof.
  apply (scripted_env_answers _ df_tree_event df_tree_json (decoded df_tree_json));
    [reflexivity | vm_compute; reflexivity | vm_compute; reflexivity |].
  eexists. split; [vm_compute; reflexivity |].
  repeat constructor. eexists. vm_compute. reflexivity.
Qed.

Lemma reweight_crush_items_missing_weight_witness :
  reweight_crush_items balanced_env 0 [("name", PStr "osd.0")] w0
  = (Raise KeyError, advance balanced_env df_tree_event w0).
Proof.
  apply (reweight_crush_items_missing_weight balanced_env 0
           [("name", PStr "osd.0")] w0).
  - exact balanced_env_tree.
  - reflexivity.
  - reflexivity.
Defined.

(** X20.  When no [name] is given and the re-weight by utilization changes
    no OSD, [reweight_crush_items] returns [True] after its two fetches:
    it neither sleeps nor verifies anything, whether or not
    [verify_reweight] was asked for. *)
Theorem reweight_crush_items_nothing_to_do (E : env) fuel kwargs w :
  answers E df_tree_event osd_tree ->
  answers E reweight_by_utilization_event (no_reweights E) ->
  truthy (kwargs_get kwargs "name") = false ->
  reweight_crush_items E fuel kwargs w
  = (Ok (PBool true),
     advance E reweight_by_utilization_event (advance E df_tree_event w)).
Proof.
  intros Htree Hrbu Hname.
  destruct (reweight_crush_items_start E w Htree) as (out & l & Hrun & Hl).
  unfold reweight_crush_items.
  rewrite (bind_ok _ _ w _ _ Hrun).
  rewrite (bind_ok _ _ _ _ _ (lift_ok _ _ _ Hl)).
  rewrite Hname.
  destruct (run_ceph_command_answers E _ _ _ _ (advance E df_tree_event w) Hrbu)
    as (doc & Hrun2 & m & z & Hm & Hz & Hsmall).
  rewrite (bind_ok _ _ _ _ _ Hrun2).
  assert (Hchanges : (let! m := getitem doc "max_change_osds" in py_int E m)
                     = Ok z).
  { rewrite Hm. exact Hz. }
  rewrite (bind_ok _ _ _ _ _ (lift_ok _ _ _ Hchanges)).
  assert (Hcmp : (z >=? 1) = false) by (rewrite Z.geb_leb; apply Z.leb_gt; lia).
  rewrite Hcmp. reflexivity.
Qed.

Lemma reweight_crush_items_nothing_to_do_witness :
  reweight_crush_items balanced_env 0 [("verify_reweight", PBool true)] w0
  = (Ok (PBool true),
     advance balanced_env reweight_by_utilization_event
       (advance balanced_env df_tree_event w0)).
Proof.
  apply (reweight_crush_items_nothing_to_do balanced_env 0
           [("verify_reweight", PBool true)] w0).
  - exact balanced_env_tree.
  - apply (scripted_env_answers _ reweight_by_utilization_event
             ("{" ++ jfield "max_change_osds" "0" ++ "}")
             (decoded ("{" ++ jfield "max_change_osds" "0" ++ "}")));
      [reflexivity | vm_compute; reflexivity | vm_compute; reflexivity |].
    exists (PInt 0), 0. split; [vm_compute; reflexivity |].
    split; [reflexivity | lia].
  - reflexivity.
Defined.

(** ** autoscaler_pool_settings *)

Lemma autoscaler_pool_settings_loop_unlisted (E : env) pool kwargs names :
  answers E df_event (pool_listing names) ->
  member E pool names = false ->
  forall value_map w,
  exists w',
    autoscaler_pool_settings_loop E pool kwargs value_map w
    = (Ok (PBool (negb (existsb (fun kv => has_key (fst kv) kwargs) value_map))),
       w')
    /\ trace w'
       = ((if existsb (fun kv => has_key (fst kv) kwargs) value_map
           then [df_event] else []) ++ trace w)%list.
Proof.
  intros Hans Hmem.
  induction value_map as [| [val value] value_map IH]; intros w.
  - exists w. split; reflexivity.
  - cbn [autoscaler_pool_settings_loop existsb fst].
    destruct (has_key val kwargs); cbn [orb negb].
    + rewrite (bind_ok _ _ w _ _
                 (set_pool_property_unlisted E pool val value names w
                    Hans Hmem)).
      cbn [truthy negb].
      exists (advance E df_event w). split; reflexivity.
    + apply IH.
Qed.

(** X21.  For a pool that [ceph df] does not list,
    [autoscaler_pool_settings] returns [False] after one listing of the
    pools when at least one of its four settings is given; when none is
    given it returns [True] without sending any command. *)
Theorem autoscaler_pool_settings_unlisted_pool (E : env) kwargs pool names w :
  answers E df_event (pool_listing names) ->
  lookup "pool_name" kwargs = Some pool ->
  member E pool names = false ->
  exists w',
    autoscaler_pool_settings E kwargs w
    = (Ok (PBool (negb (existsb (fun k => has_key k kwargs) autoscaler_keys))),
       w')
    /\ trace w'
       = ((if existsb (fun k => has_key k kwargs) autoscaler_keys
           then [df_event] else []) ++ trace w)%list.
Proof.
  intros Hans Hpool Hmem. unfold autoscaler_pool_settings.
  assert (Hget : getitem (PDict kwargs) "pool_name" = Ok pool)
    by (cbn [getitem]; rewrite Hpool; reflexivity).
  rewrite (bind_ok _ _ w _ _ (lift_ok _ _ w Hget)).
  destruct (autoscaler_pool_settings_loop_unlisted E pool kwargs names
              Hans Hmem
              [("pg_autoscale_mode", kwargs_get kwargs "pg_autoscale_mode");
               ("target_size_ratio", kwargs_get kwargs "target_size_ratio");
               ("target_size_bytes", kwargs_get kwargs "target_size_bytes");
               ("pg_num_min", kwargs_get kwargs "pg_num_min")] w)
    as (w' & Hrun & Htr).
  exists w'. split; [exact Hrun | exact Htr].
Qed.

Lemma autoscaler_pool_settings_unlisted_pool_witness :
  exists w',
    autoscaler_pool_settings two_pools_env
      [("pool_name", PStr "scratch"); ("pg_num_min", PInt 16)] w0
    = (Ok (PBool (negb (existsb
                          (fun k => has_key k [("pool_name", PStr "scratch");
                                               ("pg_num_min", PInt 16)])
                          autoscaler_keys))),
       w')
    /\ trace w'
       = ((if existsb (fun k => has_key k [("pool_name", PStr "scratch");
                                           ("pg_num_min", PInt 16)])
                autoscaler_keys
           then [df_event] else []) ++ trace w0)%list.
Proof.
  apply (autoscaler_pool_settings_unlisted_pool two_pools_env
           [("pool_name", PStr "scratch"); ("pg_num_min", PInt 16)]
           (PStr "scratch") [PStr "rbd"; PStr "cephfs_data"] w0).
  - exact two_pools_env_lists.
  - reflexivity.
  - reflexivity.
Defined.

(** ** enable_balancer *)

Lemma issued_advance (E : env) ev c w :
  issued c (trace w) = true -> issued c (trace (advance E ev w)) = true.
Proof. intros H. rewrite trace_advance. apply issued_cons, H. Qed.

Lemma optional_shell_ok (E : env) (b : bool) cmd c w :
  never_raises E ->
  issued c (trace w) = true ->
  exists w',
    (if b then _ <- shell E cmd None ;; ret tt else ret tt) w = (Ok tt, w')
    /\ issued c (trace w') = true.
Proof.
  intros Hnr Hc. destruct b.
  - destruct (shell_ok E cmd None w Hnr) as [out Hout].
    exists (advance E (Shell cmd None) w). split.
    + rewrite (bind_ok _ _ w _ _ Hout). reflexivity.
    + apply issued_advance, Hc.
  - exists w. split; [reflexivity | exact Hc].
Qed.

(** X22.  On a cluster whose commands do not fail, [enable_balancer] turns
    the balancer on and returns whether the balancer status reports it
    active, whatever the module listing holds: a listing without the
    balancer module only makes the method log an error. *)
Theorem enable_balancer_result (E : env) kwargs act w :
  never_raises E ->
  answers E mgr_module_ls_event module_listing ->
  answers E balancer_status_event (fun doc => getitem doc "active" = Ok act) ->
  exists w',
    enable_balancer E kwargs w = (Ok (PBool (truthy act)), w')
    /\ issued "ceph balancer on" (trace w') = true.
Proof.
  intros Hnr Hmods Hstatus. unfold enable_balancer.
  destruct (run_ceph_command_answers E _ _ _ _ w Hmods)
    as (mods & Hrun & a & e & Ha & He).
  fold mgr_module_ls_event in Hrun.
  rewrite (bind_ok _ _ w _ _ Hrun).
  assert (Hin : exists b,
             (let! a := getitem mods "always_on_modules" in
              let! ina := py_in E (PStr "balancer") a in
              if ina then Ok true
              else
                let! e := getitem mods "enabled_modules" in
                py_in E (PStr "balancer") e) = Ok b).
  { rewrite Ha. cbn [res_bind py_in].
    destruct (member E (PStr "balancer") a); [eexists; reflexivity |].
    rewrite He. cbn [res_bind py_in]. eexists. reflexivity. }
  destruct Hin as [b Hin].
  rewrite (bind_ok _ _ _ _ _ (lift_ok _ _ _ Hin)).
  set (w1 := advance E mgr_module_ls_event w).
  match goal with
  | |- context [shell E ?c None] =>
      destruct (shell_ok E c None w1 Hnr) as [o2 Ho2];
      set (w2 := advance E (Shell c None) w1) in *
  end.
  rewrite (bind_ok _ _ w1 _ _ Ho2).
  destruct (shell_ok E "ceph balancer on" None w2 Hnr) as [o3 Ho3].
  set (w3 := advance E (Shell "ceph balancer on" None) w2) in *.
  rewrite (bind_ok _ _ w2 _ _ Ho3).
  assert (H3 : issued "ceph balancer on" (trace w3) = true)
    by apply issued_shell.
  destruct (optional_shell_ok E
              (truthy (kwargs_get kwargs "target_max_misplaced_ratio"))
              ("ceph config set mgr target_max_misplaced_ratio "
               ++ fmt E (kwargs_get kwargs "target_max_misplaced_ratio"))
              "ceph balancer on" w3 Hnr H3) as (w4 & Hopt1 & H4).
  rewrite (bind_ok _ _ w3 _ _ Hopt1).
  destruct (optional_shell_ok E
              (truthy (kwargs_get kwargs "sleep_interval"))
              ("ceph config set mgr mgr/balancer/sleep_interval "
               ++ fmt E (kwargs_get kwargs "sleep_interval"))
              "ceph balancer on" w4 Hnr H4) as (w5 & Hopt2 & H5).
  rewrite (bind_ok _ _ w4 _ _ Hopt2).
  set (w6 := mkWorld (clock w5 + seconds 10) (Sleep 10 :: trace w5)).
  assert (Hsleep : sleep 10 w5 = (Ok tt, w6)) by reflexivity.
  rewrite (bind_ok _ _ w5 _ _ Hsleep).
  destruct (run_ceph_command_answers E _ _ _ _ w6 Hstatus)
    as (doc & Hrun2 & Hact).
  rewrite (bind_ok _ _ w6 _ _ Hrun2).
  rewrite (bind_ok _ _ _ _ _ (lift_ok _ _ _ Hact)).
  exists (advance E balancer_status_event w6).
  split.
  - destruct (truthy act); reflexivity.
  - apply issued_advance. unfold w6. cbn [trace]. apply issued_cons, H5.
Qed.

Lemma enable_balancer_result_witness :
  exists w',
    enable_balancer balancer_env [] w0 = (Ok (PBool (truthy (PBool true))), w')
    /\ issued "ceph balancer on" (trace w') = true.
Proof.
  apply (enable_balancer_result balancer_env [] (PBool true) w0).
  - intros h ev.
    apply (scripted_cluster_never_raises
             [(mgr_module_ls_event,
               ([], inr ("{" ++ jfield "always_on_modules" "[]" ++ ", "
                             ++ jfield "enabled_modules"
                                  ("[" ++ jstr "iostat" ++ "]")
                         ++ "}")));
              (balancer_status_event,
               ([], inr ("{" ++ jfield "active" "true" ++ "}")))] eq_refl).
  - eapply (scripted_env_answers _ mgr_module_ls_event);
      [reflexivity | vm_compute; reflexivity | vm_compute; reflexivity |].
    do 2 eexists. split; vm_compute; reflexivity.
  - eapply (scripted_env_answers _ balancer_status_event);
      [reflexivity | vm_compute; reflexivity | vm_compute; reflexivity |].
    vm_compute. reflexivity.
Defined.

(** ** enable_email_alerts *)

(** X23.  Without a destination address [enable_email_alerts] returns
    [False], but only after it has enabled the alerts module and written
    its six settings to the cluster. *)
Theorem enable_email_alerts_no_destination (E : env) kwargs w :
  never_raises E ->
  truthy (kwargs_get kwargs "smtp_destination") = false ->
  exists w',
    enable_email_alerts E kwargs w = (Ok (PBool false), w')
    /\ trace w'
       = (rev (map (fun cmd => Shell cmd None) (alert_cmds E kwargs))
          ++ Shell "ceph mgr module enable alerts" None :: trace w)%list.
Proof.
  intros Hnr Hnone. unfold enable_email_alerts.
  destruct (shell_ok E "ceph mgr module enable alerts" None w Hnr) as [o1 Ho1].
  rewrite (bind_ok _ _ w _ _ Ho1).
  destruct (for_each_shell_ok E (fun cmd : string => cmd) (alert_cmds E kwargs)
              (advance E (Shell "ceph mgr module enable alerts" None) w) Hnr)
    as (w1 & Hloop & Htr & _).
  rewrite (bind_ok _ _ _ _ _ Hloop), Hnone.
  exists w1. split; [reflexivity | exact Htr].
Qed.

Lemma enable_email_alerts_no_destination_witness :
  exists w',
    enable_email_alerts silent_env [("smtp_port", PInt 587)] w0
    = (Ok (PBool false), w')
    /\ trace w'
       = (rev (map (fun cmd => Shell cmd None)
                   (alert_cmds silent_env [("smtp_port", PInt 587)]))
          ++ Shell "ceph mgr module enable alerts" None :: trace w0)%list.
Proof.
  apply (enable_email_alerts_no_destination silent_env
           [("smtp_port", PInt 587)] w0).
  - intros h ev. apply (scripted_cluster_never_raises [] eq_refl).
  - reflexivity.
Defined.

(** ** pool_inline_compression *)

Lemma for_each_optional_shell_ok (E : env) {A} (cond : A -> bool)
  (f : A -> string) (l : list A) w :
  never_raises E ->
  exists w',
    for_each l (fun x => if cond x
                         then _ <- shell E (f x) None ;; ret tt
                         else ret tt) w = (Ok tt, w').
Proof.
  intros Hnr. revert w.
  induction l as [| x l IH]; intros w; [exists w; reflexivity |].
  cbn [for_each]. destruct (cond x).
  - destruct (shell_ok E (f x) None w Hnr) as [out Hout].
    rewrite (bind_ok _ _ w tt (advance E (Shell (f x) None) w))
      by (rewrite (bind_ok _ _ w _ _ Hout); reflexivity).
    apply IH.
  - rewrite (bind_ok _ _ w tt w) by reflexivity. apply IH.
Qed.

Lemma compression_check_missing_option (E : env) pool algorithm
  before names target rest :
  Forall2 pool_named before names ->
  ~ In pool names ->
  uncompressed_pool pool target ->
  compression_check E pool algorithm (before ++ target :: rest) = Raise KeyError.
Proof.
  intros Hbefore Hnot (d & o & -> & Hname & Hopts & Hmissing).
  induction Hbefore as [| v n before names (dv & -> & Hn) _ IH].
  - cbn [app compression_check getitem]. rewrite Hname. cbn [res_bind eq_str].
    rewrite String.eqb_refl, Hopts. cbn [res_bind getitem]. rewrite Hmissing.
    reflexivity.
  - cbn [app compression_check getitem]. rewrite Hn. cbn [res_bind eq_str].
    destruct (String.eqb n pool) eqn:Heq.
    + apply String.eqb_eq in Heq. exfalso. apply Hnot. left. exact Heq.
    + apply IH. intros Hin. apply Hnot. right. exact Hin.
Qed.

(** X24.  For a listed pool whose options in [ceph osd dump] hold no
    compression algorithm, [pool_inline_compression] raises [KeyError]
    when it comes to check the algorithm, whatever settings it was asked
    to make. *)
Theorem pool_inline_compression_missing_option (E : env) pool kwargs w
  before names target rest :
  never_raises E ->
  answers E df_event (pool_present pool) ->
  answers E osd_dump_event
    (fun doc => getitem doc "pools" = Ok (PList (before ++ target :: rest))) ->
  Forall2 pool_named before names ->
  ~ In pool names ->
  uncompressed_pool pool target ->
  exists w', pool_inline_compression E pool kwargs w = (Raise KeyError, w').
Proof.
  intros Hnr Hdf Hdump Hbefore Hnot Htarget.
  unfold pool_inline_compression.
  assert (Hlist : exists pools,
             list_pools E w = (Ok pools, advance E df_event w)
             /\ str_in_list pool pools = true).
  { destruct (run_ceph_command_answers E _ _ _ _ w Hdf)
      as (doc & Hrun & p & pools & Hp & Hcol & Hin).
    exists pools. split; [| exact Hin].
    unfold list_pools. rewrite (bind_ok _ _ w _ _ Hrun).
    apply lift_ok. rewrite Hp. exact Hcol. }
  destruct Hlist as (pools & Hlist & Hin).
  rewrite (bind_ok _ _ w _ _ Hlist), Hin. cbn [negb].
  destruct (for_each_optional_shell_ok E
              (fun kv : string * pyval =>
                 truthy (kwargs_default kwargs (fst kv) (PBool false)))
              (fun kv => "ceph osd pool set " ++ pool ++ " " ++ fst kv ++ " "
                         ++ fmt E (snd kv))
              (compression_value_map kwargs) (advance E df_event w) Hnr)
    as (w1 & Hloop).
  rewrite (bind_ok _ _ _ _ _ Hloop).
  destruct (run_ceph_command_answers E _ _ _ _ w1 Hdump) as (doc & Hrun & Hpools).
  rewrite (bind_ok _ _ w1 _ _ Hrun).
  eexists. apply lift_raise.
  rewrite Hpools. cbn [res_bind iter].
  apply (compression_check_missing_option E pool _ before names target rest
           Hbefore Hnot Htarget).
Qed.

Lemma pool_inline_compression_missing_option_witness :
  exists w',
    pool_inline_compression plain_pool_env "rbd"
      [("compression_mode", PStr "force")] w0
    = (Raise KeyError, w').
Proof.
  apply (pool_inline_compression_missing_option plain_pool_env "rbd"
           [("compression_mode", PStr "force")] w0 [] []
           (PDict [("pool", PInt 1); ("pool_name", PStr "rbd");
                   ("options", PDict [])]) []).
  - intros h ev. apply (scripted_cluster_never_raises plain_pool_script eq_refl).
  - apply (scripted_env_answers plain_pool_script df_event pool_list_json
             (decoded pool_list_json));
      [reflexivity | vm_compute; reflexivity | vm_compute; reflexivity |].
    do 2 eexists. repeat split; vm_compute; reflexivity.
  - apply (scripted_env_answers plain_pool_script osd_dump_event plain_pool_json
             (decoded plain_pool_json));
      [reflexivity | | | ]; vm_compute; reflexivity.
  - constructor.
  - intros [].
  - do 2 eexists. repeat split.
Defined.
